(** * Attendance guardian: face matching, schedule resolution and absence alerts

    A shallow embedding of the detection / matching / decision pipeline of
    the attendance monitor (the face recognition service, the class-hour
    resolver and the attendance check of the monitoring component), with the
    properties its specification states about them.

    JavaScript numbers are IEEE 754 binary64 values: they are modelled by
    Rocq's primitive floats, whose operations are the binary64 ones
    (round to nearest, ties to even). *)

From Stdlib Require Import List Bool Arith ZArith Lia String Ascii Permutation.
From Stdlib Require Import Floats.
From Stdlib Require Uint63 DecimalString.
Import ListNotations.

Set Warnings "-inexact-float".

(** ** JavaScript values used by the program *)

Module Js.

Definition number := float.

(** [x === y] on numbers: IEEE equality ([NaN] differs from itself,
    [-0 === 0]). *)
Definition strict_eq (x y : number) : bool := (x =? y)%float.

(** [x > y] on numbers: false as soon as one side is [NaN]. *)
Definition gt (x y : number) : bool := (y <? x)%float.

(** [a[i]] on a [number[]]: a read past the end gives [undefined], which
    arithmetic turns into [NaN]. *)
Definition get (a : list number) (i : nat) : number := nth i a nan.

(** The result of running a piece of code that may throw. *)
Inductive outcome (E A : Type) : Type :=
| Returns (a : A)
| Throws (e : E).
Arguments Returns {E A} a.
Arguments Throws {E A} e.

(** A thrown value, by its message. *)
Definition error := string.

(** [a >= b] and [a <= b] on strings: lexicographic order of the code
    units (the strings compared by the program are ASCII). *)
Definition str_ge (a b : string) : bool := String.leb b a.
Definition str_le (a b : string) : bool := String.leb a b.

(** *** Plain objects used as dictionaries

    An object literal [{}] holds its own properties in creation order and
    inherits the properties of [Object.prototype]. *)

Definition object (V : Type) : Type := list (string * V).

Definition object_prototype_keys : list string :=
  [ "constructor"; "__defineGetter__"; "__defineSetter__"; "hasOwnProperty";
    "__lookupGetter__"; "__lookupSetter__"; "isPrototypeOf";
    "propertyIsEnumerable"; "toString"; "valueOf"; "__proto__";
    "toLocaleString" ]%string.

Definition inherited (k : string) : bool :=
  existsb (String.eqb k) object_prototype_keys.

Fixpoint own {V : Type} (o : object V) (k : string) : option V :=
  match o with
  | [] => None
  | (k', v) :: o' => if String.eqb k' k then Some v else own o' k
  end.

(** What [o[k]] evaluates to: an own property, else a member of
    [Object.prototype] (a function or the prototype itself: truthy, and
    without the fields of a stored value), else [undefined]. *)
Inductive property (V : Type) : Type :=
| Own (v : V)
| Inherited
| Undefined.
Arguments Own {V} v.
Arguments Inherited {V}.
Arguments Undefined {V}.

Definition lookup {V : Type} (o : object V) (k : string) : property V :=
  match own o k with
  | Some v => Own v
  | None => if inherited k then Inherited else Undefined
  end.

(** [o[k] = v] for a key that [Object.prototype] does not define: an
    existing own property keeps its place, a new one goes last. *)
Fixpoint assign {V : Type} (o : object V) (k : string) (v : V) : object V :=
  match o with
  | [] => [(k, v)]
  | (k', v') :: o' =>
      if String.eqb k' k then (k', v) :: o' else (k', v') :: assign o' k v
  end.

(** Array indices: the canonical decimal strings of the integers from [0]
    to [2^32 - 2]. *)
Definition digit (c : ascii) : option N :=
  let n := N_of_ascii c in
  if ((48 <=? n) && (n <=? 57))%N then Some (n - 48)%N else None.

Fixpoint digits_value (s : string) (acc : N) : option N :=
  match s with
  | EmptyString => Some acc
  | String c s' =>
      match digit c with
      | Some d => digits_value s' (10 * acc + d)%N
      | None => None
      end
  end.

Definition array_index (s : string) : option N :=
  match s with
  | EmptyString => None
  | String c EmptyString => digit c
  | String c _ =>
      if Ascii.eqb c "0"%char then None
      else match digits_value s 0%N with
           | Some n => if (n <=? 4294967294)%N then Some n else None
           | None => None
           end
  end.

Fixpoint insert_by_index {V : Type} (n : N) (kv : string * V)
    (l : list (N * (string * V))) : list (N * (string * V)) :=
  match l with
  | [] => [(n, kv)]
  | (n', kv') :: l' =>
      if (n <=? n')%N then (n, kv) :: l
      else (n', kv') :: insert_by_index n kv l'
  end.

(** The own properties whose key is an array index, in ascending index
    order. *)
Fixpoint index_properties {V : Type} (o : object V) : list (N * (string * V)) :=
  match o with
  | [] => []
  | (k, v) :: o' =>
      match array_index k with
      | Some n => insert_by_index n (k, v) (index_properties o')
      | None => index_properties o'
      end
  end.

Definition is_index (k : string) : bool :=
  match array_index k with Some _ => true | None => false end.

(** Own property order: array indices ascending, then the other keys in
    creation order. *)
Definition own_properties {V : Type} (o : object V) : list (string * V) :=
  map snd (index_properties o)
  ++ filter (fun kv => negb (is_index (fst kv))) o.

Definition Object_values {V : Type} (o : object V) : list V :=
  map snd (own_properties o).

End Js.

(** ** The face recognition service *)

Module FaceRecognitionService.
Import Js.

(** *** Data *)

Record Box : Type := mkBox {
  xmin : number;
  ymin : number;
  xmax : number;
  ymax : number
}.

(** One entry of the object-detection pipeline's output. *)
Record Detection : Type := mkDetection {
  label : string;
  det_score : number;
  det_box : Box
}.

Record DetectedFace : Type := mkDetectedFace {
  box : Box;
  score : number;
  embedding : option (list number)
}.

Record Student : Type := mkStudent {
  id : string;
  name : string;
  student_id : string;
  face_encoding : option (list number)
}.

Record Match : Type := mkMatch {
  student : Student;
  confidence : number
}.

(** An image element is determined by the data URL it was loaded from; a
    canvas made by [cropFaceFromImage] by the image and the box drawn. *)
Record HTMLImageElement : Type := mkImage { src : string }.

Record HTMLCanvasElement : Type := mkCanvas {
  source : HTMLImageElement;
  region : Box
}.

(** The two loaded pipelines, as the functions they compute. The embedder is
    taken together with the JPEG encoding of the canvas and the conversion of
    its output tensor to an array. *)
Definition Detector : Type := HTMLImageElement -> outcome error (list Detection).
Definition Embedder : Type := HTMLCanvasElement -> outcome error (list number).

(** What the service finds around it: the outcome of the two [pipeline(...)]
    loads, and whether a canvas created for a crop yields a 2d context. *)
Record Environment : Type := mkEnvironment {
  pipeline_detection : outcome error Detector;
  pipeline_extraction : outcome error Embedder;
  context2d : Box -> bool
}.

(** The private fields of the service object. *)
Record Service : Type := mkService {
  detector : option Detector;
  embedder : option Embedder;
  initialized : bool
}.

Definition new_service : Service := mkService None None false.

(** *** initialize *)

Definition initialize (env : Environment) (this : Service)
  : outcome error unit * Service :=
  if initialized this then (Returns tt, this)
  else
    match pipeline_detection env with
    | Throws e => (Throws e, this)
    | Returns d =>
        let this1 := mkService (Some d) (embedder this) (initialized this) in
        match pipeline_extraction env with
        | Throws e => (Throws e, this1)
        | Returns m => (Returns tt, mkService (Some d) (Some m) true)
        end
    end.

(** *** detectFaces *)

Definition is_person (result : Detection) : bool :=
  String.eqb (label result) "person" && gt (det_score result) 0.5%float.

Definition to_face (result : Detection) : DetectedFace :=
  mkDetectedFace (det_box result) (det_score result) None.

Definition detectFaces (env : Environment) (this : Service)
    (imageElement : HTMLImageElement)
  : outcome error (list DetectedFace) * Service :=
  let '(started, this) :=
    if negb (initialized this) then initialize env this
    else (Returns tt, this) in
  match started with
  | Throws e => (Throws e, this)
  | Returns _ =>
      match detector this with
      | None => (Returns [], this)
      | Some detect =>
          match detect imageElement with
          | Throws _ => (Returns [], this)
          | Returns results =>
              (Returns (map to_face (filter is_person results)), this)
          end
      end
  end.

(** *** extractFaceEmbedding and cropFaceFromImage *)

Definition extractFaceEmbedding (env : Environment) (this : Service)
    (faceImage : HTMLCanvasElement)
  : outcome error (list number) * Service :=
  let '(started, this) :=
    if negb (initialized this) then initialize env this
    else (Returns tt, this) in
  match started with
  | Throws e => (Throws e, this)
  | Returns _ =>
      match embedder this with
      | None => (Returns [], this)
      | Some embed =>
          match embed faceImage with
          | Throws _ => (Returns [], this)
          | Returns data => (Returns data, this)
          end
      end
  end.

Definition cropFaceFromImage (env : Environment)
    (imageElement : HTMLImageElement) (faceBox : Box)
  : outcome error HTMLCanvasElement :=
  if context2d env faceBox then Returns (mkCanvas imageElement faceBox)
  else Throws "Could not get canvas context"%string.

(** *** calculateSimilarity *)

(** The three accumulators of the similarity loop. *)
Record sums : Type := mkSums {
  dotProduct : number;
  norm1 : number;
  norm2 : number
}.

(** One iteration of [for (let i = 0; i < embedding1.length; i++)]. *)
Definition similarity_step (embedding1 embedding2 : list number)
    (s : sums) (i : nat) : sums :=
  {| dotProduct := (dotProduct s + get embedding1 i * get embedding2 i)%float;
     norm1 := (norm1 s + get embedding1 i * get embedding1 i)%float;
     norm2 := (norm2 s + get embedding2 i * get embedding2 i)%float |}.

Definition similarity_loop (embedding1 embedding2 : list number) : sums :=
  fold_left (similarity_step embedding1 embedding2)
            (seq 0 (List.length embedding1))
            (mkSums 0%float 0%float 0%float).

Definition calculateSimilarity (embedding1 embedding2 : list number) : number :=
  if negb (List.length embedding1 =? List.length embedding2)%nat then 0%float
  else
    let s := similarity_loop embedding1 embedding2 in
    let norm1 := sqrt (norm1 s) in
    let norm2 := sqrt (norm2 s) in
    if strict_eq norm1 0%float || strict_eq norm2 0%float then 0%float
    else (dotProduct s / (norm1 * norm2))%float.

(** The Euclidean norm of one vector as the loop computes it: the square
    root of the running sum of squares, started at [0]. *)
Definition sum_squares (e : list number) : number :=
  fold_left (fun acc x => (acc + x * x)%float) e 0%float.

Definition norm (e : list number) : number := sqrt (sum_squares e).

Definition zero_norm (e : list number) : Prop :=
  strict_eq (norm e) 0%float = true.

(** *** matchFaceWithStudents *)

Definition threshold : number := 0.7%float.

(** The inner loop: the roster entries a probe embedding matches. *)
Definition compareWithStudents (faceEmbedding : list number)
    (students : list Student) : list Match :=
  flat_map
    (fun student =>
       match face_encoding student with
       | None => []
       | Some encoding =>
           let similarity := calculateSimilarity faceEmbedding encoding in
           if gt similarity threshold then [mkMatch student similarity]
           else []
       end)
    students.

(** The body of the outer loop for one face, under its [try]: a face whose
    crop or embedding throws, or whose embedding is empty, adds nothing. *)
Definition processFace (env : Environment) (imageElement : HTMLImageElement)
    (students : list Student) (acc : list Match * Service)
    (face : DetectedFace) : list Match * Service :=
  let '(matches, this) := acc in
  match cropFaceFromImage env imageElement (box face) with
  | Throws _ => (matches, this)
  | Returns faceCanvas =>
      let '(extracted, this) := extractFaceEmbedding env this faceCanvas in
      match extracted with
      | Throws _ => (matches, this)
      | Returns faceEmbedding =>
          if (List.length faceEmbedding =? 0)%nat then (matches, this)
          else (matches ++ compareWithStudents faceEmbedding students, this)
      end
  end.

(** The array [matches] after the outer loop. *)
Definition collectMatches (env : Environment) (this : Service)
    (detectedFaces : list DetectedFace) (imageElement : HTMLImageElement)
    (students : list Student) : list Match * Service :=
  fold_left (processFace env imageElement students) detectedFaces ([], this).

(** One iteration of the loop that fills [uniqueMatches]. *)
Definition keepBest (uniqueMatches : object Match) (m : Match) : object Match :=
  let studentId := id (student m) in
  match lookup uniqueMatches studentId with
  | Undefined => assign uniqueMatches studentId m
  | Inherited => uniqueMatches
  | Own existing =>
      if gt (confidence m) (confidence existing)
      then assign uniqueMatches studentId m
      else uniqueMatches
  end.

Definition uniqueMatches (matches : list Match) : object Match :=
  fold_left keepBest matches [].

Definition matchFaceWithStudents (env : Environment) (this : Service)
    (detectedFaces : list DetectedFace) (imageElement : HTMLImageElement)
    (students : list Student) : list Match * Service :=
  let '(matches, this) :=
    collectMatches env this detectedFaces imageElement students in
  (Object_values (uniqueMatches matches), this).

End FaceRecognitionService.

(** ** The record store

    The tables of the migration that the monitor reads and writes, and the
    requests the monitor sends to them. *)

Module Supabase.
Import Js.

Record attendance_record : Type := mkAttendance {
  ar_student_id : string;
  ar_date : string;
  ar_class_hour : string;
  ar_status : string
}.

Record duty_leave : Type := mkDutyLeave {
  dl_student_id : string;
  dl_date : string;
  dl_class_hour : string;
  dl_reason : option string
}.

Record notification : Type := mkNotification {
  n_student_id : string;
  n_message : string;
  n_class_hour : string;
  n_date : string
}.

Record Database : Type := mkDatabase {
  attendance_records : list attendance_record;
  duty_leaves : list duty_leave;
  notifications : list notification
}.

(** How the backend treats one request: it answers it; it resolves with an
    error and [data: null] (network failure, a policy or a constraint of
    the schema other than the unique key modelled below); or the awaited
    promise rejects. *)
Inductive fate : Type :=
| Served
| Failed
| Rejected (e : error).

(** The store and the fates of the requests to come, one per request in
    order; once the list is used up every request is served. *)
Record World : Type := mkWorld {
  database : Database;
  fates : list fate
}.

(** Code that talks to the store and may throw. *)
Definition M (A : Type) : Type := World -> outcome error A * World.

Definition ret {A : Type} (a : A) : M A := fun w => (Returns a, w).

Definition bind {A B : Type} (c : M A) (k : A -> M B) : M B :=
  fun w =>
    match c w with
    | (Returns a, w') => k a w'
    | (Throws e, w') => (Throws e, w')
    end.

Definition try_catch {A : Type} (c : M A) (handler : error -> M A) : M A :=
  fun w =>
    match c w with
    | (Returns a, w') => (Returns a, w')
    | (Throws e, w') => handler e w'
    end.

Definition next_fate (w : World) : fate * World :=
  match fates w with
  | [] => (Served, w)
  | f :: fs => (f, mkWorld (database w) fs)
  end.

(** A [select('*')] with its three [eq] filters; [data] is [null] ([None])
    when the request fails. *)
Definition select {R : Type} (table : Database -> list R)
    (matches_key : R -> bool) : M (option (list R)) :=
  fun w =>
    match next_fate w with
    | (Served, w') => (Returns (Some (filter matches_key (table (database w')))), w')
    | (Failed, w') => (Returns None, w')
    | (Rejected e, w') => (Throws e, w')
    end.

Definition attendance_at (sid date hour : string) (r : attendance_record) : bool :=
  String.eqb (ar_student_id r) sid && String.eqb (ar_date r) date
  && String.eqb (ar_class_hour r) hour.

Definition duty_leave_at (sid date hour : string) (r : duty_leave) : bool :=
  String.eqb (dl_student_id r) sid && String.eqb (dl_date r) date
  && String.eqb (dl_class_hour r) hour.

Definition notification_at (sid date hour : string) (r : notification) : bool :=
  String.eqb (n_student_id r) sid && String.eqb (n_date r) date
  && String.eqb (n_class_hour r) hour.

(** [insert] into [notifications]: the table's key
    [UNIQUE(student_id, date, class_hour)] refuses a second row. *)
Definition insert_notification (row : notification) : M unit :=
  fun w =>
    match next_fate w with
    | (Served, w') =>
        let db := database w' in
        if existsb (notification_at (n_student_id row) (n_date row) (n_class_hour row))
                   (notifications db)
        then (Returns tt, w')
        else (Returns tt,
              mkWorld (mkDatabase (attendance_records db) (duty_leaves db)
                                  (notifications db ++ [row]))
                      (fates w'))
    | (Failed, w') => (Returns tt, w')
    | (Rejected e, w') => (Throws e, w')
    end.

End Supabase.

(** ** The monitoring component *)

Module Monitor.
Import Js FaceRecognitionService Supabase.

Notation "x <- c ;; k" := (bind c (fun x => k))
  (at level 61, c at next level, right associativity).

(** *** updateCurrentClassHour *)

Record schedule : Type := mkSchedule {
  start : string;
  end_ : string;
  time : string;
  isBreak : bool
}.

Definition schedules : list schedule :=
  [ mkSchedule "09:00" "10:00" "09:00:00" false;
    mkSchedule "10:00" "10:45" "10:00:00" false;
    mkSchedule "10:46" "10:59" "10:46:00" true;
    mkSchedule "11:00" "12:00" "11:00:00" false;
    mkSchedule "12:00" "12:45" "12:00:00" false;
    mkSchedule "12:46" "13:29" "12:46:00" true;
    mkSchedule "13:30" "14:30" "13:30:00" false;
    mkSchedule "14:30" "15:30" "14:30:00" false;
    mkSchedule "15:31" "15:44" "15:31:00" true;
    mkSchedule "15:45" "16:20" "15:45:00" false ]%string.

(** The two pieces of component state the resolver sets. *)
Record state : Type := mkState {
  currentClassHour : string;
  isBreakTime : bool
}.

Definition two_digits (n : nat) : string :=
  String (ascii_of_nat (48 + n / 10))
         (String (ascii_of_nat (48 + n mod 10)) EmptyString).

(** [now.toTimeString().slice(0, 5)] for a local time of day. *)
Definition currentTime (hours minutes : nat) : string :=
  (two_digits hours ++ ":" ++ two_digits minutes)%string.

Definition contains (currentTime : string) (s : schedule) : bool :=
  str_ge currentTime (start s) && str_le currentTime (end_ s).

Definition resolve (windows : list schedule) (currentTime : string) : state :=
  match find (contains currentTime) windows with
  | Some currentSchedule =>
      mkState (time currentSchedule) (isBreak currentSchedule)
  | None => mkState "" false
  end.

(** The resolver, as a function of the time string it reads off the
    clock; its result is what it stores with [setCurrentClassHour] and
    [setIsBreakTime]. *)
Definition updateCurrentClassHour (currentTime : string) : state :=
  resolve schedules currentTime.

(** *** checkAttendanceForMatches *)

Section Decision.

(** [Math.round] and the decimal rendering of a number in a template
    string are the language's own; the message is built from them. *)
Variable Math_round : number -> number.
Variable Number_toString : number -> string.

Definition alert_message (m : Match) : string :=
  (name (student m)
   ++ " detected without attendance or duty leave (confidence: "
   ++ Number_toString (Math_round (confidence m * 100)%float)
   ++ "%)")%string.

(** [!data || data.length === 0] *)
Definition missing {R : Type} (data : option (list R)) : bool :=
  match data with
  | None => true
  | Some rows => (List.length rows =? 0)%nat
  end.

(** The body of the loop for one match, with its [try]/[catch]; it returns
    the alert it created, if any. *)
Definition checkMatch (st : state) (today : string) (m : Match)
  : M (list notification) :=
  let sid := id (student m) in
  let hour := currentClassHour st in
  try_catch
    (attendanceData <- select attendance_records (attendance_at sid today hour) ;;
     dutyLeaveData <- select duty_leaves (duty_leave_at sid today hour) ;;
     if missing attendanceData && missing dutyLeaveData then
       existingNotification <-
         select notifications (notification_at sid today hour) ;;
       if missing existingNotification then
         let alert := mkNotification sid (alert_message m) hour today in
         _ <- insert_notification alert ;;
         ret [alert]
       else ret []
     else ret [])
    (fun _ => ret []).

Fixpoint forEachMatch (st : state) (today : string) (matches : list Match)
  : M (list notification) :=
  match matches with
  | [] => ret []
  | m :: rest =>
      created <- checkMatch st today m ;;
      later <- forEachMatch st today rest ;;
      ret (created ++ later)
  end.

(** One pass, with the component state [st] it closes over and the date
    [today] it reads off the clock: the alerts it created, in order, and the
    store after it. *)
Definition checkAttendanceForMatches (st : state) (today : string)
    (matches : list Match) : M (list notification) :=
  if isBreakTime st || String.eqb (currentClassHour st) "" then ret []
  else forEachMatch st today matches.

End Decision.

End Monitor.

Import Js FaceRecognitionService Supabase Monitor.

(** ** Binary64 facts *)

Lemma float_mul_comm (x y : float) : (x * y)%float = (y * x)%float.
Proof.
  apply Prim2SF_inj. rewrite !mul_spec.
  unfold SF64mul, SFmul.
  destruct (Prim2SF x) as [sx|sx| |sx mx ex], (Prim2SF y) as [sy|sy| |sy my ey];
    try reflexivity; try (now rewrite xorb_comm).
  now rewrite xorb_comm, Pos.mul_comm, Z.add_comm.
Qed.

Lemma float_eqb_zero (x : float) :
  (x =? 0)%float = true -> x = 0%float \/ x = (-0)%float.
Proof.
  rewrite eqb_spec. intros H.
  assert (Hz : exists s, Prim2SF x = S754_zero s).
  { change (Prim2SF 0) with (S754_zero false) in H.
    unfold SFeqb, SFcompare in H.
    destruct (Prim2SF x) as [s|s| |s m e].
    - now exists s.
    - destruct s; discriminate.
    - discriminate.
    - destruct s; discriminate. }
  destruct Hz as [s Hs].
  rewrite <- (SF2Prim_Prim2SF x), Hs.
  destruct s; [right | left]; reflexivity.
Qed.

(** *** The order of binary64 numbers

    A number that is not [NaN] is ranked by a triple of integers compared
    lexicographically: its class (negative infinity, negative, zero,
    positive, positive infinity), then its exponent and its mantissa, both
    negated for a negative number. *)

Definition sf_key (x : spec_float) : Z * Z * Z :=
  match x with
  | S754_nan => (0, 0, 0)%Z
  | S754_infinity true => (-2, 0, 0)%Z
  | S754_infinity false => (2, 0, 0)%Z
  | S754_zero _ => (0, 0, 0)%Z
  | S754_finite true m e => (-1, - e, - Z.pos m)%Z
  | S754_finite false m e => (1, e, Z.pos m)%Z
  end.

Definition key_lt (a b : Z * Z * Z) : Prop :=
  let '(a1, a2, a3) := a in
  let '(b1, b2, b3) := b in
  (a1 < b1 \/ (a1 = b1 /\ (a2 < b2 \/ (a2 = b2 /\ a3 < b3))))%Z.

Definition is_number (x : float) : Prop := Prim2SF x <> S754_nan.

Lemma SFltb_key (x y : spec_float) :
  SFltb x y = true
  <-> x <> S754_nan /\ y <> S754_nan /\ key_lt (sf_key x) (sf_key y).
Proof.
  unfold SFltb, SFcompare.
  destruct x as [sx|sx| |sx mx ex], y as [sy|sy| |sy my ey];
    try destruct sx; try destruct sy; simpl;
    try (split; [discriminate | intros (H1 & H2 & H3); try congruence; lia]);
    try (split; [intros _; repeat split; try discriminate; lia | reflexivity]).
  all: rewrite Pos.compare_cont_spec; simpl;
       destruct (Z.compare_spec ex ey); destruct (Pos.compare_spec mx my); simpl;
       (split; [try discriminate; intros _; repeat split; try discriminate; lia
               | intros (H1 & H2 & H3); try reflexivity; lia]).
Qed.

Lemma float_ltb_key (x y : float) :
  (x <? y)%float = true
  <-> is_number x /\ is_number y /\ key_lt (sf_key (Prim2SF x)) (sf_key (Prim2SF y)).
Proof. rewrite ltb_spec. apply SFltb_key. Qed.

Lemma float_ltb_numbers (x y : float) :
  (x <? y)%float = true -> is_number x /\ is_number y.
Proof. rewrite float_ltb_key. tauto. Qed.


Lemma float_ltb_trans (x y z : float) :
  (x <? y)%float = true -> (y <? z)%float = true -> (x <? z)%float = true.
Proof.
  rewrite !float_ltb_key. intros (Hx & Hy & Hxy) (_ & Hz & Hyz).
  repeat split; try assumption.
  destruct (sf_key (Prim2SF x)) as [[a1 a2] a3],
           (sf_key (Prim2SF y)) as [[b1 b2] b3],
           (sf_key (Prim2SF z)) as [[c1 c2] c3].
  simpl in *. lia.
Qed.


(** Among numbers the order is total: what is not above [x] is below
    everything above [x]. *)
Lemma float_ltb_le_trans (x y z : float) :
  is_number z ->
  (x <? y)%float = true -> (x <? z)%float = false -> (z <? y)%float = true.
Proof.
  intros Hz Hxy Hxz.
  pose proof (float_ltb_key x z) as Hk. rewrite Hxz in Hk.
  rewrite float_ltb_key in Hxy. destruct Hxy as (Hx & Hy & Hxy).
  apply float_ltb_key. repeat split; try assumption.
  assert (Hn : ~ key_lt (sf_key (Prim2SF x)) (sf_key (Prim2SF z))).
  { intros Hlt. assert (false = true) by (apply Hk; tauto). discriminate. }
  destruct (sf_key (Prim2SF x)) as [[a1 a2] a3],
           (sf_key (Prim2SF y)) as [[b1 b2] b3],
           (sf_key (Prim2SF z)) as [[c1 c2] c3].
  simpl in *. lia.
Qed.

(** [x === x] holds for every number but [NaN]. *)
Lemma float_eqb_refl (x : float) : is_number x -> (x =? x)%float = true.
Proof.
  unfold is_number. rewrite eqb_spec. unfold SFeqb, SFcompare.
  destruct (Prim2SF x) as [s|s| |s m e]; try destruct s; intros H;
    try reflexivity; try congruence.
  all: rewrite Z.compare_refl, Pos.compare_cont_refl; reflexivity.
Qed.

(** *** Rounding never takes the product of two square roots to zero

    The mantissa of a binary64 number is counted in binary digits; a right
    shift by [n] removes [n] of them, and rounding removes the last one
    only of a number below the least subnormal. *)

Section Rounding.
Local Open Scope Z_scope.

Lemma digits2_pos_size (p : positive) : digits2_pos p = Pos.size p.
Proof. induction p; simpl; congruence. Qed.

Lemma Zdigits2_bounds (p : positive) :
  2 ^ (Zdigits2 (Z.pos p) - 1) <= Z.pos p < 2 ^ Zdigits2 (Z.pos p).
Proof.
  change (Zdigits2 (Z.pos p)) with (Z.pos (digits2_pos p)).
  rewrite digits2_pos_size.
  pose proof (Pos.size_gt p) as Hgt. pose proof (Pos.size_le p) as Hle.
  apply Pos2Z.pos_lt_pos in Hgt. apply Pos2Z.pos_le_pos in Hle.
  rewrite Pos2Z.inj_pow in Hgt, Hle.
  change (Z.pos p~0) with (2 * Z.pos p) in Hle.
  assert (Hs : 0 < Z.pos (Pos.size p)) by lia.
  assert (Hpow : 2 ^ Z.pos (Pos.size p) = 2 * 2 ^ (Z.pos (Pos.size p) - 1)).
  { rewrite <- Z.pow_succ_r by lia. f_equal. lia. }
  lia.
Qed.

Lemma Zdigits2_lower (p : positive) (k : Z) :
  2 ^ (k - 1) <= Z.pos p -> k <= Zdigits2 (Z.pos p).
Proof.
  intros H. destruct (Zdigits2_bounds p) as [_ Hlt].
  change (Zdigits2 (Z.pos p)) with (Z.pos (digits2_pos p)) in *.
  destruct (Z_lt_le_dec k 1) as [Hk|Hk]; [lia|].
  assert (Hpow : 2 ^ (k - 1) < 2 ^ Z.pos (digits2_pos p)) by lia.
  apply Z.pow_lt_mono_r_iff in Hpow; lia.
Qed.

Lemma Zdigits2_mul (a b : positive) :
  Zdigits2 (Z.pos a) + Zdigits2 (Z.pos b) - 1 <= Zdigits2 (Z.pos (a * b)).
Proof.
  apply Zdigits2_lower.
  destruct (Zdigits2_bounds a) as [Ha _]. destruct (Zdigits2_bounds b) as [Hb _].
  replace (Zdigits2 (Z.pos a) + Zdigits2 (Z.pos b) - 1 - 1)
    with ((Zdigits2 (Z.pos a) - 1) + (Zdigits2 (Z.pos b) - 1)) by lia.
  change (Zdigits2 (Z.pos a)) with (Z.pos (digits2_pos a)) in *.
  change (Zdigits2 (Z.pos b)) with (Z.pos (digits2_pos b)) in *.
  rewrite Z.pow_add_r by lia.
  rewrite Pos2Z.inj_mul.
  apply Z.mul_le_mono_nonneg; try assumption; apply Z.pow_nonneg; lia.
Qed.

Lemma Zdigits2_succ (p : positive) :
  Zdigits2 (Z.pos p) <= Zdigits2 (Z.pos p + 1).
Proof.
  change (Z.pos p + 1) with (Z.pos (p + 1)).
  apply Zdigits2_lower. destruct (Zdigits2_bounds p) as [Hp _].
  rewrite Pos2Z.inj_add. lia.
Qed.

Lemma shr_1_digits (s : shr_record) :
  Zdigits2 (shr_m (shr_1 s)) = Z.max 0 (Zdigits2 (shr_m s) - 1)
  /\ (0 <= shr_m s -> 0 <= shr_m (shr_1 s)).
Proof.
  destruct s as [m r s].
  destruct m as [|[p|p|]|[p|p|]]; cbn [shr_1 shr_m Zdigits2 digits2_pos];
    rewrite ?Pos2Z.inj_succ; lia.
Qed.

Lemma iter_shr_1_digits (p : positive) (s : shr_record) :
  Zdigits2 (shr_m (iter_pos shr_1 p s)) = Z.max 0 (Zdigits2 (shr_m s) - Z.pos p)
  /\ (0 <= shr_m s -> 0 <= shr_m (iter_pos shr_1 p s)).
Proof.
  revert s. induction p as [p IH|p IH|]; intros s; simpl iter_pos.
  - destruct (shr_1_digits s) as [H1 P1].
    destruct (IH (shr_1 s)) as [H2 P2].
    destruct (IH (iter_pos shr_1 p (shr_1 s))) as [H3 P3].
    split; [rewrite H3, H2, H1; lia | auto].
  - destruct (IH s) as [H2 P2].
    destruct (IH (iter_pos shr_1 p s)) as [H3 P3].
    split; [rewrite H3, H2; lia | auto].
  - apply shr_1_digits.
Qed.

Lemma Zdigits2_pos_iff (m : Z) : 0 <= m -> (1 <= Zdigits2 m <-> 0 < m).
Proof. destruct m; simpl; lia. Qed.

Lemma shr_fexp_digits (m e : Z) (l : location) :
  0 <= m ->
  let n := Z.max 0 (fexp prec emax (Zdigits2 m + e) - e) in
  Zdigits2 (shr_m (fst (shr_fexp prec emax m e l))) = Z.max 0 (Zdigits2 m - n)
  /\ 0 <= shr_m (fst (shr_fexp prec emax m e l))
  /\ snd (shr_fexp prec emax m e l) = e + n.
Proof.
  intros Hm n. subst n. unfold shr_fexp, shr.
  assert (Hrec : shr_m (shr_record_of_loc m l) = m) by (destruct l as [|[]]; reflexivity).
  destruct (fexp prec emax (Zdigits2 m + e) - e) as [|p|p] eqn:Hn; cbn [fst snd].
  - rewrite Hrec. destruct m; simpl; lia.
  - destruct (iter_shr_1_digits p (shr_record_of_loc m l)) as [Hd Hp].
    rewrite Hrec in Hd, Hp. rewrite Hd. repeat split; try lia; auto.
  - rewrite Hrec. destruct m; simpl; lia.
Qed.

Lemma round_nearest_even_digits (m : Z) (l : location) :
  0 < m ->
  0 < round_nearest_even m l /\ Zdigits2 m <= Zdigits2 (round_nearest_even m l).
Proof.
  intros Hm. destruct m as [|p|p]; try lia.
  pose proof (Zdigits2_succ p) as Hs.
  unfold round_nearest_even. destruct l as [|[]]; try destruct (Z.even (Z.pos p)); lia.
Qed.

Lemma binary_round_aux_not_zero (sx : bool) (m e : Z) (l : location) :
  0 < m -> -1074 < Zdigits2 m + e ->
  match binary_round_aux prec emax sx m e l with
  | S754_zero _ => False
  | S754_finite _ _ e' => e <= e'
  | _ => True
  end.
Proof.
  intros Hm Hde. unfold binary_round_aux.
  destruct (shr_fexp_digits m e l) as (Hd1 & Hp1 & He1); [lia|].
  destruct (shr_fexp prec emax m e l) as [mrs1 e1]. cbn [fst snd] in *.
  assert (Hfexp : forall k, fexp prec emax k = Z.max (k - 53) (-1074)) by reflexivity.
  rewrite Hfexp in Hd1, He1.
  assert (Hm1 : 0 < shr_m mrs1).
  { apply Zdigits2_pos_iff; [exact Hp1|]. apply Zdigits2_pos_iff in Hm; lia. }
  destruct (round_nearest_even_digits (shr_m mrs1) (loc_of_shr_record mrs1) Hm1)
    as [Hm2 Hd2].
  set (m2 := round_nearest_even (shr_m mrs1) (loc_of_shr_record mrs1)) in *.
  destruct (shr_fexp_digits m2 e1 loc_Exact) as (Hd3 & Hp3 & He3); [lia|].
  destruct (shr_fexp prec emax m2 e1 loc_Exact) as [mrs2 e2]. cbn [fst snd] in *.
  rewrite Hfexp in Hd3, He3.
  assert (Hm3 : 0 < shr_m mrs2).
  { apply Zdigits2_pos_iff; [exact Hp3|].
    apply Zdigits2_pos_iff in Hm1; [|lia]. lia. }
  destruct (shr_m mrs2) as [|p|p]; try lia.
  destruct (e2 <=? emax - prec); [lia | exact I].
Qed.

Lemma shr_fexp_exponent (m e : Z) (l : location) :
  e <= snd (shr_fexp prec emax m e l).
Proof.
  unfold shr_fexp, shr.
  destruct (fexp prec emax (Zdigits2 m + e) - e) as [|p|p]; cbn [snd]; lia.
Qed.

Lemma binary_round_aux_exponent (sx : bool) (m e : Z) (l : location) :
  match binary_round_aux prec emax sx m e l with
  | S754_finite _ _ e' => e <= e'
  | _ => True
  end.
Proof.
  unfold binary_round_aux.
  pose proof (shr_fexp_exponent m e l) as H1.
  destruct (shr_fexp prec emax m e l) as [mrs1 e1]. cbn [snd] in H1.
  pose proof (shr_fexp_exponent
                (round_nearest_even (shr_m mrs1) (loc_of_shr_record mrs1)) e1 loc_Exact)
    as H2.
  destruct (shr_fexp prec emax _ e1 loc_Exact) as [mrs2 e2]. cbn [snd] in H2.
  destruct (shr_m mrs2); try exact I.
  destruct (e2 <=? emax - prec); [lia | exact I].
Qed.

(** What a square root that is not zero can be: [NaN], an infinity, or a
    normal number with exponent at least [-589], hence at least [2^-537]. *)
Definition sqrt_like (r : spec_float) : Prop :=
  match r with
  | S754_zero _ => False
  | S754_finite _ m e => -589 <= e /\ Zdigits2 (Z.pos m) = 53
  | _ => True
  end.

Lemma valid_exponent (s : bool) (m : positive) (e : Z) :
  valid_binary (S754_finite s m e) = true ->
  -1074 <= e /\ (-1074 < e -> Zdigits2 (Z.pos m) = 53).
Proof.
  unfold SpecFloat.valid_binary, bounded, canonical_mantissa. intros H.
  apply andb_true_iff in H. destruct H as [H _]. apply Z.eqb_eq in H.
  change (fexp prec emax (Z.pos (digits2_pos m) + e))
    with (Z.max (Z.pos (digits2_pos m) + e - 53) (-1074)) in H.
  change (Zdigits2 (Z.pos m)) with (Z.pos (digits2_pos m)). lia.
Qed.

Lemma SFsqrt_exponent (m : positive) (e : Z) :
  -1074 <= e ->
  match SFsqrt prec emax (S754_finite false m e) with
  | S754_finite _ _ e' => -589 <= e'
  | _ => True
  end.
Proof.
  intros He. unfold SFsqrt, SFsqrt_core_binary.
  set (ez := Z.min _ _).
  assert (Hez : -589 <= ez).
  { subst ez.
    change (fexp prec emax (Z.div2 (Zdigits2 (Z.pos m) + e + 1)))
      with (Z.max (Z.div2 (Zdigits2 (Z.pos m) + e + 1) - 53) (-1074)).
    change (Zdigits2 (Z.pos m)) with (Z.pos (digits2_pos m)).
    rewrite !Z.div2_div. Z.to_euclidean_division_equations. lia. }
  destruct (Z.sqrtrem _) as [q r].
  pose proof (binary_round_aux_exponent false q ez
                (if r =? 0 then loc_Exact
                 else loc_Inexact (if r <=? q then Lt else Gt))) as Hexp.
  destruct (binary_round_aux prec emax false q ez _); try exact I. lia.
Qed.

Lemma sqrt_sqrt_like (s : float) :
  (sqrt s =? 0)%float = false -> sqrt_like (Prim2SF (sqrt s)).
Proof.
  intros Hnz. rewrite eqb_spec in Hnz.
  pose proof (Prim2SF_valid (sqrt s)) as Hvalid.
  pose proof (Prim2SF_valid s) as Hvalid_s.
  pose proof (sqrt_spec s) as Hspec. unfold SF64sqrt in Hspec.
  destruct (Prim2SF (sqrt s)) as [z|z| |z mp ep] eqn:Hp; simpl; try exact I.
  - discriminate Hnz.
  - destruct (Prim2SF s) as [zs|zs| |zs ms es] eqn:Hs;
      try (destruct zs; discriminate Hspec).
    + discriminate Hspec.
    + destruct zs; [discriminate Hspec|].
      destruct (valid_exponent false ms es Hvalid_s) as [Hes _].
      pose proof (SFsqrt_exponent ms es Hes) as Hexp.
      rewrite <- Hspec in Hexp.
      destruct (valid_exponent z mp ep Hvalid) as [_ Hd].
      split; [exact Hexp | apply Hd; lia].
Qed.

Lemma sqrt_like_mul_nonzero (p q : spec_float) :
  sqrt_like p -> sqrt_like q ->
  SFeqb (SFmul prec emax p q) (S754_zero false) = false.
Proof.
  destruct p as [zp|zp| |zp mp ep], q as [zq|zq| |zq mq eq_];
    simpl; try tauto; intros Hp Hq; try reflexivity;
    try (unfold SFeqb, SFcompare; now destruct (xorb zp zq)).
  destruct Hp as [Hep Hdp], Hq as [Heq Hdq].
  pose proof (Zdigits2_mul mp mq) as Hd.
  change (Zdigits2 (Z.pos mp)) with (Z.pos (digits2_pos mp)) in *.
  change (Zdigits2 (Z.pos mq)) with (Z.pos (digits2_pos mq)) in *.
  pose proof (binary_round_aux_not_zero (xorb zp zq) (Z.pos (mp * mq)) (ep + eq_)
                loc_Exact) as Hnz.
  destruct (binary_round_aux prec emax (xorb zp zq) (Z.pos (mp * mq)) (ep + eq_) loc_Exact)
    as [z|z| |z m e].
  - exfalso. apply Hnz; lia.
  - unfold SFeqb, SFcompare. now destruct z.
  - reflexivity.
  - unfold SFeqb, SFcompare. now destruct z.
Qed.

Lemma float_sqrt_mul_nonzero (s1 s2 : float) :
  (sqrt s1 =? 0)%float = false -> (sqrt s2 =? 0)%float = false ->
  (sqrt s1 * sqrt s2 =? 0)%float = false.
Proof.
  intros H1 H2. rewrite eqb_spec, mul_spec.
  change (Prim2SF 0) with (S754_zero false).
  apply sqrt_like_mul_nonzero; now apply sqrt_sqrt_like.
Qed.

End Rounding.

(** ** List facts *)

Lemma fold_left_seq_nth {A B : Type} (f : A -> B -> A) (d : B) (l : list B) (a : A) :
  fold_left (fun acc i => f acc (nth i l d)) (seq 0 (List.length l)) a
  = fold_left f l a.
Proof.
  revert a. induction l as [|x l IH] using rev_ind; intros a.
  - reflexivity.
  - rewrite length_app, Nat.add_comm. simpl List.length.
    rewrite seq_S, !fold_left_app. simpl.
    rewrite app_nth2, Nat.sub_diag by lia. simpl. f_equal.
    rewrite <- IH.
    assert (Hext : forall (idx : list nat) (a0 : A),
               (forall i, In i idx -> i < List.length l) ->
               fold_left (fun acc i => f acc (nth i (l ++ [x]) d)) idx a0
               = fold_left (fun acc i => f acc (nth i l d)) idx a0).
    { induction idx as [|i idx IHidx]; intros a0 Hin; [reflexivity|].
      simpl. rewrite app_nth1 by (apply Hin; now left).
      apply IHidx. intros j Hj. apply Hin. now right. }
    apply Hext. intros i Hi. apply in_seq in Hi. lia.
Qed.

(** ** calculateSimilarity *)

Lemma similarity_fold_norm1 (e1 e2 : list number) (l : list nat) (s : sums) :
  norm1 (fold_left (similarity_step e1 e2) l s)
  = fold_left (fun acc i => (acc + get e1 i * get e1 i)%float) l (norm1 s).
Proof.
  revert s. induction l as [|i l IH]; intros s; [reflexivity|].
  simpl. now rewrite IH.
Qed.

Lemma similarity_fold_norm2 (e1 e2 : list number) (l : list nat) (s : sums) :
  norm2 (fold_left (similarity_step e1 e2) l s)
  = fold_left (fun acc i => (acc + get e2 i * get e2 i)%float) l (norm2 s).
Proof.
  revert s. induction l as [|i l IH]; intros s; [reflexivity|].
  simpl. now rewrite IH.
Qed.

Lemma similarity_loop_norm1 (e1 e2 : list number) :
  norm1 (similarity_loop e1 e2) = sum_squares e1.
Proof.
  unfold similarity_loop, sum_squares. rewrite similarity_fold_norm1. simpl.
  unfold get.
  apply (fold_left_seq_nth (fun acc x => (acc + x * x)%float) nan e1).
Qed.

Lemma similarity_loop_norm2 (e1 e2 : list number) :
  List.length e1 = List.length e2 ->
  norm2 (similarity_loop e1 e2) = sum_squares e2.
Proof.
  intros Hlen.
  unfold similarity_loop, sum_squares. rewrite similarity_fold_norm2, Hlen. simpl.
  unfold get.
  apply (fold_left_seq_nth (fun acc x => (acc + x * x)%float) nan e2).
Qed.

(** A vector all of whose entries are [0] or [-0] has norm [0]. *)
Lemma zero_vector_zero_norm (e : list number) :
  Forall (fun x => strict_eq x 0%float = true) e -> zero_norm e.
Proof.
  intros Hall. unfold zero_norm, norm.
  assert (Hs : sum_squares e = 0%float).
  { unfold sum_squares. induction Hall as [|x l Hx _ IH]; [reflexivity|].
    simpl. destruct (float_eqb_zero x Hx) as [-> | ->]; exact IH. }
  rewrite Hs. reflexivity.
Qed.

(** The division is reached only with equal lengths and two norms that
    are not zero. *)
Lemma calculateSimilarity_unfold (e1 e2 : list number) :
  List.length e1 = List.length e2 ->
  calculateSimilarity e1 e2
  = if strict_eq (norm e1) 0%float || strict_eq (norm e2) 0%float then 0%float
    else (dotProduct (similarity_loop e1 e2) / (norm e1 * norm e2))%float.
Proof.
  intros Hlen. unfold calculateSimilarity.
  rewrite (proj2 (Nat.eqb_eq _ _) Hlen). simpl.
  rewrite similarity_loop_norm1, similarity_loop_norm2 by exact Hlen.
  reflexivity.
Qed.

(** C5. [calculateSimilarity] is total and never divides by zero: when the
    two vectors differ in length, or the norm of either is zero (as it is
    for a vector of zeros), it returns exactly [0] without dividing;
    otherwise it divides by the product of the two norms, and that product
    is not zero. *)
Theorem calculateSimilarity_zero_guard (e1 e2 : list number) :
  (List.length e1 <> List.length e2 \/ zero_norm e1 \/ zero_norm e2 ->
   calculateSimilarity e1 e2 = 0%float)
  /\ (List.length e1 = List.length e2 -> ~ zero_norm e1 -> ~ zero_norm e2 ->
      calculateSimilarity e1 e2
      = (dotProduct (similarity_loop e1 e2) / (norm e1 * norm e2))%float
      /\ strict_eq (norm e1 * norm e2)%float 0%float = false)
  /\ (Forall (fun x => strict_eq x 0%float = true) e1
      \/ Forall (fun x => strict_eq x 0%float = true) e2 ->
      zero_norm e1 \/ zero_norm e2).
Proof.
  split; [|split].
  3:{ intros [H | H]; [left | right]; now apply zero_vector_zero_norm. }
  - intros H.
    destruct (Nat.eq_dec (List.length e1) (List.length e2)) as [Hlen|Hlen].
    + rewrite calculateSimilarity_unfold by exact Hlen.
      destruct H as [H|[H|H]]; [contradiction| |]; unfold zero_norm in H;
        rewrite H; [reflexivity | now rewrite orb_true_r].
    + unfold calculateSimilarity.
      now rewrite (proj2 (Nat.eqb_neq _ _) Hlen).
  - intros Hlen H1 H2. unfold zero_norm in H1, H2.
    apply not_true_is_false in H1. apply not_true_is_false in H2.
    rewrite calculateSimilarity_unfold by exact Hlen. rewrite H1, H2.
    split; [reflexivity|].
    unfold strict_eq, norm in *. now apply float_sqrt_mul_nonzero.
Qed.

Lemma calculateSimilarity_zero_guard_witness :
  calculateSimilarity [1%float; 2%float] [3%float] = 0%float
  /\ calculateSimilarity [0%float; (-0)%float] [3%float; 4%float] = 0%float
  /\ calculateSimilarity [3%float; 4%float] [1e-200%float; 0%float] = 0%float
  /\ strict_eq (norm [0x1p-537%float] * norm [0x1p-537%float])%float 0%float = false.
Proof.
  split; [|split; [|split]].
  - apply (proj1 (calculateSimilarity_zero_guard [1%float; 2%float] [3%float])).
    left. simpl. lia.
  - apply (proj1 (calculateSimilarity_zero_guard [0%float; (-0)%float]
                    [3%float; 4%float])).
    right; left. vm_compute. reflexivity.
  - apply (proj1 (calculateSimilarity_zero_guard [3%float; 4%float]
                    [1e-200%float; 0%float])).
    right; right. vm_compute. reflexivity.
  - apply (proj1 (proj2 (calculateSimilarity_zero_guard [0x1p-537%float]
                           [0x1p-537%float]))).
    + reflexivity.
    + vm_compute. discriminate.
    + vm_compute. discriminate.
Defined.

Lemma similarity_fold_swap (e1 e2 : list number) (l : list nat) (s : sums) :
  fold_left (similarity_step e2 e1) l (mkSums (dotProduct s) (norm2 s) (norm1 s))
  = let r := fold_left (similarity_step e1 e2) l s in
    mkSums (dotProduct r) (norm2 r) (norm1 r).
Proof.
  revert s. induction l as [|i l IH]; intros s; [reflexivity|].
  simpl fold_left. rewrite <- (IH (similarity_step e1 e2 s i)).
  f_equal. unfold similarity_step. simpl.
  now rewrite (float_mul_comm (get e2 i) (get e1 i)).
Qed.

Lemma calculateSimilarity_swap (a b : list number) :
  calculateSimilarity a b = calculateSimilarity b a.
Proof.
  unfold calculateSimilarity.
  rewrite (Nat.eqb_sym (List.length b) (List.length a)).
  destruct (List.length a =? List.length b)%nat eqn:Hlen; [|reflexivity].
  apply Nat.eqb_eq in Hlen. simpl.
  assert (Hswap : similarity_loop b a
                  = mkSums (dotProduct (similarity_loop a b))
                           (norm2 (similarity_loop a b))
                           (norm1 (similarity_loop a b))).
  { unfold similarity_loop. rewrite <- Hlen.
    exact (similarity_fold_swap a b (seq 0 (List.length a))
             (mkSums 0%float 0%float 0%float)). }
  rewrite Hswap. simpl.
  rewrite orb_comm.
  now rewrite (float_mul_comm (sqrt (norm2 (similarity_loop a b)))).
Qed.

(** C6. Cosine similarity is symmetric: swapping the two vectors gives the
    same number, so the two results compare equal under [===] whenever the
    similarity is a number at all ([NaN], which an overflowing or infinite
    input produces, is returned on both sides alike). *)
Theorem calculateSimilarity_sym (a b : list number) :
  calculateSimilarity a b = calculateSimilarity b a
  /\ (is_number (calculateSimilarity a b) ->
      strict_eq (calculateSimilarity a b) (calculateSimilarity b a) = true).
Proof.
  split; [apply calculateSimilarity_swap|].
  intros Hnum. rewrite (calculateSimilarity_swap b a).
  unfold strict_eq. now apply float_eqb_refl.
Qed.

Lemma calculateSimilarity_sym_witness :
  calculateSimilarity [0.99%float; 0.01%float] [1%float; 0%float]
  = calculateSimilarity [1%float; 0%float] [0.99%float; 0.01%float]
  /\ strict_eq (calculateSimilarity [0.99%float; 0.01%float] [1%float; 0%float])
               (calculateSimilarity [1%float; 0%float] [0.99%float; 0.01%float])
     = true.
Proof.
  destruct (calculateSimilarity_sym [0.99%float; 0.01%float] [1%float; 0%float])
    as [Hsame Hstrict].
  split; [exact Hsame|]. apply Hstrict. vm_compute. discriminate.
Defined.

(** At the smallest norms the product in the divisor is still not zero:
    a vector whose only entry is [2^-537] has the least non-zero norm, and
    its similarity to itself is [1]. *)
Example similarity_smallest_norm :
  strict_eq (norm [0x1p-537%float]) 0%float = false
  /\ strict_eq (norm [0x1p-538%float]) 0%float = true
  /\ strict_eq (norm [0x1p-537%float] * norm [0x1p-537%float])%float 0%float = false
  /\ calculateSimilarity [0x1p-537%float] [0x1p-537%float] = 1%float.
Proof. repeat split; vm_compute; reflexivity. Qed.

(** Entries whose squares overflow give [NaN], in either order. *)
Example similarity_overflow :
  calculateSimilarity [1e200%float; 1%float] [1e200%float; 2%float] = nan
  /\ calculateSimilarity [1e200%float; 2%float] [1e200%float; 1%float] = nan.
Proof. split; vm_compute; reflexivity. Qed.

(** ** detectFaces *)

(** The service can run the detector [detect]: it is initialized with it, or
    it is not initialized yet and both pipelines load. *)
Definition ready_with (env : Environment) (this : Service) (detect : Detector) : Prop :=
  (initialized this = true /\ detector this = Some detect)
  \/ (initialized this = false
      /\ pipeline_detection env = Returns detect
      /\ exists embed, pipeline_extraction env = Returns embed).

Lemma detectFaces_ready (env : Environment) (this : Service)
    (imageElement : HTMLImageElement) (detect : Detector) :
  ready_with env this detect ->
  fst (detectFaces env this imageElement)
  = match detect imageElement with
    | Throws _ => Returns []
    | Returns results => Returns (map to_face (filter is_person results))
    end.
Proof.
  intros [[Hinit Hdet] | (Hinit & Hdet & embed & Hemb)];
    unfold detectFaces, initialize; rewrite Hinit; simpl.
  - rewrite Hdet. now destruct (detect imageElement).
  - rewrite Hdet, Hemb. simpl. now destruct (detect imageElement).
Qed.

Lemma is_person_iff (r : Detection) :
  is_person r = true
  <-> label r = "person"%string /\ gt (det_score r) 0.5%float = true.
Proof.
  unfold is_person. rewrite andb_true_iff, String.eqb_eq. tauto.
Qed.

(** C7. On a detection result, [detectFaces] returns the regions labelled
    ['person'] whose score is strictly greater than [0.5], in the order of
    the result and with nothing else; a score equal to [0.5] is left out,
    and a result without a qualifying region gives the empty array, not an
    error. *)
Theorem detectFaces_filters (env : Environment) (this : Service)
    (imageElement : HTMLImageElement) (detect : Detector)
    (results : list Detection) :
  ready_with env this detect ->
  detect imageElement = Returns results ->
  exists faces,
    fst (detectFaces env this imageElement) = Returns faces
    /\ faces = map to_face
                 (filter (fun r => String.eqb (label r) "person"
                                   && (0.5 <? det_score r)%float) results)
    /\ (forall f, In f faces <->
          exists r, In r results /\ label r = "person"%string
                    /\ (0.5 <? det_score r)%float = true
                    /\ f = mkDetectedFace (det_box r) (det_score r) None)
    /\ (forall f, In f faces -> score f <> 0.5%float)
    /\ ((forall r, In r results ->
           label r <> "person"%string \/ (0.5 <? det_score r)%float = false) ->
        faces = []).
Proof.
  intros Hready Hres.
  exists (map to_face (filter is_person results)).
  assert (Hin : forall f, In f (map to_face (filter is_person results)) <->
          exists r, In r results /\ label r = "person"%string
                    /\ (0.5 <? det_score r)%float = true
                    /\ f = mkDetectedFace (det_box r) (det_score r) None).
  { intros f. rewrite in_map_iff. split.
    - intros (r & <- & Hr). apply filter_In in Hr. destruct Hr as [Hr Hp].
      apply is_person_iff in Hp. exists r. unfold to_face, gt in *. tauto.
    - intros (r & Hr & Hl & Hs & ->). exists r. split; [reflexivity|].
      apply filter_In. split; [exact Hr|]. apply is_person_iff. now split. }
  split; [|split; [|split; [|split]]].
  - rewrite (detectFaces_ready env this imageElement detect Hready).
    now rewrite Hres.
  - reflexivity.
  - exact Hin.
  - intros f Hf Heq. apply Hin in Hf. destruct Hf as (r & _ & _ & Hs & ->).
    simpl in Heq. rewrite Heq in Hs. discriminate Hs.
  - intros Hnone.
    destruct (filter is_person results) as [|r rest] eqn:Hfilter; [reflexivity|].
    assert (Hr : In r (filter is_person results)) by (rewrite Hfilter; now left).
    apply filter_In in Hr. destruct Hr as [Hr Hp]. apply is_person_iff in Hp.
    destruct (Hnone r Hr) as [Hl | Hs]; [tauto|].
    unfold gt in Hp. rewrite Hs in Hp. destruct Hp; discriminate.
Qed.

(** C10. When the detector throws at inference time [detectFaces] returns
    the empty array, as for an image without faces; when a pipeline fails
    to load during initialization the exception leaves [detectFaces]. *)
Theorem detectFaces_error_asymmetry (env : Environment) (this : Service)
    (imageElement : HTMLImageElement) :
  (forall detect e,
      ready_with env this detect ->
      detect imageElement = Throws e ->
      fst (detectFaces env this imageElement) = Returns [])
  /\ (forall e,
      initialized this = false ->
      pipeline_detection env = Throws e
      \/ ((exists d, pipeline_detection env = Returns d)
          /\ pipeline_extraction env = Throws e) ->
      fst (detectFaces env this imageElement) = Throws e
      /\ fst (initialize env this) = Throws e
      /\ initialized (snd (detectFaces env this imageElement)) = false).
Proof.
  split.
  - intros detect e Hready Hthrow.
    rewrite (detectFaces_ready env this imageElement detect Hready).
    now rewrite Hthrow.
  - intros e Hinit [Hdet | [[d Hdet] Hemb]];
      unfold detectFaces, initialize; rewrite Hinit; simpl; rewrite Hdet.
    + simpl. repeat split; assumption.
    + rewrite Hemb. simpl. repeat split; assumption.
Qed.

(** ** The schedule resolver *)

(** The minute of the day that an ["HH:MM"] string denotes. *)
Definition digit_value (c : ascii) : nat := nat_of_ascii c - 48.

Definition minute_of_day (hhmm : string) : nat :=
  match hhmm with
  | String a (String b (String _ (String c (String d _)))) =>
      60 * (10 * digit_value a + digit_value b)
      + (10 * digit_value c + digit_value d)
  | _ => 0
  end.

(** The window [s] contains minute [t] of the day, both ends included. *)
Definition within (t : nat) (s : schedule) : bool :=
  (minute_of_day (start s) <=? t) && (t <=? minute_of_day (end_ s)).

(** [find] returns the first element, in list order, that satisfies the
    test. *)
Lemma find_first {A : Type} (p : A -> bool) (l : list A) :
  match find p l with
  | Some x => exists pre post,
      l = pre ++ x :: post /\ p x = true /\ forall y, In y pre -> p y = false
  | None => forall y, In y l -> p y = false
  end.
Proof.
  induction l as [|a l IH]; simpl.
  - intros y [].
  - destruct (p a) eqn:Hpa.
    + exists [], l. repeat split; [exact Hpa | intros y []].
    + destruct (find p l) as [x|].
      * destruct IH as (pre & post & -> & Hx & Hpre).
        exists (a :: pre), post. repeat split; [exact Hx|].
        intros y [<- | Hy]; [exact Hpa | now apply Hpre].
      * intros y [<- | Hy]; [exact Hpa | now apply IH].
Qed.

(** On times of day the comparison of ["HH:MM"] strings agrees with the
    comparison of minutes, for every configured window. *)
Lemma contains_within (hours minutes : nat) (s : schedule) :
  hours < 24 -> minutes < 60 -> In s schedules ->
  contains (currentTime hours minutes) s = within (60 * hours + minutes) s.
Proof.
  intros Hh Hm Hs.
  assert (Hall :
    forallb (fun h => forallb (fun m => forallb (fun w =>
      Bool.eqb (contains (currentTime h m) w) (within (60 * h + m) w))
      schedules) (seq 0 60)) (seq 0 24) = true) by (vm_compute; reflexivity).
  pose proof (proj1 (forallb_forall _ _) Hall hours
                (proj2 (in_seq _ _ _) (conj (Nat.le_0_l _) Hh))) as Hhour.
  pose proof (proj1 (forallb_forall _ _) Hhour minutes
                (proj2 (in_seq _ _ _) (conj (Nat.le_0_l _) Hm))) as Hminute.
  apply eqb_prop. exact (proj1 (forallb_forall _ _) Hminute s Hs).
Qed.

(** At the last minute of a configured window the resolver yields that
    window. *)
Lemma resolve_at_end (s : schedule) :
  In s schedules ->
  updateCurrentClassHour (end_ s) = mkState (time s) (isBreak s).
Proof.
  intros Hs.
  assert (Hall : forallb (fun w =>
      let r := updateCurrentClassHour (end_ w) in
      String.eqb (currentClassHour r) (time w) && Bool.eqb (isBreakTime r) (isBreak w))
      schedules = true) by (vm_compute; reflexivity).
  rewrite forallb_forall in Hall. specialize (Hall s Hs). simpl in Hall.
  apply andb_true_iff in Hall. destruct Hall as [H1 H2].
  apply String.eqb_eq in H1. apply eqb_prop in H2.
  destruct (updateCurrentClassHour (end_ s)) as [h b]. simpl in *. now subst.
Qed.

(** C8. For a wall-clock time at minute precision the resolver returns the
    first window, in configured order, whose interval from start to end,
    both included, contains the time; at a time equal to a window's end it
    returns that window; and when no window contains the time the class
    hour is absent (the empty string) and the break flag is false. *)
Theorem updateCurrentClassHour_first_window (hours minutes : nat) :
  hours < 24 -> minutes < 60 ->
  let t := 60 * hours + minutes in
  let resolved := updateCurrentClassHour (currentTime hours minutes) in
  ((exists pre w post,
       schedules = pre ++ w :: post
       /\ (forall v, In v pre -> within t v = false)
       /\ within t w = true
       /\ resolved = mkState (time w) (isBreak w))
   \/ ((forall v, In v schedules -> within t v = false)
       /\ resolved = mkState "" false))
  /\ (forall w, In w schedules -> minute_of_day (end_ w) = t ->
        within t w = true /\ resolved = mkState (time w) (isBreak w)).
Proof.
  intros Hh Hm. cbv zeta. split.
  - unfold updateCurrentClassHour, resolve.
    pose proof (find_first (contains (currentTime hours minutes)) schedules) as Hfind.
    destruct (find (contains (currentTime hours minutes)) schedules) as [w|].
    + left. destruct Hfind as (pre & post & Heq & Hw & Hpre).
      exists pre, w, post. split; [exact Heq|].
      assert (Hin : forall v, In v (pre ++ w :: post) -> In v schedules)
        by (intros v Hv; now rewrite Heq).
      repeat split.
      * intros v Hv. rewrite <- contains_within; [now apply Hpre | lia | lia |].
        apply Hin, in_or_app. now left.
      * rewrite <- contains_within; [exact Hw | lia | lia |].
        apply Hin, in_or_app. right. now left.
    + right. split; [|reflexivity].
      intros v Hv. rewrite <- contains_within; [now apply Hfind | lia | lia | exact Hv].
  - intros w Hw Hend.
    assert (Hall : forallb (fun h => forallb (fun m => forallb (fun w =>
        negb (minute_of_day (end_ w) =? 60 * h + m)
        || (within (60 * h + m) w
            && String.eqb (currentTime h m) (end_ w)))
        schedules) (seq 0 60)) (seq 0 24) = true) by (vm_compute; reflexivity).
    pose proof (proj1 (forallb_forall _ _) Hall hours
                  (proj2 (in_seq _ _ _) (conj (Nat.le_0_l _) Hh))) as Hhour.
    pose proof (proj1 (forallb_forall _ _) Hhour minutes
                  (proj2 (in_seq _ _ _) (conj (Nat.le_0_l _) Hm))) as Hminute.
    pose proof (proj1 (forallb_forall _ _) Hminute w Hw) as Hcase.
    cbv beta in Hcase.
    rewrite (proj2 (Nat.eqb_eq _ _) Hend) in Hcase.
    change (negb true) with false in Hcase. rewrite orb_false_l in Hcase.
    apply andb_true_iff in Hcase. destruct Hcase as [Hwithin Heq].
    apply String.eqb_eq in Heq.
    split; [exact Hwithin|]. rewrite Heq.
    now apply resolve_at_end.
Qed.

Lemma updateCurrentClassHour_first_window_witness :
  let t := 60 * 10 + 0 in
  let resolved := updateCurrentClassHour (currentTime 10 0) in
  ((exists pre w post,
       schedules = pre ++ w :: post
       /\ (forall v, In v pre -> within t v = false)
       /\ within t w = true
       /\ resolved = mkState (time w) (isBreak w))
   \/ ((forall v, In v schedules -> within t v = false)
       /\ resolved = mkState "" false))
  /\ (forall w, In w schedules -> minute_of_day (end_ w) = t ->
        within t w = true /\ resolved = mkState (time w) (isBreak w)).
Proof.
  apply (updateCurrentClassHour_first_window 10 0); lia.
Defined.

(** ** Objects as dictionaries *)

Section ObjectFacts.
Context {V : Type}.
Implicit Types (o : object V) (k : string) (v : V).

Lemma own_In o k v : own o k = Some v -> In (k, v) o.
Proof.
  induction o as [|[k' v'] o IH]; simpl; [discriminate|].
  destruct (String.eqb_spec k' k) as [->|Hne].
  - intros [= ->]. now left.
  - intros H. right. now apply IH.
Qed.

Lemma own_None_keys o k : own o k = None -> ~ In k (map fst o).
Proof.
  induction o as [|[k' v'] o IH]; simpl; [tauto|].
  destruct (String.eqb_spec k' k) as [->|Hne]; [discriminate|].
  intros H [Heq | Hin]; [contradiction | now apply IH].
Qed.

Lemma In_own o k v : NoDup (map fst o) -> In (k, v) o -> own o k = Some v.
Proof.
  induction o as [|[k' v'] o IH]; simpl; [tauto|].
  intros Hnd [[= -> ->] | Hin].
  - now rewrite String.eqb_refl.
  - inversion Hnd as [|? ? Hk' Hnd']; subst.
    destruct (String.eqb_spec k' k) as [->|Hne].
    + exfalso. apply Hk'. now apply (in_map fst) in Hin.
    + now apply IH.
Qed.

Lemma assign_new o k v : own o k = None -> assign o k v = o ++ [(k, v)].
Proof.
  induction o as [|[k' v'] o IH]; simpl; [reflexivity|].
  destruct (String.eqb_spec k' k) as [->|Hne]; [discriminate|].
  intros H. now rewrite IH.
Qed.

Lemma assign_keys o k v e :
  own o k = Some e -> map fst (assign o k v) = map fst o.
Proof.
  induction o as [|[k' v'] o IH]; simpl; [discriminate|].
  destruct (String.eqb_spec k' k) as [->|Hne]; [reflexivity|].
  intros H. simpl. now rewrite IH.
Qed.

Lemma assign_In o k v e k' v' :
  own o k = Some e -> NoDup (map fst o) ->
  In (k', v') (assign o k v) ->
  (k' = k /\ v' = v) \/ (k' <> k /\ In (k', v') o).
Proof.
  induction o as [|[k0 v0] o IH]; simpl; [discriminate|].
  intros Hown Hnd. inversion Hnd as [|? ? Hk0 Hnd']; subst.
  destruct (String.eqb_spec k0 k) as [->|Hne].
  - intros [[= <- <-] | Hin]; [now left|].
    right. split; [|now right].
    intros ->. apply Hk0. now apply (in_map fst) in Hin.
  - intros [[= <- <-] | Hin].
    + right. split; [exact Hne | now left].
    + destruct (IH Hown Hnd' Hin) as [? | [? ?]]; [now left | right; tauto].
Qed.

Lemma assign_In_same o k v e : own o k = Some e -> In (k, v) (assign o k v).
Proof.
  induction o as [|[k0 v0] o IH]; simpl; [discriminate|].
  destruct (String.eqb_spec k0 k) as [->|Hne]; [now left|].
  intros H. right. now apply IH.
Qed.

(** [Object.values] lists every own property once. *)
Lemma insert_by_index_perm (n : N) (kv : string * V) (l : list (N * (string * V))) :
  Permutation (insert_by_index n kv l) ((n, kv) :: l).
Proof.
  induction l as [|[n' kv'] l IH]; simpl; [apply Permutation_refl|].
  destruct (n <=? n')%N; [apply Permutation_refl|].
  eapply perm_trans; [apply perm_skip, IH|].
  apply perm_swap.
Qed.

Lemma index_properties_perm o :
  Permutation (map snd (index_properties o))
                          (filter (fun kv => is_index (fst kv)) o).
Proof.
  induction o as [|[k v] o IH]; simpl; [constructor|].
  unfold is_index at 1. simpl. destruct (array_index k) as [n|]; [|exact IH].
  eapply perm_trans.
  - apply Permutation_map, insert_by_index_perm.
  - simpl. now apply perm_skip.
Qed.

Lemma own_properties_perm o : Permutation (own_properties o) o.
Proof.
  unfold own_properties.
  eapply perm_trans;
    [apply Permutation_app_tail, index_properties_perm|].
  induction o as [|[k v] o IH]; simpl; [constructor|].
  destruct (is_index k); simpl.
  - now apply perm_skip.
  - eapply perm_trans; [|apply perm_skip, IH].
    apply Permutation_sym, Permutation_middle.
Qed.

Lemma Object_values_In o v : In v (Object_values o) <-> exists k, In (k, v) o.
Proof.
  unfold Object_values. rewrite in_map_iff. split.
  - intros ([k v'] & <- & Hin). exists k.
    eapply Permutation_in; [apply own_properties_perm | exact Hin].
  - intros [k Hin]. exists (k, v). split; [reflexivity|].
    eapply Permutation_in;
      [apply Permutation_sym, own_properties_perm | exact Hin].
Qed.

End ObjectFacts.

(** ** matchFaceWithStudents *)

(** The identity a match is filed under. *)
Definition key (m : Match) : string := id (student m).

(** [m] stands in [ms] at a place where every earlier match for its identity
    has a strictly lower confidence and no later one has a higher one: it is
    the first of the best matches for its identity. *)
Definition first_best (ms : list Match) (m : Match) : Prop :=
  exists pre post,
    ms = pre ++ m :: post
    /\ (forall x, In x pre -> key x = key m ->
          gt (confidence m) (confidence x) = true)
    /\ (forall x, In x post -> key x = key m ->
          gt (confidence x) (confidence m) = false).

(** What the dictionary [o] holds once the matches [ms] have gone through
    the loop. *)
Record kept (ms : list Match) (o : object Match) : Prop := mkKept {
  kept_nodup : NoDup (map fst o);
  kept_entries : forall k m, In (k, m) o ->
    k = key m /\ inherited k = false /\ first_best ms m;
  kept_complete : forall x, In x ms -> inherited (key x) = false ->
    exists m, In (key x, m) o
}.

Lemma first_best_snoc (ms : list Match) (m x : Match) :
  first_best ms m ->
  (key x = key m -> gt (confidence x) (confidence m) = false) ->
  first_best (ms ++ [x]) m.
Proof.
  intros (pre & post & -> & Hpre & Hpost) Hx.
  exists pre, (post ++ [x]). split; [now rewrite <- app_assoc|].
  split; [exact Hpre|].
  intros y Hy. apply in_app_or in Hy. destruct Hy as [Hy | [<- | []]].
  - now apply Hpost.
  - exact Hx.
Qed.

Lemma first_best_replace (ms : list Match) (e m : Match) :
  (forall x, In x ms -> is_number (confidence x)) ->
  first_best ms e -> key m = key e ->
  gt (confidence m) (confidence e) = true ->
  first_best (ms ++ [m]) m.
Proof.
  intros Hnum (pre & post & -> & Hpre & Hpost) Hkey Hgt.
  exists (pre ++ e :: post), []. split; [reflexivity|].
  split; [|intros x []].
  intros x Hx Hxk. rewrite Hkey in Hxk. unfold gt in *.
  apply in_app_or in Hx. destruct Hx as [Hx | [<- | Hx]].
  - eapply float_ltb_trans; [apply Hpre; assumption | exact Hgt].
  - exact Hgt.
  - apply (float_ltb_le_trans (confidence e)).
    + apply Hnum, in_or_app. right. now right.
    + exact Hgt.
    + now apply Hpost.
Qed.

Lemma kept_nil : kept [] [].
Proof.
  split; simpl; [constructor | tauto | tauto].
Qed.

Lemma keepBest_kept (ms : list Match) (o : object Match) (m : Match) :
  (forall x, In x ms -> is_number (confidence x)) ->
  kept ms o -> kept (ms ++ [m]) (keepBest o m).
Proof.
  intros Hnum [Hnd Hent Hcomp]. unfold keepBest, lookup. fold (key m).
  destruct (own o (key m)) as [e|] eqn:Hown.
  - (* an entry for this identity exists *)
    pose proof (own_In _ _ _ Hown) as He.
    destruct (Hent _ _ He) as (Hke & Hinh & Hbest).
    destruct (gt (confidence m) (confidence e)) eqn:Hgt.
    + split.
      * now rewrite (assign_keys o (key m) m e Hown).
      * intros k' m' Hin.
        destruct (assign_In o (key m) m e k' m' Hown Hnd Hin) as [[-> ->] | [Hne Hin']].
        -- split; [reflexivity|]. split; [exact Hinh|].
           now apply (first_best_replace ms e m).
        -- destruct (Hent _ _ Hin') as (Hk' & Hinh' & Hbest').
           split; [exact Hk'|]. split; [exact Hinh'|].
           apply first_best_snoc; [exact Hbest'|]. intros Heq. congruence.
      * intros x Hx Hinh'. apply in_app_or in Hx. destruct Hx as [Hx | [<- | []]].
        -- destruct (Hcomp x Hx Hinh') as [m' Hm'].
           destruct (String.eqb_spec (key x) (key m)) as [Heq | Hne].
           ++ exists m. rewrite Heq. now apply (assign_In_same o (key m) m e).
           ++ exists m'. apply own_In.
              pose proof (In_own _ _ _ Hnd Hm') as Hown'.
              clear - Hown' Hne. induction o as [|[k0 v0] o IH]; simpl in *; [discriminate|].
              destruct (String.eqb_spec k0 (key m)) as [->|Hne0]; simpl.
              ** destruct (String.eqb_spec (key m) (key x)); [congruence | exact Hown'].
              ** destruct (String.eqb_spec k0 (key x)); [exact Hown' | now apply IH].
        -- exists m. now apply (assign_In_same o (key m) m e).
    + split; [exact Hnd | |].
      * intros k' m' Hin. destruct (Hent _ _ Hin) as (Hk' & Hinh' & Hbest').
        split; [exact Hk'|]. split; [exact Hinh'|].
        apply first_best_snoc; [exact Hbest'|]. intros Heq.
        assert (m' = e) as ->.
        { rewrite Heq, <- Hk' in Hown.
          pose proof (In_own _ _ _ Hnd Hin) as Hown'. congruence. }
        exact Hgt.
      * intros x Hx Hinh'. apply in_app_or in Hx. destruct Hx as [Hx | [<- | []]].
        -- now apply Hcomp.
        -- now exists e.
  - destruct (inherited (key m)) eqn:Hinh.
    + (* a member of Object.prototype stands under this key: nothing stored *)
      split; [exact Hnd | |].
      * intros k' m' Hin. destruct (Hent _ _ Hin) as (Hk' & Hinh' & Hbest').
        split; [exact Hk'|]. split; [exact Hinh'|].
        apply first_best_snoc; [exact Hbest'|]. intros Heq. congruence.
      * intros x Hx Hinh'. apply in_app_or in Hx. destruct Hx as [Hx | [<- | []]].
        -- now apply Hcomp.
        -- congruence.
    + (* first match for this identity *)
      rewrite (assign_new o (key m) m Hown).
      assert (Hfresh : forall x, In x ms -> key x <> key m).
      { intros x Hx Heq.
        assert (Hinh' : inherited (key x) = false) by now rewrite Heq.
        destruct (Hcomp x Hx Hinh') as [m' Hm'].
        apply (own_None_keys _ _ Hown). rewrite <- Heq.
        now apply (in_map fst) in Hm'. }
      split.
      * rewrite map_app. simpl.
        apply NoDup_app; [exact Hnd | repeat constructor; simpl; tauto |].
        intros k Hk [<- | []]. now apply (own_None_keys _ _ Hown).
      * intros k' m' Hin. apply in_app_or in Hin.
        destruct Hin as [Hin | [[= <- <-] | []]].
        -- destruct (Hent _ _ Hin) as (Hk' & Hinh' & Hbest').
           split; [exact Hk'|]. split; [exact Hinh'|].
           apply first_best_snoc; [exact Hbest'|]. intros Heq.
           exfalso. apply (own_None_keys _ _ Hown).
           rewrite Heq, <- Hk'. now apply (in_map fst) in Hin.
        -- split; [reflexivity|]. split; [exact Hinh|].
           exists ms, []. split; [reflexivity|].
           split; [|intros x []].
           intros x Hx Heq. exfalso. now apply (Hfresh x).
      * intros x Hx Hinh'. apply in_app_or in Hx. destruct Hx as [Hx | [<- | []]].
        -- destruct (Hcomp x Hx Hinh') as [m' Hm'].
           exists m'. apply in_or_app. now left.
        -- exists m. apply in_or_app. right. now left.
Qed.

Lemma uniqueMatches_snoc (ms : list Match) (m : Match) :
  uniqueMatches (ms ++ [m]) = keepBest (uniqueMatches ms) m.
Proof. unfold uniqueMatches. now rewrite fold_left_app. Qed.

Lemma uniqueMatches_kept (ms : list Match) :
  (forall x, In x ms -> is_number (confidence x)) ->
  kept ms (uniqueMatches ms).
Proof.
  induction ms as [|m ms IH] using rev_ind; intros Hnum.
  - apply kept_nil.
  - rewrite uniqueMatches_snoc.
    assert (Hnum' : forall x, In x ms -> is_number (confidence x))
      by (intros x Hx; apply Hnum, in_or_app; now left).
    apply keepBest_kept; [exact Hnum' | now apply IH].
Qed.

(** The candidate matches: what the first loop retains. A retained match
    pairs a roster entry that has a reference encoding with the similarity
    of that encoding to the non-empty embedding of one of the detected
    faces, and that similarity is strictly greater than the threshold. *)
Definition retained (env : Environment) (detectedFaces : list DetectedFace)
    (imageElement : HTMLImageElement) (students : list Student) (m : Match) : Prop :=
  gt (confidence m) threshold = true
  /\ In (student m) students
  /\ exists face this0 probe encoding,
       In face detectedFaces
       /\ context2d env (box face) = true
       /\ fst (extractFaceEmbedding env this0 (mkCanvas imageElement (box face)))
          = Returns probe
       /\ probe <> []
       /\ face_encoding (student m) = Some encoding
       /\ confidence m = calculateSimilarity probe encoding.

Lemma compareWithStudents_In (probe : list number) (students : list Student) (m : Match) :
  In m (compareWithStudents probe students)
  <-> In (student m) students
      /\ gt (confidence m) threshold = true
      /\ exists encoding, face_encoding (student m) = Some encoding
                          /\ confidence m = calculateSimilarity probe encoding.
Proof.
  unfold compareWithStudents. rewrite in_flat_map. split.
  - intros (s & Hs & Hm). destruct (face_encoding s) as [enc|] eqn:Henc; [|destruct Hm].
    destruct (gt (calculateSimilarity probe enc) threshold) eqn:Hgt; [|destruct Hm].
    destruct Hm as [<- | []]. simpl. split; [exact Hs|]. split; [exact Hgt|].
    now exists enc.
  - intros (Hs & Hgt & enc & Henc & Hconf). exists (student m).
    split; [exact Hs|]. rewrite Henc, <- Hconf, Hgt. left. now destruct m.
Qed.


(** A face only appends to [matches]. *)
Lemma processFace_appends (env : Environment) (imageElement : HTMLImageElement)
    (students : list Student) (acc : list Match) (this : Service) (face : DetectedFace) :
  processFace env imageElement students (acc, this) face
  = (acc ++ fst (processFace env imageElement students ([], this) face),
     snd (processFace env imageElement students ([], this) face)).
Proof.
  unfold processFace.
  destruct (cropFaceFromImage env imageElement (box face)) as [canvas|e];
    [|now rewrite app_nil_r].
  destruct (extractFaceEmbedding env this canvas) as [[probe|e] this'];
    [|now rewrite app_nil_r].
  destruct (List.length probe =? 0)%nat; simpl; [now rewrite app_nil_r | reflexivity].
Qed.

Lemma collect_fold_appends (env : Environment) (imageElement : HTMLImageElement)
    (students : list Student) (faces : list DetectedFace) (acc : list Match)
    (this : Service) :
  fold_left (processFace env imageElement students) faces (acc, this)
  = (acc ++ fst (fold_left (processFace env imageElement students) faces ([], this)),
     snd (fold_left (processFace env imageElement students) faces ([], this))).
Proof.
  revert acc this. induction faces as [|face faces IH]; intros acc this;
    cbn [fold_left].
  - simpl. now rewrite app_nil_r.
  - rewrite processFace_appends.
    destruct (processFace env imageElement students ([], this) face) as [m1 this1].
    cbn [fst snd].
    rewrite IH. rewrite (IH m1). cbn [fst snd]. now rewrite app_assoc.
Qed.


Lemma processFace_retained (env : Environment) (imageElement : HTMLImageElement)
    (students : list Student) (all : list DetectedFace) (this : Service)
    (face : DetectedFace) (m : Match) :
  In face all ->
  In m (fst (processFace env imageElement students ([], this) face)) ->
  retained env all imageElement students m.
Proof.
  intros Hface. unfold processFace, cropFaceFromImage.
  destruct (context2d env (box face)) eqn:Hctx; [|intros []].
  destruct (extractFaceEmbedding env this (mkCanvas imageElement (box face)))
    as [[probe|e] this'] eqn:Hext; [|intros []].
  destruct (List.length probe =? 0)%nat eqn:Hlen; [intros []|].
  simpl. rewrite compareWithStudents_In. intros (Hs & Hgt & enc & Henc & Hconf).
  split; [exact Hgt|]. split; [exact Hs|].
  exists face, this, probe, enc. rewrite Hext. repeat split; try assumption.
  intros ->. discriminate Hlen.
Qed.

Lemma collectMatches_retained (env : Environment) (this : Service)
    (detectedFaces : list DetectedFace) (imageElement : HTMLImageElement)
    (students : list Student) (m : Match) :
  In m (fst (collectMatches env this detectedFaces imageElement students)) ->
  retained env detectedFaces imageElement students m.
Proof.
  unfold collectMatches.
  assert (Hgen : forall faces this0,
             incl faces detectedFaces ->
             In m (fst (fold_left (processFace env imageElement students) faces ([], this0))) ->
             retained env detectedFaces imageElement students m).
  { induction faces as [|face faces IH]; intros this0 Hincl; cbn [fold_left];
      [intros []|].
    rewrite processFace_appends, collect_fold_appends. cbn [fst snd app].
    intros Hin. apply in_app_or in Hin. destruct Hin as [Hin | Hin].
    - apply (processFace_retained env imageElement students detectedFaces this0 face).
      + apply Hincl. now left.
      + exact Hin.
    - apply (IH _ (fun x Hx => Hincl x (or_intror Hx)) Hin). }
  apply Hgen, incl_refl.
Qed.

Lemma retained_is_number (env : Environment) (detectedFaces : list DetectedFace)
    (imageElement : HTMLImageElement) (students : list Student) (m : Match) :
  retained env detectedFaces imageElement students m -> is_number (confidence m).
Proof.
  intros [Hgt _]. unfold gt in Hgt. now apply float_ltb_numbers in Hgt.
Qed.

Lemma matchFaceWithStudents_kept (env : Environment) (this : Service)
    (detectedFaces : list DetectedFace) (imageElement : HTMLImageElement)
    (students : list Student) :
  let candidates := fst (collectMatches env this detectedFaces imageElement students) in
  kept candidates (uniqueMatches candidates)
  /\ fst (matchFaceWithStudents env this detectedFaces imageElement students)
     = Object_values (uniqueMatches candidates).
Proof.
  cbv zeta. split.
  - apply uniqueMatches_kept. intros x Hx.
    eapply retained_is_number, collectMatches_retained, Hx.
  - unfold matchFaceWithStudents.
    now destruct (collectMatches env this detectedFaces imageElement students).
Qed.



(** ** checkAttendanceForMatches *)

(** The three lookups, as facts about the store. *)
Definition has_attendance (db : Database) (sid date hour : string) : bool :=
  existsb (attendance_at sid date hour) (attendance_records db).

Definition has_duty_leave (db : Database) (sid date hour : string) : bool :=
  existsb (duty_leave_at sid date hour) (duty_leaves db).

Definition exists_notification (db : Database) (sid date hour : string) : bool :=
  existsb (notification_at sid date hour) (notifications db).

(** A valid excuse in the specification's words: an attendance record
    saying present, or a duty leave, for the identity, date and class hour. *)
Definition exists_valid_excuse (db : Database) (sid date hour : string) : bool :=
  existsb (fun r => attendance_at sid date hour r
                    && String.eqb (ar_status r) "present")
          (attendance_records db)
  || has_duty_leave db sid date hour.

(** The test the loop makes for one identity: no attendance record, no duty
    leave and no notification yet. *)
Definition alert_due (db : Database) (sid date hour : string) : bool :=
  negb (has_attendance db sid date hour)
  && negb (has_duty_leave db sid date hour)
  && negb (exists_notification db sid date hour).

Definition alert_for (sid : string) (a : notification) : bool :=
  String.eqb (n_student_id a) sid.

Lemma missing_filter {R : Type} (p : R -> bool) (l : list R) :
  missing (Some (filter p l)) = negb (existsb p l).
Proof.
  induction l as [|x l IH]; simpl; [reflexivity|].
  destruct (p x); simpl; [reflexivity | exact IH].
Qed.

Lemma select_served {R : Type} (table : Database -> list R) (p : R -> bool) (w : World) :
  fates w = [] ->
  select table p w = (Returns (Some (filter p (table (database w)))), w).
Proof. intros Hf. unfold select, next_fate. now rewrite Hf. Qed.

Section DecisionFacts.

Variable Math_round : number -> number.
Variable Number_toString : number -> string.

Let checkMatch := checkMatch Math_round Number_toString.
Let forEachMatch := forEachMatch Math_round Number_toString.
Let checkAttendanceForMatches := checkAttendanceForMatches Math_round Number_toString.
Let alert_message := alert_message Math_round Number_toString.

(** The alert the loop creates for a match. *)
Definition alert_of (st : state) (today : string) (m : Match) : notification :=
  mkNotification (id (student m)) (alert_message m) (currentClassHour st) today.

Definition with_notification (w : World) (a : notification) : World :=
  mkWorld (mkDatabase (attendance_records (database w)) (duty_leaves (database w))
                      (notifications (database w) ++ [a]))
          [].

(** One match, when the store answers every request. *)
Lemma checkMatch_served (st : state) (today : string) (m : Match) (w : World) :
  fates w = [] ->
  checkMatch st today m w
  = if alert_due (database w) (id (student m)) today (currentClassHour st)
    then (Returns [alert_of st today m], with_notification w (alert_of st today m))
    else (Returns [], w).
Proof.
  intros Hf. unfold alert_due.
  unfold checkMatch, Monitor.checkMatch, try_catch, bind.
  rewrite select_served by exact Hf.
  rewrite select_served by exact Hf.
  rewrite !missing_filter.
  fold (has_attendance (database w) (id (student m)) today (currentClassHour st)).
  fold (has_duty_leave (database w) (id (student m)) today (currentClassHour st)).
  destruct (negb (has_attendance _ _ _ _) && negb (has_duty_leave _ _ _ _)); simpl;
    [|reflexivity].
  rewrite select_served by exact Hf.
  rewrite missing_filter.
  fold (exists_notification (database w) (id (student m)) today (currentClassHour st)).
  destruct (exists_notification _ _ _ _) eqn:Hex; simpl; [reflexivity|].
  unfold insert_notification, next_fate. rewrite Hf. simpl.
  unfold exists_notification in Hex. rewrite Hex.
  unfold ret, alert_of, with_notification, alert_message. now rewrite Hf.
Qed.

Lemma forEachMatch_cons (st : state) (today : string) (m : Match)
    (rest : list Match) (w : World) :
  forEachMatch st today (m :: rest) w
  = match checkMatch st today m w with
    | (Returns created, w1) =>
        match forEachMatch st today rest w1 with
        | (Returns later, w2) => (Returns (created ++ later), w2)
        | (Throws e, w2) => (Throws e, w2)
        end
    | (Throws e, w1) => (Throws e, w1)
    end.
Proof.
  unfold forEachMatch, checkMatch. simpl. unfold bind at 1.
  destruct (Monitor.checkMatch Math_round Number_toString st today m w) as [[created|e] w1];
    [|reflexivity].
  unfold bind at 1.
  now destruct (Monitor.forEachMatch Math_round Number_toString st today rest w1)
    as [[later|e] w2].
Qed.

Lemma exists_notification_with (w : World) (a : notification) (sid date hour : string) :
  exists_notification (database (with_notification w a)) sid date hour
  = exists_notification (database w) sid date hour || notification_at sid date hour a.
Proof.
  unfold exists_notification, with_notification. simpl.
  rewrite existsb_app. simpl. now rewrite orb_false_r.
Qed.

Lemma notification_at_alert_of (st : state) (today : string) (m : Match)
    (sid date hour : string) :
  notification_at sid date hour (alert_of st today m) = true
  <-> id (student m) = sid /\ today = date /\ currentClassHour st = hour.
Proof.
  unfold notification_at, alert_of. simpl.
  rewrite !andb_true_iff, !String.eqb_eq. tauto.
Qed.

(** A pass over a store that answers every request: how many alerts it
    creates for one identity without attendance record and duty leave. *)
Lemma forEachMatch_for_identity (st : state) (today sid : string)
    (matches : list Match) (w : World) :
  fates w = [] ->
  has_attendance (database w) sid today (currentClassHour st) = false ->
  has_duty_leave (database w) sid today (currentClassHour st) = false ->
  exists alerts w',
    forEachMatch st today matches w = (Returns alerts, w')
    /\ fates w' = []
    /\ attendance_records (database w') = attendance_records (database w)
    /\ duty_leaves (database w') = duty_leaves (database w)
    /\ filter (alert_for sid) alerts
       = (if exists_notification (database w) sid today (currentClassHour st) then []
          else match find (fun m => String.eqb (id (student m)) sid) matches with
               | Some m => [alert_of st today m]
               | None => []
               end)
    /\ exists_notification (database w') sid today (currentClassHour st)
       = exists_notification (database w) sid today (currentClassHour st)
         || existsb (fun m => String.eqb (id (student m)) sid) matches.
Proof.
  revert w. induction matches as [|m rest IH]; intros w Hf Hatt Hdl.
  - exists [], w. simpl. unfold ret. rewrite orb_false_r.
    repeat split; try assumption.
    now destruct (exists_notification _ _ _ _).
  - rewrite forEachMatch_cons, checkMatch_served by exact Hf.
    destruct (alert_due (database w) (id (student m)) today (currentClassHour st))
      eqn:Hcond; unfold alert_due in Hcond.
    + (* an alert is created for [m] *)
      set (a := alert_of st today m).
      destruct (IH (with_notification w a) eq_refl Hatt Hdl)
        as (later & w' & Hrun & Hf' & Hatt' & Hdl' & Hcount & Hex).
      exists ([a] ++ later), w'. rewrite Hrun.
      split; [reflexivity|]. split; [exact Hf'|]. split; [exact Hatt'|].
      split; [exact Hdl'|].
      rewrite exists_notification_with in Hcount, Hex.
      simpl. unfold alert_for at 1. simpl n_student_id.
      destruct (String.eqb_spec (id (student m)) sid) as [Heq | Hne].
      * subst sid. rewrite Hatt, Hdl in Hcond. simpl in Hcond.
        apply negb_true_iff in Hcond. rewrite Hcond in *. simpl.
        assert (Hna : notification_at (id (student m)) today (currentClassHour st) a = true)
          by (apply notification_at_alert_of; auto).
        rewrite Hna in Hcount, Hex. simpl in Hcount, Hex.
        now rewrite Hcount, Hex.
      * assert (Hna : notification_at sid today (currentClassHour st) a = false).
        { destruct (notification_at sid today (currentClassHour st) a) eqn:Hn;
            [|reflexivity].
          apply notification_at_alert_of in Hn. tauto. }
        rewrite Hna, orb_false_r in Hcount, Hex. simpl. now rewrite Hcount, Hex.
    + (* no alert for [m] *)
      destruct (IH w Hf Hatt Hdl)
        as (later & w' & Hrun & Hf' & Hatt' & Hdl' & Hcount & Hex).
      exists later, w'. rewrite Hrun.
      split; [reflexivity|]. split; [exact Hf'|]. split; [exact Hatt'|].
      split; [exact Hdl'|]. simpl.
      destruct (String.eqb_spec (id (student m)) sid) as [Heq | Hne].
      * subst sid. rewrite Hatt, Hdl in Hcond. simpl in Hcond.
        apply negb_false_iff in Hcond. rewrite Hcond in *. simpl. now split.
      * simpl. now split.
Qed.

(** Once a notification exists for a key, a pass creates no alert with that
    key, and the notification is still there after it. *)
Lemma forEachMatch_no_repeat (st : state) (today : string) (matches : list Match)
    (w : World) (sid date hour : string) :
  fates w = [] ->
  exists_notification (database w) sid date hour = true ->
  exists alerts w',
    forEachMatch st today matches w = (Returns alerts, w')
    /\ fates w' = []
    /\ exists_notification (database w') sid date hour = true
    /\ Forall (fun a => notification_at sid date hour a = false) alerts.
Proof.
  revert w. induction matches as [|m rest IH]; intros w Hf Hex.
  - exists [], w. simpl. unfold ret. repeat split; try assumption. constructor.
  - rewrite forEachMatch_cons, checkMatch_served by exact Hf.
    destruct (alert_due (database w) (id (student m)) today (currentClassHour st))
      eqn:Hcond; unfold alert_due in Hcond.
    + set (a := alert_of st today m).
      assert (Hna : notification_at sid date hour a = false).
      { destruct (notification_at sid date hour a) eqn:Hn; [|reflexivity].
        apply notification_at_alert_of in Hn. destruct Hn as (<- & <- & <-).
        rewrite Hex in Hcond. simpl in Hcond. now rewrite andb_false_r in Hcond. }
      assert (Hex1 : exists_notification (database (with_notification w a)) sid date hour
                     = true)
        by (rewrite exists_notification_with, Hex; reflexivity).
      destruct (IH (with_notification w a) eq_refl Hex1)
        as (later & w' & Hrun & Hf' & Hex' & Hall).
      exists ([a] ++ later), w'. rewrite Hrun.
      repeat split; try assumption. simpl. now constructor.
    + destruct (IH w Hf Hex) as (later & w' & Hrun & Hf' & Hex' & Hall).
      exists later, w'. rewrite Hrun. now repeat split.
Qed.

End DecisionFacts.

Section Passes.

Variable Math_round : number -> number.
Variable Number_toString : number -> string.





(** A run of passes, each with the component state, the date and the
    matches of its own: the alerts created, in order, and the store at the
    end. *)
Fixpoint passes (ps : list (state * string * list Match)) (w : World)
  : list notification * World :=
  match ps with
  | [] => ([], w)
  | (st, today, matches) :: rest =>
      match checkAttendanceForMatches Math_round Number_toString st today matches w with
      | (Returns created, w1) =>
          let '(later, w2) := passes rest w1 in (created ++ later, w2)
      | (Throws _, w1) => passes rest w1
      end
  end.

Lemma passes_no_repeat (ps : list (state * string * list Match)) (w : World)
    (sid date hour : string) :
  fates w = [] ->
  exists_notification (database w) sid date hour = true ->
  Forall (fun a => notification_at sid date hour a = false) (fst (passes ps w)).
Proof.
  revert w. induction ps as [|[[st today] matches] rest IH]; intros w Hf Hex; simpl.
  - constructor.
  - unfold checkAttendanceForMatches.
    destruct (isBreakTime st || String.eqb (currentClassHour st) "").
    + unfold ret. specialize (IH w Hf Hex).
      destruct (passes rest w) as [later w2]. exact IH.
    + destruct (forEachMatch_no_repeat Math_round Number_toString st today matches
                  w sid date hour Hf Hex) as (created & w1 & Hrun & Hf1 & Hex1 & Hall).
      rewrite Hrun. specialize (IH w1 Hf1 Hex1).
      destruct (passes rest w1) as [later w2]. simpl in *.
      apply Forall_app. now split.
Qed.

End Passes.


(** C3. During a break, or when no class hour is resolved, the check
    returns no alert whatever the matches and the store: it sends no request
    at all and leaves the store as it is. *)
Theorem checkAttendanceForMatches_suppressed
    (Math_round : number -> number) (Number_toString : number -> string)
    (st : state) (today : string) (matches : list Match) (w : World) :
  isBreakTime st = true \/ currentClassHour st = ""%string ->
  checkAttendanceForMatches Math_round Number_toString st today matches w
  = (Returns [], w).
Proof.
  intros H. unfold checkAttendanceForMatches.
  destruct H as [-> | ->]; [reflexivity | now rewrite orb_true_r].
Qed.


(** C1, as the code has it: the excuse that suppresses an alert is an
    attendance record of any status, or a duty leave, and the store
    answers every request (none resolves with an error, none is rejected).
    Then, for a matched identity in an active class hour with no attendance
    record, no duty leave and no notification for the date and class hour,
    the check creates exactly one alert for it; run again with the same
    inputs on the store it leaves, where the notification now exists, it
    creates none; and no later pass ever creates an alert with that
    identity, date and class hour. *)
Theorem checkAttendanceForMatches_alerts_once
    (Math_round : number -> number) (Number_toString : number -> string)
    (st : state) (today : string) (matches : list Match) (w : World) (m : Match) :
  isBreakTime st = false ->
  currentClassHour st <> ""%string ->
  fates w = [] ->
  In m matches ->
  has_attendance (database w) (id (student m)) today (currentClassHour st) = false ->
  has_duty_leave (database w) (id (student m)) today (currentClassHour st) = false ->
  exists_notification (database w) (id (student m)) today (currentClassHour st) = false ->
  exists alerts w' a,
    checkAttendanceForMatches Math_round Number_toString st today matches w
    = (Returns alerts, w')
    /\ filter (alert_for (id (student m))) alerts = [a]
    /\ n_date a = today /\ n_class_hour a = currentClassHour st
    /\ exists_notification (database w') (id (student m)) today (currentClassHour st) = true
    /\ (exists alerts2 w2,
          checkAttendanceForMatches Math_round Number_toString st today matches w'
          = (Returns alerts2, w2)
          /\ filter (alert_for (id (student m))) alerts2 = [])
    /\ (forall ps,
          Forall (fun a' => notification_at (id (student m)) today (currentClassHour st) a'
                            = false)
                 (fst (passes Math_round Number_toString ps w'))).
Proof.
  intros Hbreak Hhour Hf Hin Hatt Hdl Hnot.
  assert (Hactive : isBreakTime st || String.eqb (currentClassHour st) "" = false).
  { rewrite Hbreak. simpl. now apply String.eqb_neq. }
  unfold checkAttendanceForMatches. rewrite Hactive.
  destruct (forEachMatch_for_identity Math_round Number_toString st today
              (id (student m)) matches w Hf Hatt Hdl)
    as (alerts & w' & Hrun & Hf' & Hatt' & Hdl' & Hcount & Hex).
  rewrite Hnot in Hcount, Hex. simpl in Hex.
  assert (Hsome : existsb (fun m0 => String.eqb (id (student m0)) (id (student m))) matches
                  = true).
  { apply existsb_exists. exists m. split; [exact Hin | apply String.eqb_refl]. }
  rewrite Hsome in Hex.
  destruct (find (fun m0 => String.eqb (id (student m0)) (id (student m))) matches)
    as [m'|] eqn:Hfind.
  2:{ exfalso. apply existsb_exists in Hsome. destruct Hsome as (x & Hx & Hxe).
      pose proof (find_none _ _ Hfind x Hx) as Hnone. cbv beta in Hnone. congruence. }
  exists alerts, w', (alert_of Math_round Number_toString st today m').
  split; [exact Hrun|]. split; [exact Hcount|]. split; [reflexivity|].
  split; [reflexivity|]. split; [exact Hex|]. split.
  - destruct (forEachMatch_for_identity Math_round Number_toString st today
                (id (student m)) matches w' Hf')
      as (alerts2 & w2 & Hrun2 & _ & _ & _ & Hcount2 & _).
    + unfold has_attendance. rewrite Hatt'. exact Hatt.
    + unfold has_duty_leave. rewrite Hdl'. exact Hdl.
    + exists alerts2, w2. split; [exact Hrun2|]. now rewrite Hex in Hcount2.
  - intros ps. now apply passes_no_repeat.
Qed.

(** ** Scenarios

    Concrete models, rosters and stores on which the statements above are
    run. *)

(** [Math.round] and the decimal rendering of an integer-valued number, for
    finite numbers of magnitude below [2^53]: the floor of [x + 1/2] (with
    the sign of [x] when that is zero), and its digits. *)
Definition floor_half_up (x : number) : Z :=
  match Prim2SF x with
  | S754_finite s m e =>
      let n := if s then Z.neg m else Z.pos m in
      if (0 <=? e)%Z then (n * 2 ^ e)%Z
      else ((2 * n + 2 ^ (- e)) / 2 ^ (1 - e))%Z
  | _ => 0%Z
  end.

Definition sample_round (x : number) : number :=
  match Prim2SF x with
  | S754_finite s m e =>
      if (0 <=? e)%Z then x
      else
        let z := floor_half_up x in
        if (z <? 0)%Z then (- of_uint63 (Uint63.of_Z (- z)))%float
        else if s && (z =? 0)%Z then (- 0)%float
        else of_uint63 (Uint63.of_Z z)
  | _ => x
  end.

Definition sample_toString (x : number) : string :=
  match Prim2SF x with
  | S754_nan => "NaN"
  | S754_infinity s => if s then "-Infinity" else "Infinity"
  | _ => DecimalString.NilZero.string_of_int (Z.to_int (floor_half_up x))
  end.

(** A detector that reports a person, a low-score person and a cat, and an
    embedder that reads the embedding off the corner of the crop. *)
Definition sample_detections : list Detection :=
  [ mkDetection "person" 0.9%float (mkBox 0.99%float 0.01%float 40%float 60%float);
    mkDetection "person" 0.5%float (mkBox 0%float 1%float 20%float 30%float);
    mkDetection "cat" 0.8%float (mkBox 5%float 5%float 9%float 9%float) ].

Definition sample_detector : Detector := fun _ => Returns sample_detections.

Definition failing_detector : Detector := fun _ => Throws "inference failed"%string.

Definition sample_embedder : Embedder :=
  fun canvas => Returns [xmin (region canvas); ymin (region canvas)].

Definition sample_env : Environment :=
  mkEnvironment (Returns sample_detector) (Returns sample_embedder) (fun _ => true).

Definition offline_env : Environment :=
  mkEnvironment (Throws "model not reachable"%string) (Returns sample_embedder)
                (fun _ => true).

Definition sample_image : HTMLImageElement := mkImage "data:image/jpeg;base64,AAAA".

Definition student_A : Student :=
  mkStudent "A" "Asha" "S001" (Some [1%float; 0%float]).
Definition student_B : Student :=
  mkStudent "B" "Bilal" "S002" (Some [0%float; 1%float]).

Definition probe_face : DetectedFace :=
  mkDetectedFace (mkBox 0.99%float 0.01%float 40%float 60%float) 0.9%float None.

(** The end-to-end scenario of the specification: the probe [0.99, 0.01]
    against the roster [A = [1, 0]], [B = [0, 1]] gives one match, for [A]. *)
Example match_scenario :
  fst (matchFaceWithStudents sample_env new_service [probe_face] sample_image
         [student_A; student_B])
  = [mkMatch student_A (calculateSimilarity [0.99%float; 0.01%float] [1%float; 0%float])]
  /\ (0.999 <? calculateSimilarity [0.99%float; 0.01%float] [1%float; 0%float])%float = true.
Proof. split; vm_compute; reflexivity. Qed.

(** A student whose id names a member of [Object.prototype] is never in the
    output. *)
Example match_inherited_key :
  fst (matchFaceWithStudents sample_env new_service [probe_face] sample_image
         [mkStudent "constructor" "Asha" "S001" (Some [1%float; 0%float])])
  = [].
Proof. vm_compute. reflexivity. Qed.

(** Keys that are array indices come first in the output, in numeric
    order. *)
Example match_output_order :
  map (fun m => id (student m))
      (fst (matchFaceWithStudents sample_env new_service [probe_face] sample_image
              [mkStudent "b" "x" "S1" (Some [1%float; 0%float]);
               mkStudent "10" "y" "S2" (Some [1%float; 0%float]);
               mkStudent "9" "z" "S3" (Some [1%float; 0%float])]))
  = ["9"; "10"; "b"]%string.
Proof. vm_compute. reflexivity. Qed.


Lemma detectFaces_filters_witness :
  exists faces,
    fst (detectFaces sample_env new_service sample_image) = Returns faces
    /\ faces = map to_face
                 (filter (fun r => String.eqb (label r) "person"
                                   && (0.5 <? det_score r)%float) sample_detections)
    /\ (forall f, In f faces <->
          exists r, In r sample_detections /\ label r = "person"%string
                    /\ (0.5 <? det_score r)%float = true
                    /\ f = mkDetectedFace (det_box r) (det_score r) None)
    /\ (forall f, In f faces -> score f <> 0.5%float)
    /\ ((forall r, In r sample_detections ->
           label r <> "person"%string \/ (0.5 <? det_score r)%float = false) ->
        faces = []).
Proof.
  apply (detectFaces_filters sample_env new_service sample_image sample_detector
           sample_detections).
  - right. split; [reflexivity|]. split; [reflexivity|]. now exists sample_embedder.
  - reflexivity.
Defined.

Example detectFaces_scenario :
  fst (detectFaces sample_env new_service sample_image) = Returns [probe_face].
Proof. vm_compute. reflexivity. Qed.

Lemma detectFaces_error_asymmetry_witness :
  fst (detectFaces sample_env (mkService (Some failing_detector) (Some sample_embedder) true)
         sample_image) = Returns []
  /\ fst (detectFaces offline_env new_service sample_image)
     = Throws "model not reachable"%string.
Proof.
  split.
  - apply (proj1 (detectFaces_error_asymmetry sample_env
                    (mkService (Some failing_detector) (Some sample_embedder) true)
                    sample_image)
             failing_detector "inference failed"%string).
    + left. split; reflexivity.
    + reflexivity.
  - apply (proj2 (detectFaces_error_asymmetry offline_env new_service sample_image)
             "model not reachable"%string).
    + reflexivity.
    + left. reflexivity.
Defined.

(** A pass at 09:30 on a school day for one matched student. *)
Definition morning : state := updateCurrentClassHour (currentTime 9 30).

Definition seen_A : Match := mkMatch student_A 0.87%float.

Definition empty_store : World := mkWorld (mkDatabase [] [] []) [].

Definition store_marked (status : string) : World :=
  mkWorld (mkDatabase [mkAttendance "A" "2025-03-10" "09:00:00" status] [] []) [].

Example alert_scenario :
  checkAttendanceForMatches sample_round sample_toString morning "2025-03-10"
    [seen_A] empty_store
  = (Returns
       [mkNotification "A"
          "Asha detected without attendance or duty leave (confidence: 87%)"
          "09:00:00" "2025-03-10"],
     mkWorld
       (mkDatabase [] []
          [mkNotification "A"
             "Asha detected without attendance or duty leave (confidence: 87%)"
             "09:00:00" "2025-03-10"])
       []).
Proof. vm_compute. reflexivity. Qed.

(** A failed attendance lookup is read as no attendance, and a rejected
    request skips the student. *)
Example failed_lookup_scenario :
  map n_student_id
    (match checkAttendanceForMatches sample_round sample_toString morning "2025-03-10"
             [seen_A]
             (mkWorld (database (store_marked "present")) [Failed]) with
     | (Returns alerts, _) => alerts
     | (Throws _, _) => []
     end) = ["A"]%string
  /\ fst (checkAttendanceForMatches sample_round sample_toString morning "2025-03-10"
            [seen_A]
            (mkWorld (database empty_store) [Rejected "timeout"%string]))
     = Returns [].
Proof. split; vm_compute; reflexivity. Qed.

Lemma checkAttendanceForMatches_suppressed_witness :
  checkAttendanceForMatches sample_round sample_toString
    (updateCurrentClassHour (currentTime 10 50)) "2025-03-10" [seen_A] empty_store
  = (Returns [], empty_store)
  /\ checkAttendanceForMatches sample_round sample_toString
       (updateCurrentClassHour (currentTime 8 15)) "2025-03-10" [seen_A] empty_store
     = (Returns [], empty_store).
Proof.
  split.
  - apply (checkAttendanceForMatches_suppressed sample_round sample_toString
             (updateCurrentClassHour (currentTime 10 50)) "2025-03-10" [seen_A] empty_store).
    left. reflexivity.
  - apply (checkAttendanceForMatches_suppressed sample_round sample_toString
             (updateCurrentClassHour (currentTime 8 15)) "2025-03-10" [seen_A] empty_store).
    right. reflexivity.
Defined.



Lemma checkAttendanceForMatches_alerts_once_witness :
  exists alerts w' a,
    checkAttendanceForMatches sample_round sample_toString morning "2025-03-10"
      [seen_A] empty_store
    = (Returns alerts, w')
    /\ filter (alert_for (id (student seen_A))) alerts = [a]
    /\ n_date a = "2025-03-10"%string /\ n_class_hour a = currentClassHour morning
    /\ exists_notification (database w') (id (student seen_A)) "2025-03-10"
         (currentClassHour morning) = true
    /\ (exists alerts2 w2,
          checkAttendanceForMatches sample_round sample_toString morning "2025-03-10"
            [seen_A] w'
          = (Returns alerts2, w2)
          /\ filter (alert_for (id (student seen_A))) alerts2 = [])
    /\ (forall ps,
          Forall (fun a' => notification_at (id (student seen_A)) "2025-03-10"
                              (currentClassHour morning) a' = false)
                 (fst (passes sample_round sample_toString ps w'))).
Proof.
  apply (checkAttendanceForMatches_alerts_once sample_round sample_toString morning
           "2025-03-10" [seen_A] empty_store seen_A).
  - reflexivity.
  - vm_compute. discriminate.
  - reflexivity.
  - left. reflexivity.
  - reflexivity.
  - reflexivity.
  - reflexivity.
Defined.

(** C1 as the specification words it, with the excuse limited to a present
    record or a duty leave, fails: a student marked absent for the class
    hour has no such excuse and no notification, and the check creates no
    alert for that student. *)
Lemma alerts_once_fails_for_absent_record :
  ~ (forall (Math_round : number -> number) (Number_toString : number -> string)
            (st : state) (today : string) (matches : list Match) (w : World) (m : Match),
        isBreakTime st = false ->
        currentClassHour st <> ""%string ->
        fates w = [] ->
        In m matches ->
        exists_valid_excuse (database w) (id (student m)) today (currentClassHour st)
        = false ->
        exists_notification (database w) (id (student m)) today (currentClassHour st)
        = false ->
        exists alerts w' a,
          checkAttendanceForMatches Math_round Number_toString st today matches w
          = (Returns alerts, w')
          /\ filter (alert_for (id (student m))) alerts = [a]).
Proof.
  intros Hclaim.
  destruct (Hclaim sample_round sample_toString morning "2025-03-10"%string
              [seen_A] (store_marked "absent") seen_A)
    as (alerts & w' & a & Hrun & Hone).
  - reflexivity.
  - vm_compute. discriminate.
  - reflexivity.
  - left. reflexivity.
  - vm_compute. reflexivity.
  - reflexivity.
  - vm_compute in Hrun. injection Hrun as <- _. discriminate Hone.
Qed.


(** * Further properties of the code *)

(** ** The service across calls *)

(** The state the service is in after its lazy initialization has been
    attempted in [env]. *)
Definition settle (env : Environment) (this : Service) : Service :=
  if initialized this then this else snd (initialize env this).

(** The calls a client can make on the service object. *)
Inductive service_call : Type :=
| CallInitialize (env : Environment)
| CallDetectFaces (env : Environment) (imageElement : HTMLImageElement)
| CallExtract (env : Environment) (faceImage : HTMLCanvasElement)
| CallMatch (env : Environment) (detectedFaces : list DetectedFace)
            (imageElement : HTMLImageElement) (students : list Student).

Definition after_call (this : Service) (c : service_call) : Service :=
  match c with
  | CallInitialize env => snd (initialize env this)
  | CallDetectFaces env imageElement => snd (detectFaces env this imageElement)
  | CallExtract env faceImage => snd (extractFaceEmbedding env this faceImage)
  | CallMatch env detectedFaces imageElement students =>
      snd (matchFaceWithStudents env this detectedFaces imageElement students)
  end.

Definition service_after (calls : list service_call) : Service :=
  fold_left after_call calls new_service.

(** An initialized service holds both models. *)
Definition models_loaded (this : Service) : Prop :=
  initialized this = true ->
  exists d m, detector this = Some d /\ embedder this = Some m.

Lemma initialize_models_loaded (env : Environment) (this : Service) :
  models_loaded this -> models_loaded (snd (initialize env this)).
Proof.
  intros Hok. unfold initialize.
  destruct (initialized this) eqn:Hinit; [exact Hok|].
  destruct (pipeline_detection env) as [d|e]; [|exact Hok].
  destruct (pipeline_extraction env) as [m|e]; simpl.
  - intros _. now exists d, m.
  - intros H. simpl in H. congruence.
Qed.

Lemma settle_models_loaded (env : Environment) (this : Service) :
  models_loaded this -> models_loaded (settle env this).
Proof.
  unfold settle. destruct (initialized this); [easy|].
  apply initialize_models_loaded.
Qed.

Lemma detectFaces_state (env : Environment) (this : Service)
    (imageElement : HTMLImageElement) :
  snd (detectFaces env this imageElement) = settle env this.
Proof.
  unfold detectFaces, settle.
  destruct (initialized this); simpl.
  - destruct (detector this) as [detect|]; [|reflexivity].
    now destruct (detect imageElement).
  - destruct (initialize env this) as [[[]|e] this']; simpl; [|reflexivity].
    destruct (detector this') as [detect|]; [|reflexivity].
    now destruct (detect imageElement).
Qed.

Lemma extractFaceEmbedding_state (env : Environment) (this : Service)
    (faceImage : HTMLCanvasElement) :
  snd (extractFaceEmbedding env this faceImage) = settle env this.
Proof.
  unfold extractFaceEmbedding, settle.
  destruct (initialized this); simpl.
  - destruct (embedder this) as [embed|]; [|reflexivity].
    now destruct (embed faceImage).
  - destruct (initialize env this) as [[[]|e] this']; simpl; [|reflexivity].
    destruct (embedder this') as [embed|]; [|reflexivity].
    now destruct (embed faceImage).
Qed.

Lemma processFace_state (env : Environment) (imageElement : HTMLImageElement)
    (students : list Student) (acc : list Match) (this : Service) (face : DetectedFace) :
  snd (processFace env imageElement students (acc, this) face) = this
  \/ snd (processFace env imageElement students (acc, this) face) = settle env this.
Proof.
  unfold processFace.
  destruct (cropFaceFromImage env imageElement (box face)) as [canvas|e]; [|now left].
  pose proof (extractFaceEmbedding_state env this canvas) as Hstate.
  destruct (extractFaceEmbedding env this canvas) as [[probe|e] this']; simpl in *;
    [|now right].
  destruct (List.length probe =? 0)%nat; now right.
Qed.

Lemma collectMatches_models_loaded (env : Environment) (this : Service)
    (detectedFaces : list DetectedFace) (imageElement : HTMLImageElement)
    (students : list Student) :
  models_loaded this ->
  models_loaded (snd (collectMatches env this detectedFaces imageElement students)).
Proof.
  unfold collectMatches. generalize (@nil Match) as acc. revert this.
  induction detectedFaces as [|face faces IH]; intros this acc Hok; [exact Hok|].
  cbn [fold_left].
  destruct (processFace env imageElement students (acc, this) face) as [acc' this'] eqn:Hp.
  apply IH.
  destruct (processFace_state env imageElement students acc this face) as [H | H];
    rewrite Hp in H; simpl in H; subst this'; [exact Hok|].
  now apply settle_models_loaded.
Qed.

Lemma matchFaceWithStudents_state (env : Environment) (this : Service)
    (detectedFaces : list DetectedFace) (imageElement : HTMLImageElement)
    (students : list Student) :
  snd (matchFaceWithStudents env this detectedFaces imageElement students)
  = snd (collectMatches env this detectedFaces imageElement students).
Proof.
  unfold matchFaceWithStudents.
  now destruct (collectMatches env this detectedFaces imageElement students).
Qed.

(** X1. Whatever calls are made on a fresh service, in whatever
    environments, the service is never marked initialized without holding
    both the detector and the embedder. *)
Theorem service_models_loaded (calls : list service_call) :
  models_loaded (service_after calls).
Proof.
  unfold service_after.
  assert (Hgen : forall this, models_loaded this ->
                              models_loaded (fold_left after_call calls this)).
  { induction calls as [|c calls IH]; intros this Hok; [exact Hok|].
    cbn [fold_left]. apply IH.
    destruct c as [env|env img|env canvas|env faces img students]; cbn [after_call].
    - now apply initialize_models_loaded.
    - rewrite detectFaces_state. now apply settle_models_loaded.
    - rewrite extractFaceEmbedding_state. now apply settle_models_loaded.
    - rewrite matchFaceWithStudents_state. now apply collectMatches_models_loaded. }
  apply Hgen. intros H. discriminate H.
Qed.

(** X2. Initialization happens once: after [initialize] has succeeded,
    calling it again, in any environment, loads nothing and changes
    nothing, and neither do [detectFaces] and [extractFaceEmbedding]. *)
Theorem initialize_once (env : Environment) (this : Service) :
  fst (initialize env this) = Returns tt ->
  let ready := snd (initialize env this) in
  initialized ready = true
  /\ forall env',
       initialize env' ready = (Returns tt, ready)
       /\ (forall imageElement, snd (detectFaces env' ready imageElement) = ready)
       /\ (forall faceImage, snd (extractFaceEmbedding env' ready faceImage) = ready).
Proof.
  intros Hok. cbv zeta.
  assert (Hinit : initialized (snd (initialize env this)) = true).
  { unfold initialize in *. destruct (initialized this) eqn:Hi; [exact Hi|].
    destruct (pipeline_detection env) as [d|e]; [|discriminate Hok].
    now destruct (pipeline_extraction env) as [m|e]. }
  split; [exact Hinit|]. intros env'. split; [|split].
  - unfold initialize at 1. now rewrite Hinit.
  - intros img. rewrite detectFaces_state. unfold settle. now rewrite Hinit.
  - intros canvas. rewrite extractFaceEmbedding_state. unfold settle. now rewrite Hinit.
Qed.

(** X3. A failed initialization leaves the service uninitialized, so the
    next call tries again; once both pipelines load, the retry succeeds
    with the newly loaded models, whatever the failed attempt left behind. *)
Theorem initialize_retry (env : Environment) (this : Service) (e : error) :
  fst (initialize env this) = Throws e ->
  initialized (snd (initialize env this)) = false
  /\ forall env' d m,
       pipeline_detection env' = Returns d ->
       pipeline_extraction env' = Returns m ->
       initialize env' (snd (initialize env this))
       = (Returns tt, mkService (Some d) (Some m) true).
Proof.
  intros Hfail.
  assert (Hinit : initialized (snd (initialize env this)) = false).
  { unfold initialize in *. destruct (initialized this) eqn:Hi; [discriminate Hfail|].
    destruct (pipeline_detection env) as [d|e0]; [|exact Hi].
    destruct (pipeline_extraction env) as [m|e0]; [discriminate Hfail | reflexivity]. }
  split; [exact Hinit|]. intros env' d m Hd Hm.
  unfold initialize at 1. now rewrite Hinit, Hd, Hm.
Qed.

(** X4. On an initialized service neither [detectFaces] nor
    [extractFaceEmbedding] throws, in any environment and whatever the
    models do: a model that throws, or is missing, gives the empty array;
    and the service is left as it was. *)
Theorem initialized_service_never_throws (env : Environment) (this : Service)
    (imageElement : HTMLImageElement) (faceImage : HTMLCanvasElement) :
  initialized this = true ->
  (exists faces, detectFaces env this imageElement = (Returns faces, this)
     /\ ((detector this = None
          \/ exists detect e, detector this = Some detect
                              /\ detect imageElement = Throws e) -> faces = []))
  /\ (exists data, extractFaceEmbedding env this faceImage = (Returns data, this)
     /\ ((embedder this = None
          \/ exists embed e, embedder this = Some embed
                             /\ embed faceImage = Throws e) -> data = [])).
Proof.
  intros Hinit. split.
  - unfold detectFaces. rewrite Hinit. simpl.
    destruct (detector this) as [detect|] eqn:Hdet.
    + destruct (detect imageElement) as [results|e] eqn:Hres.
      * eexists. split; [reflexivity|].
        intros [H | (detect' & e & H & Hthrow)]; [discriminate H|].
        injection H as <-. congruence.
      * exists []. split; [reflexivity | easy].
    + exists []. split; [reflexivity | easy].
  - unfold extractFaceEmbedding. rewrite Hinit. simpl.
    destruct (embedder this) as [embed|] eqn:Hemb.
    + destruct (embed faceImage) as [data|e] eqn:Hres.
      * exists data. split; [reflexivity|].
        intros [H | (embed' & e & H & Hthrow)]; [discriminate H|].
        injection H as <-. congruence.
      * exists []. split; [reflexivity | easy].
    + exists []. split; [reflexivity | easy].
Qed.

(** ** The matcher: one face at a time *)

(** The matches one face adds to the array, processed in state [this]. *)
Definition faceMatches (env : Environment) (this : Service)
    (imageElement : HTMLImageElement) (students : list Student)
    (face : DetectedFace) : list Match :=
  fst (processFace env imageElement students ([], this) face).

Lemma processFace_initialized (env : Environment) (imageElement : HTMLImageElement)
    (students : list Student) (acc : list Match) (this : Service) (face : DetectedFace) :
  initialized this = true ->
  processFace env imageElement students (acc, this) face
  = (acc ++ faceMatches env this imageElement students face, this).
Proof.
  intros Hinit. rewrite processFace_appends. unfold faceMatches. f_equal.
  destruct (processFace_state env imageElement students [] this face) as [H | H];
    rewrite H; [reflexivity|].
  unfold settle. now rewrite Hinit.
Qed.

Lemma collectMatches_initialized (env : Environment) (this : Service)
    (detectedFaces : list DetectedFace) (imageElement : HTMLImageElement)
    (students : list Student) :
  initialized this = true ->
  collectMatches env this detectedFaces imageElement students
  = (flat_map (faceMatches env this imageElement students) detectedFaces, this).
Proof.
  intros Hinit. unfold collectMatches.
  assert (Hgen : forall faces acc,
             fold_left (processFace env imageElement students) faces (acc, this)
             = (acc ++ flat_map (faceMatches env this imageElement students) faces, this)).
  { induction faces as [|face faces IH]; intros acc; cbn [fold_left flat_map].
    - now rewrite app_nil_r.
    - rewrite processFace_initialized by exact Hinit. rewrite IH.
      now rewrite app_assoc. }
  apply Hgen.
Qed.

(** X5. A face that cannot be used does not disturb the others: on an
    initialized service, a face whose crop gets no canvas context, or whose
    embedding comes back empty (which is also what a throwing or missing
    embedder gives), can be dropped from the detected faces without
    changing the result of the matcher. *)
Theorem matchFaceWithStudents_skips_failed_face (env : Environment) (this : Service)
    (before after : list DetectedFace) (face : DetectedFace)
    (imageElement : HTMLImageElement) (students : list Student) :
  initialized this = true ->
  context2d env (box face) = false
  \/ fst (extractFaceEmbedding env this (mkCanvas imageElement (box face))) = Returns [] ->
  matchFaceWithStudents env this (before ++ face :: after) imageElement students
  = matchFaceWithStudents env this (before ++ after) imageElement students.
Proof.
  intros Hinit Hfail. unfold matchFaceWithStudents.
  rewrite !collectMatches_initialized by exact Hinit.
  assert (Hnone : faceMatches env this imageElement students face = []).
  { unfold faceMatches, processFace, cropFaceFromImage.
    destruct Hfail as [Hctx | Hext].
    - now rewrite Hctx.
    - destruct (context2d env (box face)); [|reflexivity].
      destruct (extractFaceEmbedding env this (mkCanvas imageElement (box face)))
        as [[probe|e] this']; simpl in Hext; [|discriminate Hext].
      injection Hext as ->. reflexivity. }
  rewrite !flat_map_app. cbn [flat_map]. now rewrite Hnone.
Qed.


Lemma matchFaceWithStudents_retained (env : Environment) (this : Service)
    (detectedFaces : list DetectedFace) (imageElement : HTMLImageElement)
    (students : list Student) (m : Match) :
  In m (fst (matchFaceWithStudents env this detectedFaces imageElement students)) ->
  retained env detectedFaces imageElement students m.
Proof.
  intros Hm.
  destruct (matchFaceWithStudents_kept env this detectedFaces imageElement students)
    as [[_ Hent _] Hres].
  rewrite Hres in Hm. apply Object_values_In in Hm. destruct Hm as [k Hk].
  destruct (Hent k m Hk) as (_ & _ & pre & post & Heq & _).
  apply (collectMatches_retained env this).
  rewrite Heq. apply in_or_app. right. now left.
Qed.





(** ** The attendance check under any behaviour of the store *)

(** [l1] is [l2] with some elements left out. *)
Inductive subsequence {A : Type} : list A -> list A -> Prop :=
| subsequence_nil : subsequence [] []
| subsequence_skip (x : A) (l1 l2 : list A) :
    subsequence l1 l2 -> subsequence l1 (x :: l2)
| subsequence_keep (x : A) (l1 l2 : list A) :
    subsequence l1 l2 -> subsequence (x :: l1) (x :: l2).

Lemma subsequence_refl {A : Type} (l : list A) : subsequence l l.
Proof. induction l; now constructor. Qed.

Lemma subsequence_nil_l {A : Type} (l : list A) : subsequence [] l.
Proof. induction l; now constructor. Qed.

Lemma subsequence_In {A : Type} (l1 l2 : list A) (x : A) :
  subsequence l1 l2 -> In x l1 -> In x l2.
Proof.
  induction 1 as [|y l1 l2 _ IH|y l1 l2 _ IH]; simpl; [easy | auto |].
  intros [-> | H]; auto.
Qed.

Lemma subsequence_map {A B : Type} (f : A -> B) (l1 l2 : list A) :
  subsequence l1 l2 -> subsequence (map f l1) (map f l2).
Proof. induction 1; simpl; now constructor. Qed.

Lemma subsequence_NoDup {A : Type} (l1 l2 : list A) :
  subsequence l1 l2 -> NoDup l2 -> NoDup l1.
Proof.
  induction 1 as [|y l1 l2 Hs IH|y l1 l2 Hs IH]; intros Hnd; [constructor | |];
    inversion Hnd as [|? ? Hy Hnd']; subst; [now apply IH|].
  constructor; [|now apply IH].
  intros Hin. apply Hy. now apply (subsequence_In l1 l2).
Qed.

(** The store [w'] is the store [w] with the rows [added] appended to its
    notifications, and nothing else changed. *)
Definition only_notified (w w' : World) (added : list notification) : Prop :=
  attendance_records (database w') = attendance_records (database w)
  /\ duty_leaves (database w') = duty_leaves (database w)
  /\ notifications (database w') = notifications (database w) ++ added.

Lemma only_notified_refl (w : World) : only_notified w w [].
Proof. unfold only_notified. now rewrite app_nil_r. Qed.

Lemma only_notified_trans (w1 w2 w3 : World) (a b : list notification) :
  only_notified w1 w2 a -> only_notified w2 w3 b -> only_notified w1 w3 (a ++ b).
Proof.
  intros (H1 & H2 & H3) (K1 & K2 & K3). unfold only_notified.
  rewrite K1, K2, K3, H1, H2, H3. now rewrite app_assoc.
Qed.

Lemma next_fate_database (w : World) :
  database (snd (next_fate w)) = database w.
Proof. unfold next_fate. now destruct (fates w). Qed.

Lemma select_only_reads {R : Type} (table : Database -> list R) (p : R -> bool)
    (w : World) :
  only_notified w (snd (select table p w)) [].
Proof.
  unfold select. pose proof (next_fate_database w) as Hdb.
  destruct (next_fate w) as [[| |e] w']; simpl in *; unfold only_notified;
    rewrite Hdb, app_nil_r; auto.
Qed.

Section AnyStore.

Variable Math_round : number -> number.
Variable Number_toString : number -> string.

(** One match: never an exception, at most the alert of that match, and a
    row appended only together with the alert. *)
Lemma checkMatch_any_store (st : state) (today : string) (m : Match) (w : World) :
  exists created w' added,
    checkMatch Math_round Number_toString st today m w = (Returns created, w')
    /\ only_notified w w' added
    /\ ((created = [] /\ added = [])
        \/ (created = [alert_of Math_round Number_toString st today m]
            /\ (added = [] \/ added = created))).
Proof.
  unfold checkMatch, try_catch, bind.
  pose proof (select_only_reads attendance_records
                (attendance_at (id (student m)) today (currentClassHour st)) w) as H1.
  destruct (select attendance_records _ w) as [[att|e1] w1]; simpl in H1;
    [|exists [], w1, []; auto].
  pose proof (select_only_reads duty_leaves
                (duty_leave_at (id (student m)) today (currentClassHour st)) w1) as H2.
  destruct (select duty_leaves _ w1) as [[dl|e2] w2]; simpl in H2.
  2:{ exists [], w2, []. split; [reflexivity|]. split; [|auto].
      exact (only_notified_trans _ _ _ _ _ H1 H2). }
  pose proof (only_notified_trans _ _ _ _ _ H1 H2) as H12. simpl in H12.
  destruct (missing att && missing dl); [|exists [], w2, []; auto].
  pose proof (select_only_reads notifications
                (notification_at (id (student m)) today (currentClassHour st)) w2) as H3.
  destruct (select notifications _ w2) as [[ex|e3] w3]; simpl in H3.
  2:{ exists [], w3, []. split; [reflexivity|]. split; [|auto].
      exact (only_notified_trans _ _ _ _ _ H12 H3). }
  pose proof (only_notified_trans _ _ _ _ _ H12 H3) as H123. simpl in H123.
  destruct (missing ex); [|exists [], w3, []; auto].
  unfold insert_notification. pose proof (next_fate_database w3) as Hdb.
  fold (alert_of Math_round Number_toString st today m).
  destruct (next_fate w3) as [[| |e4] w4]; simpl in Hdb.
  - destruct (existsb _ (notifications (database w4))).
    + eexists _, w4, []. split; [reflexivity|]. split; [|right; auto].
      destruct H123 as (A & B & C). unfold only_notified. now rewrite Hdb.
    + eexists _, _, [alert_of Math_round Number_toString st today m].
      split; [reflexivity|]. split; [|right; auto].
      destruct H123 as (A & B & C). unfold only_notified. simpl.
      rewrite Hdb. rewrite A, B, C. now rewrite app_nil_r.
  - eexists _, w4, []. split; [reflexivity|]. split; [|right; auto].
    destruct H123 as (A & B & C). unfold only_notified. now rewrite Hdb.
  - exists [], w4, []. split; [reflexivity|]. split; [|auto].
    destruct H123 as (A & B & C). unfold only_notified. now rewrite Hdb.
Qed.

Lemma forEachMatch_any_store (st : state) (today : string) (matches : list Match)
    (w : World) :
  exists alerts w' added kept,
    forEachMatch Math_round Number_toString st today matches w = (Returns alerts, w')
    /\ only_notified w w' added
    /\ subsequence added alerts
    /\ subsequence kept matches
    /\ alerts = map (alert_of Math_round Number_toString st today) kept.
Proof.
  revert w. induction matches as [|m rest IH]; intros w.
  - exists [], w, [], []. split; [reflexivity|]. split; [apply only_notified_refl|].
    repeat split; constructor.
  - rewrite forEachMatch_cons.
    destruct (checkMatch_any_store st today m w) as (created & w1 & a1 & Hrun & Hw1 & Hc).
    rewrite Hrun.
    destruct (IH w1) as (later & w2 & a2 & kept & Hrest & Hw2 & Hsub & Hkept & Hmap).
    rewrite Hrest.
    destruct Hc as [[-> ->] | [-> Hadd]].
    + exists later, w2, a2, kept. split; [reflexivity|].
      split; [exact (only_notified_trans _ _ _ _ _ Hw1 Hw2)|].
      split; [exact Hsub|]. split; [now constructor | exact Hmap].
    + exists ([alert_of Math_round Number_toString st today m] ++ later), w2,
             (a1 ++ a2), (m :: kept).
      split; [reflexivity|].
      split; [exact (only_notified_trans _ _ _ _ _ Hw1 Hw2)|].
      split; [|split; [now constructor | simpl; now rewrite Hmap]].
      destruct Hadd as [-> | ->]; simpl; now constructor.
Qed.

End AnyStore.

(** X7. Whatever the store does with the requests (answers them, fails
    them, rejects them), the attendance check never throws; it never
    changes the attendance records or the duty leaves; and the only change
    it makes to the notifications is to append rows, each of them one of
    the alerts it reports. *)
Theorem checkAttendanceForMatches_only_appends_alerts
    (Math_round : number -> number) (Number_toString : number -> string)
    (st : state) (today : string) (matches : list Match) (w : World) :
  exists alerts w' added,
    checkAttendanceForMatches Math_round Number_toString st today matches w
    = (Returns alerts, w')
    /\ attendance_records (database w') = attendance_records (database w)
    /\ duty_leaves (database w') = duty_leaves (database w)
    /\ notifications (database w') = notifications (database w) ++ added
    /\ subsequence added alerts.
Proof.
  unfold checkAttendanceForMatches.
  destruct (isBreakTime st || String.eqb (currentClassHour st) "").
  - exists [], w, []. unfold ret. rewrite app_nil_r. repeat split. constructor.
  - destruct (forEachMatch_any_store Math_round Number_toString st today matches w)
      as (alerts & w' & added & kept & Hrun & (A & B & C) & Hsub & _ & _).
    exists alerts, w', added. now rewrite Hrun.
Qed.

(** X8. Whatever the store does, the alerts of one pass are the alerts of
    some of the matches, in the order of the matches: each carries the
    id of its student, the date of the pass and the current class hour.
    Matches with distinct ids, as the matcher returns them, therefore give
    at most one alert per student in a pass. *)
Theorem checkAttendanceForMatches_alerts_follow_matches
    (Math_round : number -> number) (Number_toString : number -> string)
    (st : state) (today : string) (matches : list Match) (w : World) :
  exists alerts kept,
    fst (checkAttendanceForMatches Math_round Number_toString st today matches w)
    = Returns alerts
    /\ subsequence kept matches
    /\ alerts
       = map (fun m => mkNotification (id (student m))
                         (alert_message Math_round Number_toString m)
                         (currentClassHour st) today) kept
    /\ (NoDup (map (fun m => id (student m)) matches) ->
        NoDup (map n_student_id alerts)).
Proof.
  unfold checkAttendanceForMatches.
  destruct (isBreakTime st || String.eqb (currentClassHour st) "").
  - exists [], []. repeat split; [apply subsequence_nil_l | constructor].
  - destruct (forEachMatch_any_store Math_round Number_toString st today matches w)
      as (alerts & w' & added & kept & Hrun & _ & _ & Hkept & Hmap).
    exists alerts, kept. rewrite Hrun. split; [reflexivity|].
    split; [exact Hkept|]. split; [exact Hmap|].
    intros Hnd. rewrite Hmap, map_map. simpl.
    apply (subsequence_NoDup _ (map (fun m => id (student m)) matches));
      [now apply subsequence_map | exact Hnd].
Qed.

(** X9. A rejected request costs one student only: in an active class
    hour, when the attendance lookup for the first match is rejected, that
    match is skipped without an alert and the rest of the batch is checked
    as if it had come alone, against the same store. *)
Theorem checkAttendanceForMatches_rejection_skips_one
    (Math_round : number -> number) (Number_toString : number -> string)
    (st : state) (today : string) (m : Match) (rest : list Match)
    (db : Database) (e : error) (later : list fate) :
  isBreakTime st = false ->
  currentClassHour st <> ""%string ->
  checkAttendanceForMatches Math_round Number_toString st today (m :: rest)
    (mkWorld db (Rejected e :: later))
  = checkAttendanceForMatches Math_round Number_toString st today rest
      (mkWorld db later).
Proof.
  intros Hbreak Hhour.
  assert (Hactive : isBreakTime st || String.eqb (currentClassHour st) "" = false)
    by (rewrite Hbreak; now apply String.eqb_neq).
  unfold checkAttendanceForMatches. rewrite Hactive.
  rewrite forEachMatch_cons.
  unfold checkMatch at 1, try_catch, bind, select, next_fate. simpl.
  destruct (forEachMatch Math_round Number_toString st today rest (mkWorld db later))
    as [[alerts|e'] w']; reflexivity.
Qed.

Lemma checkAttendanceForMatches_rejection_skips_one_witness :
  checkAttendanceForMatches sample_round sample_toString morning "2025-03-10"
    [mkMatch student_B 0.9%float; seen_A]
    (mkWorld (database empty_store) [Rejected "timeout"%string])
  = checkAttendanceForMatches sample_round sample_toString morning "2025-03-10"
      [seen_A] empty_store.
Proof.
  apply (checkAttendanceForMatches_rejection_skips_one sample_round sample_toString
           morning "2025-03-10" (mkMatch student_B 0.9%float) [seen_A]
           (database empty_store) "timeout"%string []).
  - reflexivity.
  - vm_compute. discriminate.
Defined.

(** X10. A lookup that fails counts as a lookup that finds nothing: in an
    active class hour, when the attendance lookup and the duty-leave lookup
    both resolve with an error, and no notification exists yet, the alert
    is created and stored whatever attendance records and duty leaves the
    store holds for the student. *)
Theorem checkAttendanceForMatches_failed_lookups_alert
    (Math_round : number -> number) (Number_toString : number -> string)
    (st : state) (today : string) (m : Match) (db : Database) :
  isBreakTime st = false ->
  currentClassHour st <> ""%string ->
  exists_notification db (id (student m)) today (currentClassHour st) = false ->
  let alert := mkNotification (id (student m))
                 (alert_message Math_round Number_toString m)
                 (currentClassHour st) today in
  checkAttendanceForMatches Math_round Number_toString st today [m]
    (mkWorld db [Failed; Failed])
  = (Returns [alert],
     mkWorld (mkDatabase (attendance_records db) (duty_leaves db)
                         (notifications db ++ [alert]))
             []).
Proof.
  intros Hbreak Hhour Hnone. cbv zeta.
  assert (Hactive : isBreakTime st || String.eqb (currentClassHour st) "" = false)
    by (rewrite Hbreak; now apply String.eqb_neq).
  unfold checkAttendanceForMatches. rewrite Hactive.
  rewrite forEachMatch_cons.
  unfold checkMatch, try_catch, bind, select, insert_notification, next_fate.
  simpl.
  pose proof (missing_filter
                (notification_at (id (student m)) today (currentClassHour st))
                (notifications db)) as Hmissing.
  unfold missing in Hmissing. rewrite Hmissing.
  unfold exists_notification in Hnone. rewrite Hnone. simpl.
  rewrite Hnone. reflexivity.
Qed.

Lemma checkAttendanceForMatches_failed_lookups_alert_witness :
  let alert := mkNotification (id (student seen_A))
                 (alert_message sample_round sample_toString seen_A)
                 (currentClassHour morning) "2025-03-10" in
  has_attendance (database (store_marked "present")) "A" "2025-03-10" "09:00:00" = true
  /\ checkAttendanceForMatches sample_round sample_toString morning "2025-03-10" [seen_A]
       (mkWorld (database (store_marked "present")) [Failed; Failed])
     = (Returns [alert],
        mkWorld (mkDatabase (attendance_records (database (store_marked "present")))
                            (duty_leaves (database (store_marked "present")))
                            (notifications (database (store_marked "present")) ++ [alert]))
                []).
Proof.
  cbv zeta. split; [reflexivity|].
  apply (checkAttendanceForMatches_failed_lookups_alert sample_round sample_toString
           morning "2025-03-10" seen_A (database (store_marked "present"))).
  - reflexivity.
  - vm_compute. discriminate.
  - reflexivity.
Defined.

(** ** processImageForFaceRecognition *)

Module Pass.

(** What a pass runs on: the service object, the store, and the calls made
    to [setIsProcessing], oldest first. *)
Record Runtime : Type := mkRuntime {
  rt_service : Service;
  rt_world : World;
  rt_setIsProcessing : list bool
}.

(** The values of the component state that the function closes over. *)
Record Snapshot : Type := mkSnapshot {
  snap_isProcessing : bool;
  snap_students : list Student;
  snap_state : state
}.

(** Whether the browser decodes a data URL into an image. *)
Record Browser : Type := mkBrowser { decodes : string -> bool }.

(** Code of the component: it may throw, and it acts on the runtime. *)
Definition Prog (A : Type) : Type := Runtime -> outcome error A * Runtime.

Definition pret {A : Type} (a : A) : Prog A := fun rt => (Returns a, rt).

Definition pbind {A B : Type} (c : Prog A) (k : A -> Prog B) : Prog B :=
  fun rt =>
    match c rt with
    | (Returns a, rt') => k a rt'
    | (Throws e, rt') => (Throws e, rt')
    end.

Definition ptry_catch {A : Type} (c : Prog A) (handler : error -> Prog A) : Prog A :=
  fun rt =>
    match c rt with
    | (Returns a, rt') => (Returns a, rt')
    | (Throws e, rt') => handler e rt'
    end.

(** [try { c } finally { f }]: [f] runs whichever way [c] ends, and an
    exception of [f] replaces the outcome of [c]. *)
Definition ptry_finally {A : Type} (c : Prog A) (f : Prog unit) : Prog A :=
  fun rt =>
    match c rt with
    | (r, rt') =>
        match f rt' with
        | (Returns _, rt'') => (r, rt'')
        | (Throws e, rt'') => (Throws e, rt'')
        end
    end.

Definition of_outcome {A : Type} (r : outcome error A) : Prog A :=
  fun rt => (r, rt).

Definition on_service {A : Type} (f : Service -> outcome error A * Service) : Prog A :=
  fun rt =>
    let '(r, this) := f (rt_service rt) in
    (r, mkRuntime this (rt_world rt) (rt_setIsProcessing rt)).

Definition on_store {A : Type} (c : M A) : Prog A :=
  fun rt =>
    let '(r, w) := c (rt_world rt) in
    (r, mkRuntime (rt_service rt) w (rt_setIsProcessing rt)).

Definition setIsProcessing (b : bool) : Prog unit :=
  fun rt =>
    (Returns tt,
     mkRuntime (rt_service rt) (rt_world rt) (rt_setIsProcessing rt ++ [b])).

Notation "x <~ c ;; k" := (pbind c (fun x => k))
  (at level 61, c at next level, right associativity).

(** The promise of [loadImageFromDataUrl] resolves with the image on
    [onload] and rejects on [onerror]. *)
Definition loadImageFromDataUrl (browser : Browser) (dataUrl : string)
  : outcome error HTMLImageElement :=
  if decodes browser dataUrl then Returns (mkImage dataUrl)
  else Throws "error"%string.

Section Processing.

Variable Math_round : number -> number.
Variable Number_toString : number -> string.

(** One pass over a captured image; it returns the alerts that
    [checkAttendanceForMatches] created. *)
Definition processImageForFaceRecognition (browser : Browser) (env : Environment)
    (snap : Snapshot) (today : string) (imageDataUrl : string)
  : Prog (list notification) :=
  if snap_isProcessing snap then pret []
  else
    _ <~ setIsProcessing true ;;
    ptry_finally
      (ptry_catch
         (imageElement <~ of_outcome (loadImageFromDataUrl browser imageDataUrl) ;;
          detectedFaces <~ on_service (fun this => detectFaces env this imageElement) ;;
          if (List.length detectedFaces =? 0)%nat then pret []
          else
            matches <~ on_service
                         (fun this =>
                            let '(found, this) :=
                              matchFaceWithStudents env this detectedFaces imageElement
                                (snap_students snap) in
                            (Returns found, this)) ;;
            on_store (checkAttendanceForMatches Math_round Number_toString
                        (snap_state snap) today matches))
         (fun _ => pret []))
      (setIsProcessing false).

End Processing.

End Pass.

Import Pass.

Section ProcessingFacts.

Variable Math_round : number -> number.
Variable Number_toString : number -> string.

(** The pass, when it is entered, by cases. *)
Lemma processImage_entered (browser : Browser) (env : Environment) (snap : Snapshot)
    (today imageDataUrl : string) (rt : Runtime) :
  snap_isProcessing snap = false ->
  processImageForFaceRecognition Math_round Number_toString browser env snap today
    imageDataUrl rt
  = let calls := (rt_setIsProcessing rt ++ [true]) ++ [false] in
    match loadImageFromDataUrl browser imageDataUrl with
    | Throws _ => (Returns [], mkRuntime (rt_service rt) (rt_world rt) calls)
    | Returns imageElement =>
        match detectFaces env (rt_service rt) imageElement with
        | (Throws _, this1) => (Returns [], mkRuntime this1 (rt_world rt) calls)
        | (Returns detectedFaces, this1) =>
            if (List.length detectedFaces =? 0)%nat
            then (Returns [], mkRuntime this1 (rt_world rt) calls)
            else
              let '(found, this2) :=
                matchFaceWithStudents env this1 detectedFaces imageElement
                  (snap_students snap) in
              match checkAttendanceForMatches Math_round Number_toString
                      (snap_state snap) today found (rt_world rt) with
              | (Returns alerts, w') => (Returns alerts, mkRuntime this2 w' calls)
              | (Throws _, w') => (Returns [], mkRuntime this2 w' calls)
              end
        end
    end.
Proof.
  intros Hfree. unfold processImageForFaceRecognition. rewrite Hfree.
  unfold pbind, ptry_finally, ptry_catch, setIsProcessing, of_outcome, on_service,
    on_store, pret. cbn [rt_service rt_world rt_setIsProcessing].
  destruct (loadImageFromDataUrl browser imageDataUrl) as [img|e]; [|reflexivity].
  destruct (detectFaces env (rt_service rt) img) as [[faces|e] this1];
    cbn [rt_service rt_world rt_setIsProcessing]; [|reflexivity].
  destruct (List.length faces =? 0)%nat;
    cbn [rt_service rt_world rt_setIsProcessing]; [reflexivity|].
  destruct (matchFaceWithStudents env this1 faces img (snap_students snap))
    as [found this2]. cbn [rt_service rt_world rt_setIsProcessing].
  destruct (checkAttendanceForMatches Math_round Number_toString (snap_state snap)
              today found (rt_world rt)) as [[alerts|e] w']; reflexivity.
Qed.

End ProcessingFacts.

(** The ids of the matches the matcher returns are distinct. *)
Lemma matchFaceWithStudents_distinct_ids (env : Environment) (this : Service)
    (detectedFaces : list DetectedFace) (imageElement : HTMLImageElement)
    (students : list Student) :
  NoDup (map (fun m => id (student m))
             (fst (matchFaceWithStudents env this detectedFaces imageElement students))).
Proof.
  destruct (matchFaceWithStudents_kept env this detectedFaces imageElement students)
    as [[Hnd Hent _] ->].
  set (o := uniqueMatches _) in *.
  unfold Object_values. rewrite map_map.
  assert (Hkeys : map (fun kv => id (student (snd kv))) (own_properties o)
                  = map fst (own_properties o)).
  { apply map_ext_in. intros [k m] Hin. simpl.
    apply (Permutation_in _ (own_properties_perm o)) in Hin.
    now destruct (Hent k m Hin) as [-> _]. }
  rewrite Hkeys.
  apply (Permutation_NoDup (l := map fst o)); [|exact Hnd].
  apply Permutation_map, Permutation_sym, own_properties_perm.
Qed.

(** X12. A pass that is entered never throws and always releases the
    flag: whatever the image, the models and the store do, it returns, and
    its calls to [setIsProcessing] are [true] then [false]. *)
Theorem processImage_releases_flag
    (Math_round : number -> number) (Number_toString : number -> string)
    (browser : Browser) (env : Environment) (snap : Snapshot)
    (today imageDataUrl : string) (rt : Runtime) :
  snap_isProcessing snap = false ->
  exists alerts rt',
    processImageForFaceRecognition Math_round Number_toString browser env snap today
      imageDataUrl rt
    = (Returns alerts, rt')
    /\ rt_setIsProcessing rt' = rt_setIsProcessing rt ++ [true; false].
Proof.
  intros Hfree. rewrite processImage_entered by exact Hfree. cbv zeta.
  rewrite <- app_assoc. simpl app.
  destruct (loadImageFromDataUrl browser imageDataUrl) as [img|e];
    [|eexists _, _; split; reflexivity].
  destruct (detectFaces env (rt_service rt) img) as [[faces|e] this1];
    [|eexists _, _; split; reflexivity].
  destruct (List.length faces =? 0)%nat; [eexists _, _; split; reflexivity|].
  destruct (matchFaceWithStudents env this1 faces img (snap_students snap))
    as [found this2].
  destruct (checkAttendanceForMatches Math_round Number_toString (snap_state snap)
              today found (rt_world rt)) as [[alerts|e] w'];
    eexists _, _; split; reflexivity.
Qed.

(** X13. Without a detected face, or outside an active class hour, a
    pass leaves the store alone: when the image does not decode, when
    [detectFaces] throws or finds no face, during a break and when no class
    hour is resolved, no alert is created and no request is sent. *)
Theorem processImage_store_untouched
    (Math_round : number -> number) (Number_toString : number -> string)
    (browser : Browser) (env : Environment) (snap : Snapshot)
    (today imageDataUrl : string) (rt : Runtime) :
  decodes browser imageDataUrl = false
  \/ (forall faces,
        fst (detectFaces env (rt_service rt) (mkImage imageDataUrl)) = Returns faces ->
        faces = [])
  \/ isBreakTime (snap_state snap) = true
  \/ currentClassHour (snap_state snap) = ""%string ->
  exists rt',
    processImageForFaceRecognition Math_round Number_toString browser env snap today
      imageDataUrl rt
    = (Returns [], rt')
    /\ rt_world rt' = rt_world rt.
Proof.
  intros Hcase.
  destruct (snap_isProcessing snap) eqn:Hbusy.
  { exists rt. split; [|reflexivity].
    unfold processImageForFaceRecognition. now rewrite Hbusy. }
  rewrite processImage_entered by exact Hbusy. cbv zeta.
  unfold loadImageFromDataUrl.
  destruct (decodes browser imageDataUrl) eqn:Hdec;
    [|eexists; split; reflexivity].
  destruct Hcase as [Hcase | Hcase]; [discriminate Hcase|].
  destruct (detectFaces env (rt_service rt) (mkImage imageDataUrl))
    as [[faces|e] this1] eqn:Hdet; [|eexists; split; reflexivity].
  destruct (List.length faces =? 0)%nat eqn:Hlen; [eexists; split; reflexivity|].
  destruct Hcase as [Hnone | Hidle].
  { specialize (Hnone faces eq_refl). subst faces. discriminate Hlen. }
  destruct (matchFaceWithStudents env this1 faces (mkImage imageDataUrl)
              (snap_students snap)) as [found this2].
  assert (Hidle' : isBreakTime (snap_state snap) = true
                   \/ currentClassHour (snap_state snap) = ""%string) by exact Hidle.
  unfold checkAttendanceForMatches.
  assert (Hsupp : isBreakTime (snap_state snap)
                  || String.eqb (currentClassHour (snap_state snap)) "" = true).
  { destruct Hidle' as [-> | ->]; [reflexivity | now rewrite orb_true_r]. }
  rewrite Hsupp. unfold ret. eexists. split; reflexivity.
Qed.

(** X14. Every alert of a pass names a student of the roster the pass
    was given, one that has a reference encoding, and carries the date of
    the pass and the class hour it closed over; no two alerts of a pass
    name the same student. This holds whatever the store answers. *)
Theorem processImage_alerts_name_roster_students
    (Math_round : number -> number) (Number_toString : number -> string)
    (browser : Browser) (env : Environment) (snap : Snapshot)
    (today imageDataUrl : string) (rt : Runtime) :
  exists alerts,
    fst (processImageForFaceRecognition Math_round Number_toString browser env snap
           today imageDataUrl rt)
    = Returns alerts
    /\ NoDup (map n_student_id alerts)
    /\ forall a, In a alerts ->
         n_date a = today
         /\ n_class_hour a = currentClassHour (snap_state snap)
         /\ exists s encoding,
              In s (snap_students snap)
              /\ face_encoding s = Some encoding
              /\ n_student_id a = id s.
Proof.
  destruct (snap_isProcessing snap) eqn:Hbusy.
  { exists []. unfold processImageForFaceRecognition. rewrite Hbusy.
    repeat split; [constructor | easy..]. }
  rewrite processImage_entered by exact Hbusy. cbv zeta.
  assert (Hnone : NoDup (map n_student_id []) /\
                  forall a, In a [] ->
                    n_date a = today
                    /\ n_class_hour a = currentClassHour (snap_state snap)
                    /\ exists s encoding,
                         In s (snap_students snap)
                         /\ face_encoding s = Some encoding
                         /\ n_student_id a = id s)
    by (split; [constructor | easy]).
  destruct (loadImageFromDataUrl browser imageDataUrl) as [img|e];
    [|exists []; split; [reflexivity | exact Hnone]].
  destruct (detectFaces env (rt_service rt) img) as [[faces|e] this1];
    [|exists []; split; [reflexivity | exact Hnone]].
  destruct (List.length faces =? 0)%nat;
    [exists []; split; [reflexivity | exact Hnone]|].
  pose proof (matchFaceWithStudents_distinct_ids env this1 faces img (snap_students snap))
    as Hdistinct.
  pose proof (matchFaceWithStudents_retained env this1 faces img
                (snap_students snap)) as Hroster.
  destruct (matchFaceWithStudents env this1 faces img (snap_students snap))
    as [found this2]. cbn [fst] in Hdistinct, Hroster.
  unfold checkAttendanceForMatches.
  destruct (isBreakTime (snap_state snap)
            || String.eqb (currentClassHour (snap_state snap)) "");
    [exists []; split; [reflexivity | exact Hnone]|].
  destruct (forEachMatch_any_store Math_round Number_toString (snap_state snap) today
              found (rt_world rt))
    as (alerts & w' & added & kept & Hrun & _ & _ & Hkept & Hmap).
  rewrite Hrun. exists alerts. split; [reflexivity|]. split.
  - rewrite Hmap, map_map. simpl.
    apply (subsequence_NoDup _ (map (fun m => id (student m)) found));
      [now apply subsequence_map | exact Hdistinct].
  - intros a Ha. rewrite Hmap in Ha. apply in_map_iff in Ha.
    destruct Ha as (m & <- & Hm). simpl.
    split; [reflexivity|]. split; [reflexivity|].
    apply (subsequence_In _ _ _ Hkept) in Hm.
    destruct (Hroster m Hm) as (_ & Hs & _ & _ & _ & enc & _ & _ & _ & _ & Henc & _).
    now exists (student m), enc.
Qed.

Definition sample_browser : Browser := mkBrowser (fun _ => true).

Definition sample_runtime : Runtime := mkRuntime new_service empty_store [].

Definition sample_snapshot (busy : bool) (st : state) : Snapshot :=
  mkSnapshot busy [student_A; student_B] st.

(** A whole pass at 09:30: the person in the picture matches student [A],
    who has no record for the hour. *)
Example processImage_scenario :
  let '(r, rt) :=
    processImageForFaceRecognition sample_round sample_toString sample_browser
      sample_env (sample_snapshot false morning) "2025-03-10"
      "data:image/jpeg;base64,AAAA" sample_runtime in
  r = Returns [mkNotification "A"
                 "Asha detected without attendance or duty leave (confidence: 100%)"
                 "09:00:00" "2025-03-10"]
  /\ initialized (rt_service rt) = true
  /\ List.length (notifications (database (rt_world rt))) = 1
  /\ rt_setIsProcessing rt = [true; false].
Proof. vm_compute. repeat split. Qed.

Lemma processImage_releases_flag_witness :
  exists alerts rt',
    processImageForFaceRecognition sample_round sample_toString
      (mkBrowser (fun _ => false)) offline_env (sample_snapshot false morning)
      "2025-03-10" "data:text/plain,hello" sample_runtime
    = (Returns alerts, rt')
    /\ rt_setIsProcessing rt' = rt_setIsProcessing sample_runtime ++ [true; false].
Proof.
  apply (processImage_releases_flag sample_round sample_toString
           (mkBrowser (fun _ => false)) offline_env (sample_snapshot false morning)
           "2025-03-10" "data:text/plain,hello" sample_runtime).
  reflexivity.
Defined.

Lemma processImage_store_untouched_witness :
  exists rt',
    processImageForFaceRecognition sample_round sample_toString sample_browser
      sample_env (sample_snapshot false (updateCurrentClassHour (currentTime 10 50)))
      "2025-03-10" "data:image/jpeg;base64,AAAA" sample_runtime
    = (Returns [], rt')
    /\ rt_world rt' = rt_world sample_runtime.
Proof.
  apply (processImage_store_untouched sample_round sample_toString sample_browser
           sample_env (sample_snapshot false (updateCurrentClassHour (currentTime 10 50)))
           "2025-03-10" "data:image/jpeg;base64,AAAA" sample_runtime).
  right. right. left. reflexivity.
Defined.

(** ** The attendance marking component *)

Module AttendanceMarking.

(** The two dictionaries of the form, keyed by student id. *)
Record form : Type := mkForm {
  attendance : object string;
  dutyLeaves : object bool
}.

Definition empty_form : form := mkForm [] [].

(** [{ ...prev, [k]: v }]: the own properties of [prev] are copied in
    their enumeration order, then [k] is defined. *)
Definition spread_with {V : Type} (prev : object V) (k : string) (v : V) : object V :=
  assign (own_properties prev) k v.

Inductive status : Type := present | absent.

Definition status_text (s : status) : string :=
  match s with present => "present" | absent => "absent" end.

Definition markAttendance (studentId : string) (s : status) (f : form) : form :=
  let attendance' := spread_with (attendance f) studentId (status_text s) in
  match s with
  | present => mkForm attendance' (spread_with (dutyLeaves f) studentId false)
  | absent => mkForm attendance' (dutyLeaves f)
  end.

Definition markDutyLeave (studentId : string) (hasLeave : bool) (f : form) : form :=
  let dutyLeaves' := spread_with (dutyLeaves f) studentId hasLeave in
  if hasLeave then mkForm (spread_with (attendance f) studentId ""%string) dutyLeaves'
  else mkForm (attendance f) dutyLeaves'.

(** The windows of this component: no breaks, and no break flag. *)
Record schedule : Type := mkSchedule {
  start : string;
  end_ : string;
  time : string
}.

Definition schedules : list schedule :=
  [ mkSchedule "09:00" "10:00" "09:00:00";
    mkSchedule "10:00" "10:45" "10:00:00";
    mkSchedule "11:00" "12:00" "11:00:00";
    mkSchedule "12:00" "12:45" "12:00:00";
    mkSchedule "13:30" "14:30" "13:30:00";
    mkSchedule "14:30" "15:30" "14:30:00";
    mkSchedule "15:45" "16:20" "15:45:00" ]%string.

(** The resolver of this component sets the class hour when a window
    contains the time and otherwise sets nothing: [currentClassHour] is the
    value of the state before the call. *)
Definition updateCurrentClassHour (currentClassHour currentTime : string) : string :=
  match find (fun s => str_ge currentTime (start s) && str_le currentTime (end_ s))
             schedules with
  | Some currentSchedule => time currentSchedule
  | None => currentClassHour
  end.

Inductive request : Type :=
| UpsertAttendance (row : attendance_record)
| UpsertDutyLeave (row : duty_leave).

(** What a submission does: the requests it sends, the title of the toast
    it shows, its calls to [setLoading], and the form it leaves. *)
Record submission : Type := mkSubmission {
  requests : list request;
  toast : string;
  setLoading : list bool;
  form_after : form
}.

Definition attendancePromises (currentClassHour today : string) (f : form)
  : list request :=
  flat_map
    (fun entry : string * string =>
       let '(studentId, st) := entry in
       if String.eqb st "" then []
       else [UpsertAttendance (mkAttendance studentId today currentClassHour st)])
    (own_properties (attendance f)).

Definition dutyLeavePromises (currentClassHour today : string) (f : form)
  : list request :=
  flat_map
    (fun entry : string * bool =>
       let '(studentId, hasLeave) := entry in
       if hasLeave
       then [UpsertDutyLeave
               (mkDutyLeave studentId today currentClassHour (Some "Duty assigned"%string))]
       else [])
    (own_properties (dutyLeaves f)).

Definition is_rejected (o : fate) : bool :=
  match o with Rejected _ => true | _ => false end.

(** [outcomes] are the fates of the requests, in order (served when the
    list is shorter); [Promise.all] rejects when one of them does. *)
Definition submitAttendance (currentClassHour today : string) (outcomes : list fate)
    (f : form) : submission :=
  if String.eqb currentClassHour "" then mkSubmission [] "Error" [] f
  else
    let sent := attendancePromises currentClassHour today f
                ++ dutyLeavePromises currentClassHour today f in
    if existsb is_rejected (firstn (List.length sent) outcomes)
    then mkSubmission sent "Error" [true; false] f
    else mkSubmission sent "Success" [true; false] empty_form.

(** The clicks on the form. *)
Inductive action : Type :=
| MarkAttendance (studentId : string) (s : status)
| MarkDutyLeave (studentId : string) (hasLeave : bool).

Definition act (f : form) (a : action) : form :=
  match a with
  | MarkAttendance studentId s => markAttendance studentId s f
  | MarkDutyLeave studentId hasLeave => markDutyLeave studentId hasLeave f
  end.

Definition form_after_actions (actions : list action) : form :=
  fold_left act actions empty_form.

End AttendanceMarking.

Section DictionaryUpdates.
Context {V : Type}.
Implicit Types (o : object V) (k : string) (v : V).

Lemma own_assign o k v k' :
  own (assign o k v) k' = if String.eqb k k' then Some v else own o k'.
Proof.
  induction o as [|[k0 v0] o IH]; simpl.
  - reflexivity.
  - destruct (String.eqb_spec k0 k) as [->|Hne]; simpl.
    + now destruct (String.eqb k k').
    + rewrite IH. destruct (String.eqb_spec k0 k') as [->|Hne'].
      * destruct (String.eqb_spec k k'); [congruence | reflexivity].
      * reflexivity.
Qed.

Lemma assign_NoDup o k v : NoDup (map fst o) -> NoDup (map fst (assign o k v)).
Proof.
  intros Hnd. destruct (own o k) as [e|] eqn:Hown.
  - now rewrite (assign_keys o k v e Hown).
  - rewrite (assign_new o k v Hown), map_app. simpl.
    apply NoDup_app; [exact Hnd | repeat constructor; simpl; tauto |].
    intros k' Hk' [<- | []]. now apply (own_None_keys _ _ Hown).
Qed.

Lemma own_In_keys o k : own o k = None <-> ~ In k (map fst o).
Proof.
  split; [apply own_None_keys|].
  induction o as [|[k0 v0] o IH]; simpl; [reflexivity|].
  intros Hnot. destruct (String.eqb_spec k0 k) as [->|Hne]; [tauto|].
  apply IH. tauto.
Qed.

Lemma own_Permutation o1 o2 k :
  Permutation o1 o2 -> NoDup (map fst o1) -> own o1 k = own o2 k.
Proof.
  intros Hperm Hnd.
  assert (Hnd2 : NoDup (map fst o2))
    by (eapply Permutation_NoDup; [apply Permutation_map, Hperm | exact Hnd]).
  destruct (own o1 k) as [v|] eqn:H1.
  - symmetry. apply In_own; [exact Hnd2|].
    apply (Permutation_in _ Hperm). now apply own_In.
  - symmetry. apply own_In_keys. intros Hin.
    apply (own_None_keys _ _ H1).
    apply (Permutation_in _ (Permutation_map fst (Permutation_sym Hperm))). exact Hin.
Qed.

Lemma own_properties_NoDup o : NoDup (map fst o) -> NoDup (map fst (own_properties o)).
Proof.
  intros Hnd. eapply Permutation_NoDup; [|exact Hnd].
  apply Permutation_map, Permutation_sym, own_properties_perm.
Qed.

Lemma own_own_properties o k : NoDup (map fst o) -> own (own_properties o) k = own o k.
Proof.
  intros Hnd. apply own_Permutation; [apply own_properties_perm|].
  now apply own_properties_NoDup.
Qed.

Lemma spread_with_NoDup o k v :
  NoDup (map fst o) -> NoDup (map fst (AttendanceMarking.spread_with o k v)).
Proof.
  intros Hnd. unfold AttendanceMarking.spread_with.
  now apply assign_NoDup, own_properties_NoDup.
Qed.

Lemma own_spread_with o k v k' :
  NoDup (map fst o) ->
  own (AttendanceMarking.spread_with o k v) k'
  = if String.eqb k k' then Some v else own o k'.
Proof.
  intros Hnd. unfold AttendanceMarking.spread_with.
  now rewrite own_assign, own_own_properties.
Qed.

End DictionaryUpdates.

(** ** Marks and submissions of the attendance form *)

(** What every form reached by clicks satisfies. *)
Definition form_ok (f : AttendanceMarking.form) : Prop :=
  NoDup (map fst (AttendanceMarking.attendance f))
  /\ NoDup (map fst (AttendanceMarking.dutyLeaves f))
  /\ (forall s v, own (AttendanceMarking.attendance f) s = Some v ->
        v = "present" \/ v = "absent" \/ v = "")%string
  /\ (forall s, own (AttendanceMarking.attendance f) s = Some "present"%string ->
        own (AttendanceMarking.dutyLeaves f) s = Some false).

Lemma empty_form_ok : form_ok AttendanceMarking.empty_form.
Proof.
  repeat split; simpl; try constructor; discriminate.
Qed.

Lemma act_form_ok (f : AttendanceMarking.form) (a : AttendanceMarking.action) :
  form_ok f -> form_ok (AttendanceMarking.act f a).
Proof.
  intros (Ha & Hd & Hv & Hp).
  destruct a as [studentId [|] | studentId [|]];
    unfold AttendanceMarking.act, AttendanceMarking.markAttendance,
      AttendanceMarking.markDutyLeave, form_ok;
    cbn [AttendanceMarking.attendance AttendanceMarking.dutyLeaves
         AttendanceMarking.status_text];
    (split; [try apply spread_with_NoDup; assumption|]);
    (split; [try apply spread_with_NoDup; assumption|]);
    split.
  - intros s v. rewrite (own_spread_with _ _ _ _ Ha).
    destruct (String.eqb studentId s); [intros [= <-]; auto | apply Hv].
  - intros s. rewrite (own_spread_with _ _ _ _ Ha), (own_spread_with _ _ _ _ Hd).
    destruct (String.eqb studentId s); [reflexivity | apply Hp].
  - intros s v. rewrite (own_spread_with _ _ _ _ Ha).
    destruct (String.eqb studentId s); [intros [= <-]; auto | apply Hv].
  - intros s. rewrite (own_spread_with _ _ _ _ Ha).
    destruct (String.eqb studentId s); [discriminate | apply Hp].
  - intros s v. rewrite (own_spread_with _ _ _ _ Ha).
    destruct (String.eqb studentId s); [intros [= <-]; auto | apply Hv].
  - intros s. rewrite (own_spread_with _ _ _ _ Ha), (own_spread_with _ _ _ _ Hd).
    destruct (String.eqb studentId s); [discriminate | apply Hp].
  - exact Hv.
  - intros s Hs. rewrite (own_spread_with _ _ _ _ Hd).
    destruct (String.eqb studentId s); [reflexivity | now apply Hp].
Qed.

Lemma fold_act_form_ok (actions : list AttendanceMarking.action)
    (f : AttendanceMarking.form) :
  form_ok f -> form_ok (fold_left AttendanceMarking.act actions f).
Proof.
  revert f. induction actions as [|a actions IH]; intros f Hf; simpl; [exact Hf|].
  now apply IH, act_form_ok.
Qed.

Lemma form_after_actions_ok (actions : list AttendanceMarking.action) :
  form_ok (AttendanceMarking.form_after_actions actions).
Proof. apply fold_act_form_ok, empty_form_ok. Qed.

(** X15. Whatever the sequence of clicks on the form, a student marked
    present is not on duty leave: the duty-leave entry of that student
    exists and is [false]. *)
Theorem marks_present_excludes_leave
    (actions : list AttendanceMarking.action) (studentId : string) :
  own (AttendanceMarking.attendance (AttendanceMarking.form_after_actions actions))
      studentId = Some "present"%string ->
  own (AttendanceMarking.dutyLeaves (AttendanceMarking.form_after_actions actions))
      studentId = Some false.
Proof. apply form_after_actions_ok. Qed.

Definition student_of (a : AttendanceMarking.action) : string :=
  match a with
  | AttendanceMarking.MarkAttendance studentId _ => studentId
  | AttendanceMarking.MarkDutyLeave studentId _ => studentId
  end.

(** X16. A click changes the entries of its own student only, although the
    spread copies the whole dictionary (and may re-order its keys): every
    other student reads the same in both dictionaries, and the clicked
    student reads the value just set. *)
Theorem marks_are_local
    (actions : list AttendanceMarking.action) (a : AttendanceMarking.action) :
  let f := AttendanceMarking.form_after_actions actions in
  let f' := AttendanceMarking.act f a in
  (forall s, s <> student_of a ->
     own (AttendanceMarking.attendance f') s = own (AttendanceMarking.attendance f) s
     /\ own (AttendanceMarking.dutyLeaves f') s = own (AttendanceMarking.dutyLeaves f) s)
  /\ match a with
     | AttendanceMarking.MarkAttendance studentId s =>
         own (AttendanceMarking.attendance f') studentId
         = Some (AttendanceMarking.status_text s)
     | AttendanceMarking.MarkDutyLeave studentId hasLeave =>
         own (AttendanceMarking.dutyLeaves f') studentId = Some hasLeave
         /\ (hasLeave = true ->
             own (AttendanceMarking.attendance f') studentId = Some ""%string)
     end.
Proof.
  cbv zeta.
  destruct (form_after_actions_ok actions) as (Ha & Hd & _ & _).
  set (f := AttendanceMarking.form_after_actions actions) in *.
  split.
  - intros s Hs.
    assert (Hne : String.eqb (student_of a) s = false)
      by (apply String.eqb_neq; congruence).
    destruct a as [studentId [|] | studentId [|]];
      unfold AttendanceMarking.act, AttendanceMarking.markAttendance,
        AttendanceMarking.markDutyLeave;
      cbn [AttendanceMarking.attendance AttendanceMarking.dutyLeaves student_of] in *;
      rewrite ?(own_spread_with _ _ _ _ Ha), ?(own_spread_with _ _ _ _ Hd), ?Hne;
      split; reflexivity.
  - destruct a as [studentId [|] | studentId [|]];
      unfold AttendanceMarking.act, AttendanceMarking.markAttendance,
        AttendanceMarking.markDutyLeave;
      cbn [AttendanceMarking.attendance AttendanceMarking.dutyLeaves];
      rewrite ?(own_spread_with _ _ _ _ Ha), ?(own_spread_with _ _ _ _ Hd),
        ?String.eqb_refl;
      try split; try reflexivity; discriminate.
Qed.

(** The rows a submission sends, read off the dictionaries. *)
Lemma In_own_properties {V : Type} (o : object V) (k : string) (v : V) :
  NoDup (map fst o) -> (In (k, v) (own_properties o) <-> own o k = Some v).
Proof.
  intros Hnd. split.
  - intros Hin. apply In_own; [exact Hnd|].
    apply (Permutation_in _ (own_properties_perm o)), Hin.
  - intros Hown. apply (Permutation_in _ (Permutation_sym (own_properties_perm o))).
    now apply own_In.
Qed.

Lemma In_attendancePromises (hour today : string) (f : AttendanceMarking.form)
    (r : AttendanceMarking.request) :
  NoDup (map fst (AttendanceMarking.attendance f)) ->
  (In r (AttendanceMarking.attendancePromises hour today f) <->
   exists s v, own (AttendanceMarking.attendance f) s = Some v /\ v <> ""%string
     /\ r = AttendanceMarking.UpsertAttendance (mkAttendance s today hour v)).
Proof.
  intros Hnd. unfold AttendanceMarking.attendancePromises. rewrite in_flat_map. split.
  - intros [[s v] [Hin Hr]]. apply (In_own_properties _ _ _ Hnd) in Hin.
    destruct (String.eqb_spec v "") as [->|Hne]; [destruct Hr|].
    destruct Hr as [<- | []]. now exists s, v.
  - intros (s & v & Hown & Hne & ->). exists (s, v).
    split; [now apply In_own_properties|].
    destruct (String.eqb_spec v "") as [->|_]; [congruence | now left].
Qed.

Lemma In_dutyLeavePromises (hour today : string) (f : AttendanceMarking.form)
    (r : AttendanceMarking.request) :
  NoDup (map fst (AttendanceMarking.dutyLeaves f)) ->
  (In r (AttendanceMarking.dutyLeavePromises hour today f) <->
   exists s, own (AttendanceMarking.dutyLeaves f) s = Some true
     /\ r = AttendanceMarking.UpsertDutyLeave
              (mkDutyLeave s today hour (Some "Duty assigned"%string))).
Proof.
  intros Hnd. unfold AttendanceMarking.dutyLeavePromises. rewrite in_flat_map. split.
  - intros [[s [|]] [Hin Hr]]; [|destruct Hr].
    apply (In_own_properties _ _ _ Hnd) in Hin.
    destruct Hr as [<- | []]. now exists s.
  - intros (s & Hown & ->). exists (s, true).
    split; [now apply In_own_properties | now left].
Qed.

Lemma requests_submitAttendance (hour today : string) (outcomes : list fate)
    (f : AttendanceMarking.form) :
  AttendanceMarking.requests (AttendanceMarking.submitAttendance hour today outcomes f)
  = if String.eqb hour "" then []
    else AttendanceMarking.attendancePromises hour today f
         ++ AttendanceMarking.dutyLeavePromises hour today f.
Proof.
  unfold AttendanceMarking.submitAttendance.
  destruct (String.eqb hour ""); [reflexivity|].
  cbv zeta.
  now destruct (existsb _ _).
Qed.

(** X17. The rows of a submission, for a form reached by clicks: every
    attendance row carries the class hour (never empty) and the date, a
    status the table's check accepts ([present] or [absent]) and the mark
    of its student; every duty-leave row is for a student whose leave is
    ticked; and a student with a duty-leave row never gets a [present]
    row in the same submission. *)
Theorem submitAttendance_rows
    (actions : list AttendanceMarking.action) (hour today : string)
    (outcomes : list fate) :
  let f := AttendanceMarking.form_after_actions actions in
  let sent :=
    AttendanceMarking.requests
      (AttendanceMarking.submitAttendance hour today outcomes f) in
  (forall row, In (AttendanceMarking.UpsertAttendance row) sent ->
     hour <> ""%string /\ ar_class_hour row = hour /\ ar_date row = today
     /\ (ar_status row = "present" \/ ar_status row = "absent")%string
     /\ own (AttendanceMarking.attendance f) (ar_student_id row)
        = Some (ar_status row))
  /\ (forall row, In (AttendanceMarking.UpsertDutyLeave row) sent ->
        hour <> ""%string /\ dl_class_hour row = hour /\ dl_date row = today
        /\ dl_reason row = Some "Duty assigned"%string
        /\ own (AttendanceMarking.dutyLeaves f) (dl_student_id row) = Some true)
  /\ (forall a d,
        In (AttendanceMarking.UpsertAttendance a) sent ->
        In (AttendanceMarking.UpsertDutyLeave d) sent ->
        ar_student_id a = dl_student_id d -> ar_status a = "absent"%string).
Proof.
  cbv zeta.
  destruct (form_after_actions_ok actions) as (Ha & Hd & Hv & Hp).
  set (f := AttendanceMarking.form_after_actions actions) in *.
  rewrite requests_submitAttendance.
  assert (Hatt : forall row,
    In (AttendanceMarking.UpsertAttendance row)
       (if String.eqb hour "" then []
        else AttendanceMarking.attendancePromises hour today f
             ++ AttendanceMarking.dutyLeavePromises hour today f) ->
    hour <> ""%string /\ ar_class_hour row = hour /\ ar_date row = today
    /\ (ar_status row = "present" \/ ar_status row = "absent")%string
    /\ own (AttendanceMarking.attendance f) (ar_student_id row)
       = Some (ar_status row)).
  { intros row Hin. destruct (String.eqb_spec hour "") as [->|Hhour]; [destruct Hin|].
    apply in_app_or in Hin. destruct Hin as [Hin | Hin].
    - apply (In_attendancePromises _ _ _ _ Ha) in Hin.
      destruct Hin as (s & v & Hown & Hne & [= ->]). simpl.
      repeat split; try assumption.
      destruct (Hv _ _ Hown) as [-> | [-> | ->]]; [now left | now right | congruence].
    - apply (In_dutyLeavePromises _ _ _ _ Hd) in Hin.
      destruct Hin as (s & _ & Heq). discriminate Heq. }
  assert (Hdl : forall row,
    In (AttendanceMarking.UpsertDutyLeave row)
       (if String.eqb hour "" then []
        else AttendanceMarking.attendancePromises hour today f
             ++ AttendanceMarking.dutyLeavePromises hour today f) ->
    hour <> ""%string /\ dl_class_hour row = hour /\ dl_date row = today
    /\ dl_reason row = Some "Duty assigned"%string
    /\ own (AttendanceMarking.dutyLeaves f) (dl_student_id row) = Some true).
  { intros row Hin. destruct (String.eqb_spec hour "") as [->|Hhour]; [destruct Hin|].
    apply in_app_or in Hin. destruct Hin as [Hin | Hin].
    - apply (In_attendancePromises _ _ _ _ Ha) in Hin.
      destruct Hin as (s & v & _ & _ & Heq). discriminate Heq.
    - apply (In_dutyLeavePromises _ _ _ _ Hd) in Hin.
      destruct Hin as (s & Hown & [= ->]). simpl. repeat split; assumption. }
  split; [exact Hatt|]. split; [exact Hdl|].
  intros a d Hina Hind Hsame.
  destruct (Hatt a Hina) as (_ & _ & _ & [Hpresent | Habsent] & Hown); [|exact Habsent].
  destruct (Hdl d Hind) as (_ & _ & _ & _ & Hleave).
  rewrite Hpresent in Hown. apply Hp in Hown.
  rewrite Hsame in Hown. congruence.
Qed.

(** X18. Nothing that is marked is dropped: with a class hour set, every
    student whose mark is not empty gets an attendance row with that mark,
    and every student whose leave is ticked gets a duty-leave row, whatever
    the fates of the requests. *)
Theorem submitAttendance_sends_every_mark
    (actions : list AttendanceMarking.action) (hour today : string)
    (outcomes : list fate) :
  hour <> ""%string ->
  let f := AttendanceMarking.form_after_actions actions in
  let sent :=
    AttendanceMarking.requests
      (AttendanceMarking.submitAttendance hour today outcomes f) in
  (forall s v, own (AttendanceMarking.attendance f) s = Some v -> v <> ""%string ->
     In (AttendanceMarking.UpsertAttendance (mkAttendance s today hour v)) sent)
  /\ (forall s, own (AttendanceMarking.dutyLeaves f) s = Some true ->
        In (AttendanceMarking.UpsertDutyLeave
              (mkDutyLeave s today hour (Some "Duty assigned"%string))) sent).
Proof.
  intros Hhour. cbv zeta.
  destruct (form_after_actions_ok actions) as (Ha & Hd & _ & _).
  rewrite requests_submitAttendance.
  destruct (String.eqb_spec hour "") as [->|_]; [congruence|].
  split.
  - intros s v Hown Hne. apply in_or_app. left.
    apply (In_attendancePromises _ _ _ _ Ha). now exists s, v.
  - intros s Hown. apply in_or_app. right.
    apply (In_dutyLeavePromises _ _ _ _ Hd). now exists s.
Qed.

(** The table and the student a request addresses. *)
Definition target (r : AttendanceMarking.request) : string * string :=
  match r with
  | AttendanceMarking.UpsertAttendance row => ("attendance_records", ar_student_id row)
  | AttendanceMarking.UpsertDutyLeave row => ("duty_leaves", dl_student_id row)
  end%string.

Lemma promises_subsequence {E : Type}
    (g : string * E -> list AttendanceMarking.request) (table : string)
    (entries : list (string * E)) :
  (forall e, g e = [] \/ exists r, g e = [r] /\ target r = (table, fst e)) ->
  subsequence (map target (flat_map g entries))
              (map (fun e => (table, fst e)) entries).
Proof.
  intros Hg. induction entries as [|e entries IH]; simpl; [constructor|].
  destruct (Hg e) as [-> | (r & -> & <-)]; simpl; now constructor.
Qed.

Lemma tagged_keys_NoDup {E : Type} (table : string) (entries : list (string * E)) :
  NoDup (map fst entries) -> NoDup (map (fun e => (table, fst e)) entries).
Proof.
  intros Hnd. rewrite <- (map_map fst (pair table)).
  apply NoDup_map_NoDup_ForallPairs; [|exact Hnd].
  intros x y _ _ [= ->]. reflexivity.
Qed.

(** X19. A submission never sends two requests for the same student to the
    same table, so its rows cannot collide with each other on the tables'
    keys. *)
Theorem submitAttendance_one_request_per_student
    (actions : list AttendanceMarking.action) (hour today : string)
    (outcomes : list fate) :
  NoDup (map target
           (AttendanceMarking.requests
              (AttendanceMarking.submitAttendance hour today outcomes
                 (AttendanceMarking.form_after_actions actions)))).
Proof.
  destruct (form_after_actions_ok actions) as (Ha & Hd & _ & _).
  set (f := AttendanceMarking.form_after_actions actions) in *.
  rewrite requests_submitAttendance.
  destruct (String.eqb hour ""); [constructor|].
  assert (Hsa : subsequence
            (map target (AttendanceMarking.attendancePromises hour today f))
            (map (fun e => ("attendance_records"%string, fst e))
                 (own_properties (AttendanceMarking.attendance f)))).
  { apply promises_subsequence. intros [s v]. simpl.
    destruct (String.eqb v ""); [now left | right; eexists; split; reflexivity]. }
  assert (Hsd : subsequence
            (map target (AttendanceMarking.dutyLeavePromises hour today f))
            (map (fun e => ("duty_leaves"%string, fst e))
                 (own_properties (AttendanceMarking.dutyLeaves f)))).
  { apply promises_subsequence. intros [s [|]]; simpl;
      [right; eexists; split; reflexivity | now left]. }
  rewrite map_app. apply NoDup_app.
  - apply (subsequence_NoDup _ _ Hsa), tagged_keys_NoDup.
    now apply own_properties_NoDup.
  - apply (subsequence_NoDup _ _ Hsd), tagged_keys_NoDup.
    now apply own_properties_NoDup.
  - intros x Hxa Hxd.
    apply (subsequence_In _ _ _ Hsa), in_map_iff in Hxa.
    apply (subsequence_In _ _ _ Hsd), in_map_iff in Hxd.
    destruct Hxa as (? & <- & _). destruct Hxd as (? & [=] & _).
Qed.

Lemma In_firstn {A : Type} (n : nat) (l : list A) (x : A) :
  In x (firstn n l) -> In x l.
Proof.
  revert l. induction n as [|n IH]; intros [|y l]; simpl; try tauto.
  intros [-> | H]; auto.
Qed.

(** X20. The answers of the store are not inspected: with a class hour
    set, when no request is rejected the submission reports success and
    clears the form, also when the store answered requests with an error
    (so that nothing was written). *)
Theorem submitAttendance_error_responses_unnoticed
    (hour today : string) (outcomes : list fate) (f : AttendanceMarking.form) :
  hour <> ""%string ->
  (forall o, In o outcomes -> o = Served \/ o = Failed) ->
  AttendanceMarking.submitAttendance hour today outcomes f
  = AttendanceMarking.mkSubmission
      (AttendanceMarking.attendancePromises hour today f
       ++ AttendanceMarking.dutyLeavePromises hour today f)
      "Success" [true; false] AttendanceMarking.empty_form.
Proof.
  intros Hhour Hquiet. unfold AttendanceMarking.submitAttendance.
  destruct (String.eqb_spec hour "") as [->|_]; [congruence|].
  cbv zeta.
  destruct (existsb _ _) eqn:Hrej; [|reflexivity].
  apply existsb_exists in Hrej. destruct Hrej as (o & Hin & Ho).
  apply In_firstn, Hquiet in Hin. destruct Hin as [-> | ->]; discriminate Ho.
Qed.

(** X21. The form is cleared exactly on success.  After a submission that
    reports an error the marks are still there, and submitting again at
    the same class hour and date sends the same requests once more, also
    those the store had already received; after one that reports success
    a second submission sends nothing. *)
Theorem submitAttendance_then_again
    (hour today : string) (outcomes again : list fate) (f : AttendanceMarking.form) :
  let sub := AttendanceMarking.submitAttendance hour today outcomes f in
  let next :=
    AttendanceMarking.submitAttendance hour today again
      (AttendanceMarking.form_after sub) in
  (AttendanceMarking.toast sub = "Error"%string
   /\ AttendanceMarking.form_after sub = f
   /\ AttendanceMarking.requests next = AttendanceMarking.requests sub)
  \/ (AttendanceMarking.toast sub = "Success"%string
      /\ AttendanceMarking.form_after sub = AttendanceMarking.empty_form
      /\ AttendanceMarking.requests next = []
      /\ hour <> ""%string
      /\ forall o, In o (firstn (List.length (AttendanceMarking.requests sub)) outcomes) ->
           AttendanceMarking.is_rejected o = false).
Proof.
  cbv zeta. rewrite !requests_submitAttendance.
  unfold AttendanceMarking.submitAttendance.
  destruct (String.eqb_spec hour "") as [->|Hhour].
  - left. repeat split.
  - cbv zeta. destruct (existsb _ _) eqn:Hrej.
    + left. repeat split.
    + right. cbn [AttendanceMarking.toast AttendanceMarking.form_after
                  AttendanceMarking.requests].
      repeat split; [exact Hhour|].
      intros o Hin.
      destruct (AttendanceMarking.is_rejected o) eqn:Ho; [|reflexivity].
      rewrite <- Hrej. symmetry. apply existsb_exists. now exists o.
Qed.

(** The two resolvers on one minute of the day. *)
Definition resolvers_agree (hours minutes : nat) : bool :=
  let t := currentTime hours minutes in
  let st := updateCurrentClassHour t in
  match find (fun s => str_ge t (AttendanceMarking.start s)
                       && str_le t (AttendanceMarking.end_ s))
             AttendanceMarking.schedules with
  | Some s =>
      negb (isBreakTime st) && negb (String.eqb (currentClassHour st) "")
      && String.eqb (AttendanceMarking.time s) (currentClassHour st)
  | None =>
      if isBreakTime st
      then existsb (String.eqb (currentClassHour st))
                   ["10:46:00"; "12:46:00"; "15:31:00"]%string
      else String.eqb (currentClassHour st) ""
  end.

Lemma resolvers_agree_all_day :
  forallb (fun h => forallb (resolvers_agree h) (seq 0 60)) (seq 0 24) = true.
Proof. vm_compute. reflexivity. Qed.

(** X22. The resolver of the marking form and the resolver of the monitor
    agree on every class: at a time of day inside a class window both give
    the same class hour, and the monitor's break flag is off.  At every
    other time the marking form keeps the class hour it had before: these
    are the breaks, where the monitor holds the start of the break window
    ([10:46:00], [12:46:00] or [15:31:00]) with the break flag on, and the
    times outside every window, where the monitor holds the empty class
    hour with the break flag off. *)
Theorem updateCurrentClassHour_components_agree
    (hours minutes : nat) (previous : string) :
  hours < 24 -> minutes < 60 ->
  let t := currentTime hours minutes in
  let st := updateCurrentClassHour t in
  (AttendanceMarking.updateCurrentClassHour previous t = currentClassHour st
   /\ isBreakTime st = false /\ currentClassHour st <> ""%string)
  \/ (AttendanceMarking.updateCurrentClassHour previous t = previous
      /\ ((isBreakTime st = true
           /\ In (currentClassHour st) ["10:46:00"; "12:46:00"; "15:31:00"]%string)
          \/ (isBreakTime st = false /\ currentClassHour st = ""%string))).
Proof.
  intros Hh Hm. cbv zeta.
  pose proof (proj1 (forallb_forall _ _) resolvers_agree_all_day hours
                (proj2 (in_seq _ _ _) (conj (Nat.le_0_l _) Hh))) as Hrow.
  cbv beta in Hrow.
  pose proof (proj1 (forallb_forall _ _) Hrow minutes
                (proj2 (in_seq _ _ _) (conj (Nat.le_0_l _) Hm))) as Hagree.
  clear Hrow. unfold resolvers_agree in Hagree. cbv zeta in Hagree.
  unfold AttendanceMarking.updateCurrentClassHour.
  destruct (find _ AttendanceMarking.schedules) as [s|].
  - apply andb_prop in Hagree. destruct Hagree as [Hagree Htime].
    apply andb_prop in Hagree. destruct Hagree as [Hbreak Hclass].
    apply negb_true_iff in Hbreak, Hclass.
    left. split; [now apply String.eqb_eq|]. split; [exact Hbreak|].
    now apply String.eqb_neq.
  - right. split; [reflexivity|].
    destruct (isBreakTime (updateCurrentClassHour (currentTime hours minutes))).
    + left. split; [reflexivity|].
      apply existsb_exists in Hagree. destruct Hagree as (x & Hx & Heq).
      apply String.eqb_eq in Heq. now rewrite Heq.
    + right. split; [reflexivity | now apply String.eqb_eq].
Qed.

(** ** Enrolment: createFaceEmbedding and the student manager *)

Module StudentManager.

(** A file picked in the form, by its MIME type and the object URL the
    browser makes for it. *)
Record File : Type := mkFile {
  file_type : string;
  object_url : string
}.

(** What the page finds when it loads an object URL into an image: the
    width and height of the decoded image, or nothing when [onerror]
    fires. *)
Record Document : Type := mkDocument {
  loads : string -> option (number * number)
}.

(** The service's [createFaceEmbedding]: the whole image is drawn on a
    canvas of its size, and the canvas is embedded as it is. *)
Definition createFaceEmbedding (doc : Document) (env : Environment) (this : Service)
    (imageFile : File) : outcome error (list number) * Service :=
  match loads doc (object_url imageFile) with
  | None => (Throws "Failed to load image"%string, this)
  | Some (width, height) =>
      let whole := mkBox 0%float 0%float width height in
      if negb (context2d env whole)
      then (Throws "Could not get canvas context"%string, this)
      else extractFaceEmbedding env this (mkCanvas (mkImage (object_url imageFile)) whole)
  end.

Record NewStudent : Type := mkNewStudent {
  new_name : string;
  new_student_id : string
}.

(** The row given to [insert] on [students]. *)
Record StudentRow : Type := mkStudentRow {
  row_name : string;
  row_student_id : string;
  row_face_encoding : option (list number)
}.

(** What one call of [addStudent] does besides using the service: the
    titles of the toasts it shows in order, the row it sends, its calls to
    [setLoading], the form it leaves, and whether it fetches the students
    again. *)
Record Added : Type := mkAdded {
  toasts : list string;
  inserted : option StudentRow;
  setLoading : list bool;
  newStudent_after : NewStudent;
  selectedFile_after : option File;
  fetchStudents_called : bool
}.

(** The first part of the [try] block: the encoding to store together
    with the toasts shown on the way. *)
Definition faceEncodingFor (doc : Document) (env : Environment) (this : Service)
    (selectedFile : option File)
  : outcome error (option (list number) * list string) * Service :=
  match selectedFile with
  | None => (Returns (None, []), this)
  | Some file =>
      match initialize env this with
      | (Throws e, this) => (Throws e, this)
      | (Returns _, this) =>
          match createFaceEmbedding doc env this file with
          | (Throws e, this) => (Throws e, this)
          | (Returns faceEncoding, this) =>
              if (List.length faceEncoding =? 0)%nat
              then (Returns (None, ["Face Detection Failed"%string]), this)
              else (Returns (Some faceEncoding, []), this)
          end
      end
  end.

(** [addStudent]; [answer] is the fate of the insert request, if one is
    sent. *)
Definition addStudent (doc : Document) (env : Environment)
    (newStudent : NewStudent) (selectedFile : option File) (answer : fate)
    (this : Service) : Added * Service :=
  if String.eqb (new_name newStudent) "" || String.eqb (new_student_id newStudent) ""
  then (mkAdded ["Missing Information"%string] None [] newStudent selectedFile false,
        this)
  else
    match faceEncodingFor doc env this selectedFile with
    | (Throws _, this) =>
        (mkAdded ["Error"%string] None [true; false] newStudent selectedFile false, this)
    | (Returns (faceEncoding, shown), this) =>
        let row :=
          mkStudentRow (new_name newStudent) (new_student_id newStudent) faceEncoding in
        match answer with
        | Served =>
            (mkAdded (shown ++ ["Success"%string]) (Some row) [true; false]
                     (mkNewStudent "" "") None true, this)
        | Failed | Rejected _ =>
            (mkAdded (shown ++ ["Error"%string]) (Some row) [true; false]
                     newStudent selectedFile false, this)
        end
    end.

End StudentManager.

Lemma initialize_returns (env : Environment) (this ready : Service) (u : unit) :
  initialize env this = (Returns u, ready) -> initialized ready = true.
Proof.
  unfold initialize. destruct (initialized this) eqn:Hinit.
  - intros [= _ <-]. exact Hinit.
  - destruct (pipeline_detection env); [|discriminate].
    destruct (pipeline_extraction env); [|discriminate].
    intros [= _ <-]. reflexivity.
Qed.

Lemma extractFaceEmbedding_initialized (env : Environment) (this : Service)
    (faceImage : HTMLCanvasElement) :
  initialized this = true ->
  extractFaceEmbedding env this faceImage
  = (Returns match embedder this with
             | Some embed =>
                 match embed faceImage with Returns data => data | Throws _ => [] end
             | None => []
             end, this).
Proof.
  intros Hinit. unfold extractFaceEmbedding. rewrite Hinit.
  change (negb true) with false. cbv iota.
  destruct (embedder this) as [embed|]; [|reflexivity].
  now destruct (embed faceImage).
Qed.

(** The canvas [createFaceEmbedding] makes of a decoded photo. *)
Definition whole_photo (file : StudentManager.File) (width height : number)
  : HTMLCanvasElement :=
  mkCanvas (mkImage (StudentManager.object_url file))
           (mkBox 0%float 0%float width height).

Lemma faceEncodingFor_Some (doc : StudentManager.Document) (env : Environment)
    (this ready : Service) (selectedFile : option StudentManager.File)
    (encoding : list number) (shown : list string) :
  StudentManager.faceEncodingFor doc env this selectedFile
  = (Returns (Some encoding, shown), ready) ->
  encoding <> [] /\ shown = []
  /\ exists file width height embed,
       selectedFile = Some file
       /\ StudentManager.loads doc (StudentManager.object_url file) = Some (width, height)
       /\ initialize env this = (Returns tt, ready)
       /\ embedder ready = Some embed
       /\ embed (whole_photo file width height) = Returns encoding.
Proof.
  unfold StudentManager.faceEncodingFor.
  destruct selectedFile as [file|]; [|discriminate].
  destruct (initialize env this) as [[[]|e] this1] eqn:Hinit; [|discriminate].
  pose proof (initialize_returns _ _ _ _ Hinit) as Hready.
  unfold StudentManager.createFaceEmbedding.
  destruct (StudentManager.loads doc (StudentManager.object_url file))
    as [[width height]|] eqn:Hloads; [|discriminate].
  cbv zeta.
  destruct (context2d env _); [|discriminate].
  change (negb true) with false. cbv iota.
  rewrite (extractFaceEmbedding_initialized _ _ _ Hready).
  destruct (embedder this1) as [embed|] eqn:Hembed; [|discriminate].
  fold (whole_photo file width height).
  destruct (embed (whole_photo file width height)) as [data|e] eqn:Hdata; [|discriminate].
  destruct data as [|x data]; [discriminate|].
  cbn [List.length Nat.eqb]. intros [= <- <- <-].
  split; [discriminate|]. split; [reflexivity|].
  now exists file, width, height, embed.
Qed.

(** X23. The row [addStudent] sends carries the name and the student id of
    the form, both non-empty, and its face encoding is either [null] or a
    non-empty array: then a photo was picked and decoded, the models were
    loaded, and the array is what the embedding model gave for the whole
    photo, uncropped. *)
Theorem addStudent_stored_encoding (doc : StudentManager.Document) (env : Environment)
    (newStudent : StudentManager.NewStudent)
    (selectedFile : option StudentManager.File) (answer : fate) (this : Service)
    (row : StudentManager.StudentRow) :
  StudentManager.inserted
    (fst (StudentManager.addStudent doc env newStudent selectedFile answer this))
  = Some row ->
  StudentManager.row_name row = StudentManager.new_name newStudent
  /\ StudentManager.row_student_id row = StudentManager.new_student_id newStudent
  /\ StudentManager.new_name newStudent <> ""%string
  /\ StudentManager.new_student_id newStudent <> ""%string
  /\ match StudentManager.row_face_encoding row with
     | None => True
     | Some encoding =>
         encoding <> []
         /\ exists file width height embed,
              selectedFile = Some file
              /\ StudentManager.loads doc (StudentManager.object_url file)
                 = Some (width, height)
              /\ embedder
                   (snd (StudentManager.addStudent doc env newStudent selectedFile
                           answer this)) = Some embed
              /\ embed (whole_photo file width height) = Returns encoding
     end.
Proof.
  unfold StudentManager.addStudent.
  destruct (String.eqb_spec (StudentManager.new_name newStudent) "") as [|Hname];
    [discriminate|].
  destruct (String.eqb_spec (StudentManager.new_student_id newStudent) "") as [|Hid];
    [discriminate|].
  cbn [orb].
  destruct (StudentManager.faceEncodingFor doc env this selectedFile)
    as [[[faceEncoding shown]|e] ready] eqn:Hfor; [|discriminate].
  assert (Hrow : match faceEncoding with
                 | None => True
                 | Some encoding =>
                     encoding <> []
                     /\ exists file width height embed,
                          selectedFile = Some file
                          /\ StudentManager.loads doc (StudentManager.object_url file)
                             = Some (width, height)
                          /\ embedder ready = Some embed
                          /\ embed (whole_photo file width height) = Returns encoding
                 end).
  { destruct faceEncoding as [encoding|]; [|exact I].
    destruct (faceEncodingFor_Some _ _ _ _ _ _ _ Hfor)
      as (Hne & _ & file & width & height & embed & Hsel & Hloads & _ & Hembed & Hdata).
    split; [exact Hne|]. now exists file, width, height, embed. }
  destruct answer; cbn [fst snd StudentManager.inserted]; intros [= <-];
    cbn [StudentManager.row_name StudentManager.row_student_id
         StudentManager.row_face_encoding];
    repeat split; assumption.
Qed.

(** X24. When the models cannot be loaded, a student is added exactly when
    no photo was picked: with a photo nothing is sent to the store, without
    one the row goes out with no face encoding and the service is not
    touched. *)
Theorem addStudent_needs_models_only_for_photo (doc : StudentManager.Document)
    (env : Environment) (newStudent : StudentManager.NewStudent)
    (selectedFile : option StudentManager.File) (answer : fate) (this : Service)
    (e : error) :
  StudentManager.new_name newStudent <> ""%string ->
  StudentManager.new_student_id newStudent <> ""%string ->
  fst (initialize env this) = Throws e ->
  let '(added, this') :=
    StudentManager.addStudent doc env newStudent selectedFile answer this in
  match selectedFile with
  | Some _ =>
      added = StudentManager.mkAdded ["Error"%string] None [true; false]
                newStudent selectedFile false
      /\ this' = snd (initialize env this)
  | None =>
      StudentManager.inserted added
      = Some (StudentManager.mkStudentRow (StudentManager.new_name newStudent)
                (StudentManager.new_student_id newStudent) None)
      /\ this' = this
  end.
Proof.
  intros Hname Hid Hinit. unfold StudentManager.addStudent.
  destruct (String.eqb_spec (StudentManager.new_name newStudent) "") as [|_];
    [contradiction|].
  destruct (String.eqb_spec (StudentManager.new_student_id newStudent) "") as [|_];
    [contradiction|].
  cbn [orb]. unfold StudentManager.faceEncodingFor.
  destruct selectedFile as [file|].
  - destruct (initialize env this) as [[u|e'] this1]; [discriminate Hinit|].
    split; reflexivity.
  - destruct answer; split; reflexivity.
Qed.

(** X25. A failure of the embedding model does not stop an enrolment: when
    the models load and the photo decodes but no embedding comes out (the
    model is missing, throws or gives an empty array), the student is
    still sent to the store, without a face encoding, and after the
    warning the call reports success. *)
Theorem addStudent_embedder_failure_enrols_without_face
    (doc : StudentManager.Document) (env : Environment)
    (newStudent : StudentManager.NewStudent) (file : StudentManager.File)
    (width height : number) (this : Service) :
  StudentManager.new_name newStudent <> ""%string ->
  StudentManager.new_student_id newStudent <> ""%string ->
  fst (initialize env this) = Returns tt ->
  StudentManager.loads doc (StudentManager.object_url file) = Some (width, height) ->
  context2d env (mkBox 0%float 0%float width height) = true ->
  fst (extractFaceEmbedding env (snd (initialize env this))
         (whole_photo file width height)) = Returns [] ->
  StudentManager.addStudent doc env newStudent (Some file) Served this
  = (StudentManager.mkAdded ["Face Detection Failed"; "Success"]%string
       (Some (StudentManager.mkStudentRow (StudentManager.new_name newStudent)
                (StudentManager.new_student_id newStudent) None))
       [true; false] (StudentManager.mkNewStudent "" "") None true,
     snd (initialize env this)).
Proof.
  intros Hname Hid Hinit Hloads Hctx Hempty. unfold StudentManager.addStudent.
  destruct (String.eqb_spec (StudentManager.new_name newStudent) "") as [|_];
    [contradiction|].
  destruct (String.eqb_spec (StudentManager.new_student_id newStudent) "") as [|_];
    [contradiction|].
  cbn [orb]. unfold StudentManager.faceEncodingFor.
  destruct (initialize env this) as [[[]|e'] ready] eqn:Hrun; [|discriminate Hinit].
  cbn [snd] in *. pose proof (initialize_returns _ _ _ _ Hrun) as Hready.
  unfold StudentManager.createFaceEmbedding. rewrite Hloads. cbv zeta.
  rewrite Hctx. change (negb true) with false. cbv iota.
  fold (whole_photo file width height).
  rewrite (extractFaceEmbedding_initialized _ _ _ Hready) in Hempty |- *.
  cbn [fst] in Hempty. injection Hempty as ->. reflexivity.
Qed.

(** X26. How a call of [addStudent] ends.  The form is cleared and the
    students are fetched again exactly when a row was sent and the store
    served it; in every other case the form and the picked file are kept.
    The loading flag is raised only after the check of the form, and it is
    always lowered again. *)
Theorem addStudent_ends (doc : StudentManager.Document) (env : Environment)
    (newStudent : StudentManager.NewStudent)
    (selectedFile : option StudentManager.File) (answer : fate) (this : Service) :
  let added :=
    fst (StudentManager.addStudent doc env newStudent selectedFile answer this) in
  (StudentManager.fetchStudents_called added = true
   /\ answer = Served
   /\ StudentManager.inserted added <> None
   /\ last (StudentManager.toasts added) ""%string = "Success"%string
   /\ StudentManager.newStudent_after added = StudentManager.mkNewStudent "" ""
   /\ StudentManager.selectedFile_after added = None
   /\ StudentManager.setLoading added = [true; false])
  \/ (StudentManager.fetchStudents_called added = false
      /\ (answer = Served -> StudentManager.inserted added = None)
      /\ StudentManager.newStudent_after added = newStudent
      /\ StudentManager.selectedFile_after added = selectedFile
      /\ ((StudentManager.toasts added = ["Missing Information"%string]
           /\ StudentManager.inserted added = None
           /\ StudentManager.setLoading added = [])
          \/ (last (StudentManager.toasts added) ""%string = "Error"%string
              /\ StudentManager.setLoading added = [true; false]))).
Proof.
  cbv zeta. unfold StudentManager.addStudent.
  destruct (String.eqb (StudentManager.new_name newStudent) ""
            || String.eqb (StudentManager.new_student_id newStudent) "").
  - right. cbn. repeat split. left. repeat split.
  - destruct (StudentManager.faceEncodingFor doc env this selectedFile)
      as [[[faceEncoding shown]|e] ready].
    + destruct answer; cbn [fst StudentManager.fetchStudents_called
        StudentManager.inserted StudentManager.toasts StudentManager.newStudent_after
        StudentManager.selectedFile_after StudentManager.setLoading].
      * left. rewrite last_last. repeat split. discriminate.
      * right. rewrite last_last. repeat split; try discriminate. right. now split.
      * right. rewrite last_last. repeat split; try discriminate. right. now split.
    + right. cbn. repeat split. right. now split.
Qed.

(** X27. Enrolment does not detect faces: once the service is initialised,
    what [addStudent] does is the same whatever detection model the
    service holds; only the embedding model is consulted, on the whole
    photo. *)
Theorem addStudent_never_detects (doc : StudentManager.Document) (env : Environment)
    (newStudent : StudentManager.NewStudent)
    (selectedFile : option StudentManager.File) (answer : fate)
    (detector1 detector2 : option Detector) (embed : option Embedder) :
  fst (StudentManager.addStudent doc env newStudent selectedFile answer
         (mkService detector1 embed true))
  = fst (StudentManager.addStudent doc env newStudent selectedFile answer
           (mkService detector2 embed true)).
Proof.
  unfold StudentManager.addStudent.
  destruct (String.eqb (StudentManager.new_name newStudent) ""
            || String.eqb (StudentManager.new_student_id newStudent) "");
    [reflexivity|].
  unfold StudentManager.faceEncodingFor.
  destruct selectedFile as [file|].
  - unfold initialize. cbn [initialized].
    unfold StudentManager.createFaceEmbedding.
    destruct (StudentManager.loads doc (StudentManager.object_url file))
      as [[width height]|]; [|reflexivity].
    cbv zeta. destruct (context2d env _); [|reflexivity].
    change (negb true) with false. cbv iota.
    rewrite !extractFaceEmbedding_initialized by reflexivity.
    cbn [embedder].
    destruct embed as [m|]; [|now destruct answer].
    destruct (m _) as [data|e]; [|now destruct answer].
    destruct (List.length data =? 0)%nat; now destruct answer.
  - now destruct answer.
Qed.

(** ** Instances of the further properties *)

Open Scope string_scope.

Definition ready_service : Service := snd (initialize sample_env new_service).

Lemma initialize_once_witness :
  fst (initialize sample_env new_service) = Returns tt
  /\ initialized ready_service = true
  /\ initialize offline_env ready_service = (Returns tt, ready_service).
Proof.
  split; [reflexivity|].
  pose proof (initialize_once sample_env new_service eq_refl) as [Hready Hlater].
  split; [exact Hready | exact (proj1 (Hlater offline_env))].
Defined.

Lemma initialize_retry_witness :
  fst (initialize offline_env new_service) = Throws "model not reachable"
  /\ initialize sample_env (snd (initialize offline_env new_service))
     = (Returns tt, mkService (Some sample_detector) (Some sample_embedder) true).
Proof.
  split; [reflexivity|].
  exact (proj2 (initialize_retry offline_env new_service "model not reachable" eq_refl)
           sample_env sample_detector sample_embedder eq_refl eq_refl).
Defined.

Definition broken_service : Service :=
  mkService (Some failing_detector) (Some sample_embedder) true.

Lemma initialized_service_never_throws_witness :
  initialized broken_service = true
  /\ exists faces,
       detectFaces offline_env broken_service sample_image
       = (Returns faces, broken_service)
       /\ faces = [].
Proof.
  split; [reflexivity|].
  destruct (proj1 (initialized_service_never_throws offline_env broken_service
                     sample_image (mkCanvas sample_image (box probe_face)) eq_refl))
    as (faces & Hrun & Hempty).
  exists faces. split; [exact Hrun|].
  apply Hempty. right. exists failing_detector, "inference failed". now split.
Defined.

(** An environment in which the canvas for a box that starts in the left
    half of the picture gets no 2d context. *)
Definition narrow_env : Environment :=
  mkEnvironment (Returns sample_detector) (Returns sample_embedder)
                (fun faceBox => (0.5 <? xmin faceBox)%float).

Definition left_face : DetectedFace :=
  mkDetectedFace (mkBox 0%float 1%float 20%float 30%float) 0.5%float None.

Lemma matchFaceWithStudents_skips_failed_face_witness :
  initialized ready_service = true
  /\ context2d narrow_env (box left_face) = false
  /\ matchFaceWithStudents narrow_env ready_service [probe_face; left_face]
       sample_image [student_A; student_B]
     = matchFaceWithStudents narrow_env ready_service [probe_face]
         sample_image [student_A; student_B].
Proof.
  split; [reflexivity|]. split; [reflexivity|].
  exact (matchFaceWithStudents_skips_failed_face narrow_env ready_service
           [probe_face] [] left_face sample_image [student_A; student_B]
           eq_refl (or_introl eq_refl)).
Defined.



(** Clicks on the form: a duty leave for [A] that is then replaced by
    [present], [B] absent and on duty leave. *)
Definition sample_clicks : list AttendanceMarking.action :=
  [ AttendanceMarking.MarkDutyLeave "A" true;
    AttendanceMarking.MarkAttendance "A" AttendanceMarking.present;
    AttendanceMarking.MarkDutyLeave "B" true;
    AttendanceMarking.MarkAttendance "B" AttendanceMarking.absent ].

Lemma marks_present_excludes_leave_witness :
  own (AttendanceMarking.attendance (AttendanceMarking.form_after_actions sample_clicks))
      "A" = Some "present"
  /\ own (AttendanceMarking.dutyLeaves (AttendanceMarking.form_after_actions sample_clicks))
         "A" = Some false.
Proof.
  split; [reflexivity|].
  exact (marks_present_excludes_leave sample_clicks "A" eq_refl).
Defined.

Lemma submitAttendance_sends_every_mark_witness :
  "09:00:00" <> ""
  /\ In (AttendanceMarking.UpsertAttendance
           (mkAttendance "B" "2025-03-10" "09:00:00" "absent"))
        (AttendanceMarking.requests
           (AttendanceMarking.submitAttendance "09:00:00" "2025-03-10" [Failed]
              (AttendanceMarking.form_after_actions sample_clicks)))
  /\ In (AttendanceMarking.UpsertDutyLeave
           (mkDutyLeave "B" "2025-03-10" "09:00:00" (Some "Duty assigned")))
        (AttendanceMarking.requests
           (AttendanceMarking.submitAttendance "09:00:00" "2025-03-10" [Failed]
              (AttendanceMarking.form_after_actions sample_clicks))).
Proof.
  assert (Hhour : "09:00:00" <> "") by discriminate.
  split; [exact Hhour|].
  pose proof (submitAttendance_sends_every_mark sample_clicks "09:00:00" "2025-03-10"
                [Failed] Hhour) as [Hmarks Hleaves].
  split.
  - apply (Hmarks "B" "absent"); [reflexivity | discriminate].
  - apply (Hleaves "B"). reflexivity.
Defined.

Lemma submitAttendance_error_responses_unnoticed_witness :
  "09:00:00" <> ""
  /\ (forall o, In o [Failed; Failed; Failed] -> o = Served \/ o = Failed)
  /\ AttendanceMarking.toast
       (AttendanceMarking.submitAttendance "09:00:00" "2025-03-10"
          [Failed; Failed; Failed]
          (AttendanceMarking.form_after_actions sample_clicks)) = "Success"
  /\ AttendanceMarking.form_after
       (AttendanceMarking.submitAttendance "09:00:00" "2025-03-10"
          [Failed; Failed; Failed]
          (AttendanceMarking.form_after_actions sample_clicks))
     = AttendanceMarking.empty_form.
Proof.
  assert (Hhour : "09:00:00" <> "") by discriminate.
  assert (Hquiet : forall o, In o [Failed; Failed; Failed] -> o = Served \/ o = Failed).
  { intros o [<- | [<- | [<- | []]]]; now right. }
  split; [exact Hhour|]. split; [exact Hquiet|].
  rewrite (submitAttendance_error_responses_unnoticed "09:00:00" "2025-03-10"
             [Failed; Failed; Failed]
             (AttendanceMarking.form_after_actions sample_clicks) Hhour Hquiet).
  split; reflexivity.
Defined.

Lemma updateCurrentClassHour_components_agree_witness :
  10 < 24 /\ 50 < 60
  /\ updateCurrentClassHour (currentTime 10 50) = mkState "10:46:00" true
  /\ AttendanceMarking.updateCurrentClassHour "10:00:00" (currentTime 10 50)
     = "10:00:00".
Proof.
  assert (Hh : 10 < 24) by lia. assert (Hm : 50 < 60) by lia.
  split; [exact Hh|]. split; [exact Hm|]. split; [reflexivity|].
  destruct (updateCurrentClassHour_components_agree 10 50 "10:00:00" Hh Hm)
    as [(_ & Hclass & _) | (Hkept & _)].
  - discriminate Hclass.
  - exact Hkept.
Defined.

(** A page on which every object URL decodes to a 640 by 480 image. *)
Definition sample_document : StudentManager.Document :=
  StudentManager.mkDocument (fun _ => Some (640%float, 480%float)).

Definition sample_file : StudentManager.File :=
  StudentManager.mkFile "image/jpeg" "blob:photo".

Definition asha : StudentManager.NewStudent := StudentManager.mkNewStudent "Asha" "S001".

Lemma addStudent_stored_encoding_witness :
  StudentManager.inserted
    (fst (StudentManager.addStudent sample_document sample_env asha (Some sample_file)
            Served new_service))
  = Some (StudentManager.mkStudentRow "Asha" "S001" (Some [0%float; 0%float]))
  /\ sample_embedder (whole_photo sample_file 640%float 480%float)
     = Returns [0%float; 0%float].
Proof.
  assert (Hsent :
    StudentManager.inserted
      (fst (StudentManager.addStudent sample_document sample_env asha (Some sample_file)
              Served new_service))
    = Some (StudentManager.mkStudentRow "Asha" "S001" (Some [0%float; 0%float])))
    by reflexivity.
  split; [exact Hsent|].
  destruct (addStudent_stored_encoding sample_document sample_env asha
              (Some sample_file) Served new_service _ Hsent)
    as (_ & _ & _ & _ & _ & _). reflexivity.
Defined.

Lemma addStudent_needs_models_only_for_photo_witness :
  StudentManager.new_name asha <> "" /\ StudentManager.new_student_id asha <> ""
  /\ fst (initialize offline_env new_service) = Throws "model not reachable"
  /\ StudentManager.inserted
       (fst (StudentManager.addStudent sample_document offline_env asha
               (Some sample_file) Served new_service)) = None.
Proof.
  assert (Hname : StudentManager.new_name asha <> "") by discriminate.
  assert (Hid : StudentManager.new_student_id asha <> "") by discriminate.
  split; [exact Hname|]. split; [exact Hid|]. split; [reflexivity|].
  pose proof (addStudent_needs_models_only_for_photo sample_document offline_env asha
                (Some sample_file) Served new_service "model not reachable"
                Hname Hid eq_refl) as Hadded.
  destruct (StudentManager.addStudent sample_document offline_env asha
              (Some sample_file) Served new_service) as [added this'].
  destruct Hadded as [-> _]. reflexivity.
Defined.

(** An embedding model that finds nothing. *)
Definition blind_embedder : Embedder := fun _ => Returns [].

Definition blind_env : Environment :=
  mkEnvironment (Returns sample_detector) (Returns blind_embedder) (fun _ => true).

Lemma addStudent_embedder_failure_enrols_without_face_witness :
  StudentManager.new_name asha <> "" /\ StudentManager.new_student_id asha <> ""
  /\ fst (initialize blind_env new_service) = Returns tt
  /\ StudentManager.loads sample_document (StudentManager.object_url sample_file)
     = Some (640%float, 480%float)
  /\ context2d blind_env (mkBox 0%float 0%float 640%float 480%float) = true
  /\ fst (extractFaceEmbedding blind_env (snd (initialize blind_env new_service))
            (whole_photo sample_file 640%float 480%float)) = Returns []
  /\ StudentManager.toasts
       (fst (StudentManager.addStudent sample_document blind_env asha
               (Some sample_file) Served new_service))
     = ["Face Detection Failed"; "Success"].
Proof.
  assert (Hname : StudentManager.new_name asha <> "") by discriminate.
  assert (Hid : StudentManager.new_student_id asha <> "") by discriminate.
  repeat (split; [first [exact Hname | exact Hid | reflexivity]|]).
  rewrite (addStudent_embedder_failure_enrols_without_face sample_document blind_env
             asha sample_file 640%float 480%float new_service
             Hname Hid eq_refl eq_refl eq_refl eq_refl).
  reflexivity.
Defined.

Close Scope string_scope.
